(** * TopStepX trade-history scripts: a shallow embedding and its properties

    The Google Apps Script sources [GAS/auto_tradehistory.js] (retrieval
    client, ledger reconciler, run orchestrator, execution log, settings
    sheet, triggers, daily run and its mails) and the daily-profit script
    ([calculateDailyProfits], its triggers and its sheets) are embedded as
    Rocq functions.

    - JavaScript numbers are binary64 floats ([PrimFloat.float]).
    - Thrown exceptions are values of [JSError]; a function that can throw
      returns a [result].
    - The spreadsheet is explicit state: a sheet is a list of rows of cells.
    - Built-ins of the runtime that depend on the host (time zones, legacy
      date parsing, [parseFloat] on text) are fields of a [Platform] record;
      those of the housekeeping functions and of the daily run are fields
      of [Services] and [RunHost].
    - A text written to a cell is kept as that text.
*)

From Stdlib Require Import ZArith List String Ascii Bool Lia Floats.
From stdpp Require Import gmap strings list sorting.

Set Warnings "-inexact-float,-register-all".
Local Open Scope string_scope.
Local Open Scope Z_scope.

(* ===================================================================== *)
(** ** Values, messages, exceptions *)
(* ===================================================================== *)

(** Values that [JSON.parse] produces, and [undefined] (an absent property). *)
Inductive JValue : Type :=
| JUndefined
| JNull
| JBool (b : bool)
| JNum (x : float)
| JStr (s : string)
| JArr (items : list JValue)
| JObj (fields : list (string * JValue)).

(** A message is a template literal that has not been rendered: the text
    of a message is never inspected by the scripts, only built and passed
    on, so the pieces are kept as they are. *)
Inductive MsgPart : Type :=
| Text (s : string)
| Interp (v : JValue)
| Int (n : Z)
| Fixed2 (x : float).

Definition Message : Type := list MsgPart.

(** The exception classes the scripts can meet.  [Error] is what the
    scripts throw themselves ([throw new Error(msg)]); the others come from
    the runtime. *)
Inductive JSError : Type :=
| Error (msg : Message)
| RangeError (msg : Message)
| TypeError (msg : Message)
| SyntaxError (msg : Message).

Definition message (e : JSError) : Message :=
  match e with
  | Error m | RangeError m | TypeError m | SyntaxError m => m
  end.

Inductive result (A : Type) : Type :=
| Ok (a : A)
| Throw (e : JSError).
Arguments Ok {A} a.
Arguments Throw {A} e.

Definition bind {A B : Type} (r : result A) (k : A -> result B) : result B :=
  match r with
  | Ok a => k a
  | Throw e => Throw e
  end.

(** String concatenation (the [+] of JavaScript on strings). *)
Infix "+++" := String.append (right associativity, at level 60).

Notation "'let*' x ':=' r 'in' k" := (bind r (fun x => k))
  (at level 10, x pattern, r at level 100, k at level 200).

(* ===================================================================== *)
(** ** Dates: the ISO-8601 fragment of [Date] used by [getDateTimestamps] *)
(* ===================================================================== *)

Module JSDate.

(** A time value is a number of milliseconds since 1970-01-01T00:00:00Z;
    [None] is the Invalid Date (time value NaN). *)
Definition msPerDay : Z := 86400000.
Definition maxTime : Z := 8640000000000000.

Definition isLeap (y : Z) : bool :=
  (y mod 4 =? 0) && (negb (y mod 100 =? 0) || (y mod 400 =? 0)).

Definition daysInMonth (y m : Z) : Z :=
  if m =? 2 then (if isLeap y then 29 else 28)
  else if (m =? 4) || (m =? 6) || (m =? 9) || (m =? 11) then 30
  else 31.

(** Day number of a civil date of the proleptic Gregorian calendar
    (day 0 is 1970-01-01).  A day past the end of the month rolls over into
    the next month, as MakeDay does. *)
Definition daysFromCivil (y m d : Z) : Z :=
  let y' := if m <=? 2 then y - 1 else y in
  let era := y' / 400 in
  let yoe := y' - era * 400 in
  let mp := if m <=? 2 then m + 9 else m - 3 in
  let doy := (153 * mp + 2) / 5 + d - 1 in
  let doe := yoe * 365 + yoe / 4 - yoe / 100 + doy in
  era * 146097 + doe - 719468.

(** The civil date (year, month, day) of a day number. *)
Definition civilFromDays (n : Z) : Z * Z * Z :=
  let z := n + 719468 in
  let era := z / 146097 in
  let doe := z - era * 146097 in
  let yoe := (doe - doe / 1460 + doe / 36524 - doe / 146096) / 365 in
  let doy := doe - (365 * yoe + yoe / 4 - yoe / 100) in
  let mp := (5 * doy + 2) / 153 in
  let d := doy - (153 * mp + 2) / 5 + 1 in
  let m := if mp <? 10 then mp + 3 else mp - 9 in
  let y := yoe + era * 400 in
  (if m <=? 2 then y + 1 else y, m, d).

(** MakeTime and MakeDate for integral fields. *)
Definition makeTime (h mi s ms : Z) : Z := ((h * 60 + mi) * 60 + s) * 1000 + ms.
Definition makeDate (day time : Z) : Z := day * msPerDay + time.

(** TimeClip: a time value outside the representable range is NaN. *)
Definition timeClip (t : Z) : option Z :=
  if Z.abs t <=? maxTime then Some t else None.

(** *** Decimal digits *)

Definition isDigit (c : ascii) : bool :=
  let n := nat_of_ascii c in (48 <=? n)%nat && (n <=? 57)%nat.

Definition digitVal (c : ascii) : Z := Z.of_nat (nat_of_ascii c) - 48.

Definition digitChar (v : Z) : ascii := ascii_of_nat (Z.to_nat (v + 48)).

Fixpoint allDigits (s : string) : bool :=
  match s with
  | EmptyString => true
  | String c s' => isDigit c && allDigits s'
  end.

(** Value of a digit string, most significant digit first. *)
Fixpoint numAcc (acc : Z) (s : string) : Z :=
  match s with
  | EmptyString => acc
  | String c s' => numAcc (acc * 10 + digitVal c) s'
  end.
Definition numOf (s : string) : Z := numAcc 0 s.

(** [w] decimal digits of a non-negative number, zero padded. *)
Fixpoint padDigits (w : nat) (v : Z) : string :=
  match w with
  | O => EmptyString
  | S w' => padDigits w' (v / 10) +++ String (digitChar (v mod 10)) EmptyString
  end.

(** *** [new Date(isoString)]

    The date-time form [YYYY-MM-DDTHH:mm:ss.sssZ] is the only one the
    script builds.  V8 accepts a month in 1..12, a day in 1..31 whatever the
    month (a day past the end of the month rolls over), hours 0..23 (or
    24:00:00.000), minutes and seconds 0..59; anything else is the Invalid
    Date. *)
Definition parseISO (s : string) : option Z :=
  if negb (String.length s =? 24)%nat then None else
  let yS := substring 0 4 s in
  let moS := substring 5 2 s in
  let dS := substring 8 2 s in
  let hS := substring 11 2 s in
  let miS := substring 14 2 s in
  let sS := substring 17 2 s in
  let msS := substring 20 3 s in
  let seps := substring 4 1 s +++ substring 7 1 s +++ substring 10 1 s +++
              substring 13 1 s +++ substring 16 1 s +++ substring 19 1 s +++
              substring 23 1 s in
  if negb (String.eqb seps "--T::.Z") then None else
  if negb (allDigits (yS +++ moS +++ dS +++ hS +++ miS +++ sS +++ msS)) then None else
  let y := numOf yS in
  let mo := numOf moS in
  let d := numOf dS in
  let h := numOf hS in
  let mi := numOf miS in
  let sec := numOf sS in
  let ms := numOf msS in
  if negb ((1 <=? mo) && (mo <=? 12)) then None else
  if negb ((1 <=? d) && (d <=? 31)) then None else
  if negb ((h <=? 23) || ((h =? 24) && (mi =? 0) && (sec =? 0) && (ms =? 0))) then None else
  if negb ((mi <=? 59) && (sec <=? 59)) then None else
  timeClip (makeDate (daysFromCivil y mo d) (makeTime h mi sec ms)).

(** *** [Date.prototype.toISOString]

    Throws a RangeError on the Invalid Date.  Years 0..9999 print with four
    digits, the others with a sign and six digits. *)
Definition isoYear (y : Z) : string :=
  if (0 <=? y) && (y <=? 9999) then padDigits 4 y
  else (if y <? 0 then "-" else "+") +++ padDigits 6 (Z.abs y).

Definition isoOfTime (t : Z) : string :=
  let day := t / msPerDay in
  let tod := t mod msPerDay in
  let '(y, m, d) := civilFromDays day in
  isoYear y +++ "-" +++ padDigits 2 m +++ "-" +++ padDigits 2 d +++ "T" +++
  padDigits 2 (tod / 3600000) +++ ":" +++ padDigits 2 ((tod / 60000) mod 60) +++ ":" +++
  padDigits 2 ((tod / 1000) mod 60) +++ "." +++ padDigits 3 (tod mod 1000) +++ "Z".

Definition toISOString (date : option Z) : result string :=
  match date with
  | Some t => Ok (isoOfTime t)
  | None => Throw (RangeError [Text "Invalid time value"])
  end.

End JSDate.

(* ===================================================================== *)
(** ** Date Window Builder: [getDateTimestamps] *)
(* ===================================================================== *)

(** [/^\d{4}-\d{2}-\d{2}$/.test(dateString)] *)
Definition matchesDatePattern (s : string) : bool :=
  (String.length s =? 10)%nat &&
  JSDate.allDigits (substring 0 4 s) && String.eqb (substring 4 1 s) "-" &&
  JSDate.allDigits (substring 5 2 s) && String.eqb (substring 7 1 s) "-" &&
  JSDate.allDigits (substring 8 2 s).

(** The error the spec calls InvalidDateFormat: the script throws a plain
    [Error] with this message. *)
Definition InvalidDateFormat : JSError :=
  Error [Text "無効な日付形式です。YYYY-MM-DD形式で指定してください。"].

Record Window : Type := mkWindow {
  startTimestamp : string;
  endTimestamp : string
}.

Definition getDateTimestamps (dateString : string) : result Window :=
  if negb (matchesDatePattern dateString) then Throw InvalidDateFormat else
  let startDate := JSDate.parseISO (dateString +++ "T00:00:00.000Z") in
  let* startTimestamp := JSDate.toISOString startDate in
  let endDate := JSDate.parseISO (dateString +++ "T23:59:59.999Z") in
  let* endTimestamp := JSDate.toISOString endDate in
  Ok (mkWindow startTimestamp endTimestamp).

Example getDateTimestamps_2025_05_09 :
  getDateTimestamps "2025-05-09"
  = Ok (mkWindow "2025-05-09T00:00:00.000Z" "2025-05-09T23:59:59.999Z").
Proof. vm_compute. reflexivity. Qed.

Example parseISO_epoch : JSDate.parseISO "1970-01-01T00:00:00.000Z" = Some 0.
Proof. vm_compute. reflexivity. Qed.

Example parseISO_2000_03_01 :
  JSDate.parseISO "2000-03-01T00:00:00.000Z" = Some (11017 * 86400000).
Proof. vm_compute. reflexivity. Qed.

(* ===================================================================== *)
(** ** JavaScript values: property access, truthiness *)
(* ===================================================================== *)

(** Value of the last field named [name] ([JSON.parse] keeps the last of
    two fields with one name). *)
Fixpoint lookupField (name : string) (fields : list (string * JValue)) : option JValue :=
  match fields with
  | [] => None
  | (k, v) :: rest =>
      match lookupField name rest with
      | Some v' => Some v'
      | None => if String.eqb k name then Some v else None
      end
  end.

(** [v.name] for the data properties the scripts read ([success],
    [errorCode], [token], [accounts], [trades], [name], [id], ...): reading
    a property of [null] or [undefined] throws a TypeError, a value that
    does not have it gives [undefined]. *)
Definition getProp (v : JValue) (name : string) : result JValue :=
  match v with
  | JUndefined | JNull =>
      Throw (TypeError [Text "Cannot read properties of "; Interp v;
                        Text " (reading '"; Text name; Text "')"])
  | JObj fields =>
      Ok (match lookupField name fields with Some x => x | None => JUndefined end)
  | _ => Ok JUndefined
  end.

Definition isNaN (x : float) : bool := negb (PrimFloat.eqb x x).

(** ToBoolean *)
Definition truthy (v : JValue) : bool :=
  match v with
  | JUndefined | JNull => false
  | JBool b => b
  | JNum x => negb (PrimFloat.eqb x 0%float) && negb (isNaN x)
  | JStr s => negb (String.eqb s "")
  | JArr _ | JObj _ => true
  end.

(** [v === 0] *)
Definition strictEqZero (v : JValue) : bool :=
  match v with
  | JNum x => PrimFloat.eqb x 0%float
  | _ => false
  end.

(** [a || b] *)
Definition orElse (a b : JValue) : JValue := if truthy a then a else b.

(** [v.length === 0]: arrays and strings have a length; an object has one
    only as a field of that name. *)
Definition lengthIsZero (v : JValue) : bool :=
  match v with
  | JArr items => match items with [] => true | _ => false end
  | JStr s => String.eqb s ""
  | JObj fields =>
      match lookupField "length" fields with
      | Some x => strictEqZero x
      | None => false
      end
  | _ => false
  end.

(** Number of UTF-16 code units of a text held as UTF-8 bytes: one per
    byte that starts a character, one more for a four-byte character. *)
Fixpoint jsLength (s : string) : nat :=
  match s with
  | EmptyString => O
  | String c s' =>
      let b := nat_of_ascii c in
      ((if (b <? 128)%nat || (192 <=? b)%nat then 1 else 0) +
       (if (240 <=? b)%nat then 1 else 0) + jsLength s')%nat
  end.

(** [v.length] *)
Definition lengthOf (v : JValue) : JValue :=
  match v with
  | JArr items => JNum (PrimFloat.of_uint63 (Uint63.of_Z (Z.of_nat (List.length items))))
  | JStr s => JNum (PrimFloat.of_uint63 (Uint63.of_Z (Z.of_nat (jsLength s))))
  | JObj fields => match lookupField "length" fields with Some x => x | None => JUndefined end
  | _ => JUndefined
  end.

(* ===================================================================== *)
(** ** The host: built-ins whose result depends on the runtime *)
(* ===================================================================== *)

(** Time zones, the engine's date-text parser, number-text conversions and
    the execution context are not part of the scripts; the scripts are
    modelled over any host. *)
Record Platform : Type := mkPlatform {
  (** [text.toUpperCase()] *)
  toUpperCase : string -> string;
  (** [new Date(text)]: the time value, [None] for the Invalid Date *)
  newDate : string -> option Z;
  (** [new Date(year, month, day, hour, minute, second)] in the script's
      time zone (an absent argument is NaN) *)
  newDateLocal : float -> float -> float -> float -> float -> float -> option Z;
  (** [Number(text)] *)
  numberOfText : string -> float;
  (** [parseFloat(text)]; the empty text has no number in it *)
  parseFloatText : string -> float;
  parseFloatText_empty : isNaN (parseFloatText "") = true;
  (** [Utilities.formatDate(date, timeZone, 'yyyy-MM-dd')] *)
  formatDate : option Z -> string -> result string;
  (** [Session.getScriptTimeZone()] *)
  scriptTimeZone : string;
  (** the text a cell shows when it is given an array or an object *)
  renderCompound : JValue -> string;
  (** [ScriptApp.getAuthMode() === ScriptApp.AuthMode.FULL] *)
  authModeFull : bool;
  (** whether [SpreadsheetApp.getUi()] is available (it throws when the
      script runs from a time-driven trigger) *)
  uiAvailable : bool
}.

(* ===================================================================== *)
(** ** Remote trade-data provider *)
(* ===================================================================== *)

Record HttpResponse : Type := mkResponse {
  responseCode : Z;            (* response.getResponseCode() *)
  contentText : string;        (* response.getContentText() *)
  json : option JValue         (* JSON.parse(contentText); None: not JSON *)
}.

(** The three requests of the client, with what each carries. *)
Inductive Request : Type :=
| AuthRequest (userName apiKey : string)
| AccountSearchRequest (token : JValue)
| TradeSearchRequest (token accountId : JValue) (startTimestamp endTimestamp : string).

(** [UrlFetchApp.fetch] against the provider.  With [muteHttpExceptions]
    an HTTP error is a response; [Throw] is a failure of the fetch itself
    (no connection, timeout). *)
Definition Remote : Type := Request -> result HttpResponse.

(** A computation that may throw and records the requests it has sent. *)
Definition RunM (A : Type) : Type := (result A * list Request)%type.

Definition retM {A : Type} (a : A) : RunM A := (Ok a, []).
Definition throwM {A : Type} (e : JSError) : RunM A := (Throw e, []).
Definition liftM {A : Type} (r : result A) : RunM A := (r, []).

Definition bindM {A B : Type} (m : RunM A) (k : A -> RunM B) : RunM B :=
  match m with
  | (Ok a, sent) => let '(r, sent') := k a in (r, (sent ++ sent')%list)
  | (Throw e, sent) => (Throw e, sent)
  end.

Notation "'let+' x ':=' m 'in' k" := (bindM m (fun x => k))
  (at level 10, x pattern, m at level 100, k at level 200).

Definition fetchM (remote : Remote) (req : Request) : RunM HttpResponse :=
  (remote req, [req]).

(** [JSON.parse(responseBody)] *)
Definition jsonParse (response : HttpResponse) : result JValue :=
  match json response with
  | Some v => Ok v
  | None => Throw (SyntaxError [Text "Unexpected token in JSON"])
  end.

(** The [catch] block shared by the three client functions: a SyntaxError
    is replaced by an [Error] that says the response could not be parsed,
    anything else is thrown again. *)
Definition rethrow {A : Type} (parseFailure : Message) (m : RunM A) : RunM A :=
  match m with
  | (Throw (SyntaxError detail), sent) => (Throw (Error (parseFailure ++ detail)%list), sent)
  | other => other
  end.

(** The condition [responseCode === 200 && responseData.success &&
    responseData.errorCode === 0 (&& responseData.<required>)], evaluated
    left to right with short circuit. *)
Definition apiSuccess (code : Z) (data : JValue) (required : option string) : result bool :=
  if negb (code =? 200) then Ok false else
  let* success := getProp data "success" in
  if negb (truthy success) then Ok false else
  let* errorCode := getProp data "errorCode" in
  if negb (strictEqZero errorCode) then Ok false else
  match required with
  | None => Ok true
  | Some field => let* x := getProp data field in Ok (truthy x)
  end.

(** [responseData.errorMessage || responseBody || '不明なエラー'] *)
Definition errorDetail (data : JValue) (body : string) : result JValue :=
  let* errorMessage := getProp data "errorMessage" in
  Ok (orElse errorMessage (orElse (JStr body) (JStr "不明なエラー"))).

(** The error the spec calls AuthenticationError: it carries the HTTP
    status and the application error message. *)
Definition AuthenticationError (code : Z) (detail : JValue) : JSError :=
  Error [Text "認証エラー ("; Int code; Text "): "; Interp detail].

(** The error the spec calls ResponseParseError (here for [authenticate]). *)
Definition authParseFailure : Message :=
  [Text "認証レスポンスの解析に失敗しました。レスポンス内容を確認してください。 詳細: "].

Definition authenticate (remote : Remote) (userName apiKey : string) : RunM JValue :=
  rethrow authParseFailure (
    let+ response := fetchM remote (AuthRequest userName apiKey) in
    let responseCode := responseCode response in
    let responseBody := contentText response in
    liftM (
      let* responseData := jsonParse response in
      let* ok := apiSuccess responseCode responseData (Some "token") in
      if ok then getProp responseData "token"
      else
        let* detail := errorDetail responseData responseBody in
        Throw (AuthenticationError responseCode detail))).

Definition AccountSearchError (code : Z) (detail : JValue) : JSError :=
  Error [Text "アカウント検索エラー ("; Int code; Text "): "; Interp detail].

Definition accountParseFailure : Message :=
  [Text "アカウント検索レスポンスの解析に失敗しました。レスポンス内容を確認してください。 詳細: "].

Definition searchAccounts (remote : Remote) (token : JValue) : RunM JValue :=
  rethrow accountParseFailure (
    let+ response := fetchM remote (AccountSearchRequest token) in
    let responseCode := responseCode response in
    let responseBody := contentText response in
    liftM (
      let* responseData := jsonParse response in
      let* ok := apiSuccess responseCode responseData (Some "accounts") in
      if ok then getProp responseData "accounts"
      else
        let* detail := errorDetail responseData responseBody in
        Throw (AccountSearchError responseCode detail))).

(** The error the spec calls TradeSearchError: scoped to one account. *)
Definition TradeSearchError (code : Z) (accountId detail : JValue) : JSError :=
  Error [Text "取引検索エラー ("; Int code; Text ") (AccountID: "; Interp accountId;
         Text "): "; Interp detail].

Definition tradeParseFailure (accountId : JValue) : Message :=
  [Text "取引検索レスポンスの解析に失敗しました (AccountID: "; Interp accountId;
   Text ")。レスポンス内容を確認してください。 詳細: "].

Definition searchTrades (remote : Remote) (token accountId : JValue)
    (startTimestamp endTimestamp : string) : RunM JValue :=
  rethrow (tradeParseFailure accountId) (
    let+ response :=
      fetchM remote (TradeSearchRequest token accountId startTimestamp endTimestamp) in
    let responseCode := responseCode response in
    let responseBody := contentText response in
    liftM (
      let* responseData := jsonParse response in
      let* ok := apiSuccess responseCode responseData None in
      if ok then
        let* trades := getProp responseData "trades" in
        Ok (orElse trades (JArr []))
      else
        let* detail := errorDetail responseData responseBody in
        Throw (TradeSearchError responseCode accountId detail))).

(* ===================================================================== *)
(** ** Run orchestrator, retrieval half: [getTradeHistory] *)
(* ===================================================================== *)

Module CONFIG.
Definition USERNAME : string := "YOUR_USERNAME".
Definition API_KEY : string := "YOUR_API_KEY".
Definition HISTORY_SHEET_NAME : string := "取引履歴".
Definition TIMEZONE : string := "Asia/Tokyo".
End CONFIG.

(** One entry of [results]: [{accountId, tradeCount, trades}]. *)
Record AccountResult : Type := mkAccountResult {
  accountId : JValue;
  tradeCount : JValue;
  trades : JValue
}.

(** What [getTradeHistory] returns: [{success: true, date, results}] or
    [{success: false, message}]. *)
Inductive TradeHistoryResult : Type :=
| HistorySuccess (date : string) (results : list AccountResult)
| HistoryFailure (message : Message).

Definition historySucceeded (r : TradeHistoryResult) : bool :=
  match r with
  | HistorySuccess _ _ => true
  | HistoryFailure _ => false
  end.

(** The elements of an array; calling an array method ([forEach],
    [filter]) on any other value throws a TypeError. *)
Definition asArray (v : JValue) (method : string) : result (list JValue) :=
  match v with
  | JArr items => Ok items
  | _ => Throw (TypeError [Interp v; Text "."; Text method; Text " is not a function"])
  end.

(** [items.forEach(f)] for a callback that may throw: stops at the first
    exception. *)
Fixpoint forEachR {A : Type} (f : A -> result unit) (items : list A) : result unit :=
  match items with
  | [] => Ok tt
  | x :: rest => let* _ := f x in forEachR f rest
  end.

(** [acc => Logger.log(` - ${acc.name} (ID: ${acc.id})`)]: the log line is
    not kept, reading the two properties is. *)
Definition logAccount (acc : JValue) : result unit :=
  let* _ := getProp acc "name" in
  let* _ := getProp acc "id" in
  Ok tt.

(** The filter that drops practice accounts: an account is kept when it
    is truthy, its name is a string, and the upper-cased name does not
    start with PRACTICE. *)
Definition isTradable (P : Platform) (account : JValue) : bool :=
  if truthy account then
    match getProp account "name" with
    | Ok (JStr name) => negb (String.prefix "PRACTICE" (toUpperCase P name))
    | _ => false
    end
  else false.

Definition NoAccountsFound : Message :=
  [Text "アクティブなアカウントが見つかりませんでした"].

Definition NoTradableAccountsFound : Message :=
  [Text "PRACTICEアカウントを除外した結果、対象となる取引アカウントが見つかりませんでした。"].

(** The loop [filteredAccounts.forEach(account => { ... results.push(...) })]:
    an exception of [searchTrades] leaves the loop, the accounts after it
    are not visited. *)
Fixpoint fetchAccountTrades (remote : Remote) (token : JValue) (w : Window)
    (accounts : list JValue) : RunM (list AccountResult) :=
  match accounts with
  | [] => retM []
  | account :: rest =>
      let+ id := liftM (getProp account "id") in
      let+ trades := searchTrades remote token id (startTimestamp w) (endTimestamp w) in
      let+ results := fetchAccountTrades remote token w rest in
      retM (mkAccountResult id (lengthOf trades) trades :: results)
  end.

(** The body of the [try] block. *)
Definition getTradeHistoryBody (P : Platform) (remote : Remote) (targetDate : string)
    : RunM TradeHistoryResult :=
  let+ token := authenticate remote CONFIG.USERNAME CONFIG.API_KEY in
  if negb (truthy token)
  then throwM (Error [Text "認証に失敗しました。トークンが取得できませんでした。"])
  else
  let+ allAccounts := searchAccounts remote token in
  if negb (truthy allAccounts) || lengthIsZero allAccounts
  then retM (HistoryFailure NoAccountsFound)
  else
  let+ items := liftM (asArray allAccounts "forEach") in
  let+ _ := liftM (forEachR logAccount items) in
  let filteredAccounts := List.filter (isTradable P) items in
  if (List.length filteredAccounts =? 0)%nat
  then retM (HistoryFailure NoTradableAccountsFound)
  else
  let+ w := liftM (getDateTimestamps targetDate) in
  let+ results := fetchAccountTrades remote token w filteredAccounts in
  retM (HistorySuccess targetDate results).

(** [getTradeHistory]: the result, and the requests that were sent. *)
Definition getTradeHistory (P : Platform) (remote : Remote) (targetDate : string)
    : TradeHistoryResult * list Request :=
  match getTradeHistoryBody P remote targetDate with
  | (Ok r, sent) => (r, sent)
  | (Throw error, sent) =>
      (HistoryFailure (Text "取引履歴取得処理エラー: " :: message error), sent)
  end.

(* ===================================================================== *)
(** ** Row store: sheets of cells *)
(* ===================================================================== *)

(** What [getValues] gives for a cell: a text (the empty text for an
    empty cell), a number, a boolean or a date (its time value). *)
Inductive Cell : Type :=
| CStr (s : string)
| CNum (x : float)
| CBool (b : bool)
| CDate (t : Z).

Definition blank : Cell := CStr "".

Definition isBlank (c : Cell) : bool :=
  match c with
  | CStr s => String.eqb s ""
  | _ => false
  end.

(** ToBoolean of a cell value ([if (cellValue)]). *)
Definition cellTruthy (c : Cell) : bool :=
  match c with
  | CStr s => negb (String.eqb s "")
  | CNum x => negb (PrimFloat.eqb x 0%float) && negb (isNaN x)
  | CBool b => b
  | CDate _ => true
  end.

(** A row is its cells from column A on, a sheet its rows from row 1 on;
    what lies past the end of either list is empty. *)
Abbreviation Row := (list Cell).
Abbreviation Sheet := (list (list Cell)).

(** A spreadsheet: its sheets by name ([getSheetByName], [insertSheet]). *)
Abbreviation Spreadsheet := (gmap string Sheet).

Module SheetOps.

(** One-based position of the last element that is not empty, 0 if none. *)
Fixpoint lastContent {A : Type} (empty : A -> bool) (l : list A) : nat :=
  match l with
  | [] => O
  | x :: rest =>
      match lastContent empty rest with
      | O => if empty x then O else 1%nat
      | S n => S (S n)
      end
  end.

Definition rowIsBlank (r : Row) : bool := forallb isBlank r.

Definition getLastRow (sheet : Sheet) : nat := lastContent rowIsBlank sheet.

Definition getLastColumn (sheet : Sheet) : nat :=
  fold_right (fun r acc => Nat.max (lastContent isBlank r) acc) O sheet.

(** The cell at a one-based row and column. *)
Definition cellAt (sheet : Sheet) (row col : nat) : Cell :=
  nth (col - 1) (nth (row - 1) sheet []) blank.

(** [sheet.getRange(row, col, numRows, numCols).getValues()]; a range of
    no rows or no columns is refused by [getRange]. *)
Definition getValues (sheet : Sheet) (row col numRows numCols : nat)
    : result (list (list Cell)) :=
  if (numRows =? 0)%nat then
    Throw (Error [Text "The number of rows in the range must be at least 1."])
  else if (numCols =? 0)%nat then
    Throw (Error [Text "The number of columns in the range must be at least 1."])
  else
    Ok (List.map (fun i => List.map (fun j => cellAt sheet i j) (seq col numCols))
                 (seq row numRows)).

(** [sheet.deleteRow(position)]: the rows below move up. *)
Definition deleteRow (position : nat) (sheet : Sheet) : Sheet :=
  (firstn (position - 1) sheet ++ skipn position sheet)%list.

(** [sheet.appendRow(row)]: below the last row that has content. *)
Definition appendRow (row : Row) (sheet : Sheet) : Sheet :=
  (firstn (getLastRow sheet) sheet ++ [row])%list.

(** [sheet.getRange(sheet.getLastRow() + 1, 1, rows.length, width)
    .setValues(rows)]: the rows below the last row with content are empty,
    writing there appends. *)
Definition appendRows (rows : list Row) (sheet : Sheet) : Sheet :=
  (firstn (getLastRow sheet) sheet ++ rows)%list.

(** [sheet.clearContents()] *)
Definition clearContents (sheet : Sheet) : Sheet := [].

(** [l] extended with [d] to length [n] at least. *)
Definition padTo {A : Type} (n : nat) (d : A) (l : list A) : list A :=
  (l ++ repeat d (n - List.length l))%list.

Fixpoint map2 {A B C : Type} (f : A -> B -> C) (l1 : list A) (l2 : list B) : list C :=
  match l1, l2 with
  | x :: l1', y :: l2' => f x y :: map2 f l1' l2'
  | _, _ => []
  end.

(** The cells [vals] written into a row from column [col] on. *)
Definition setRowCells (col : nat) (vals : list Cell) (r : Row) : Row :=
  let r' := padTo (col - 1 + List.length vals) blank r in
  (firstn (col - 1) r' ++ vals ++ skipn (col - 1 + List.length vals) r')%list.

(** [sheet.getRange(row, col, values.length, width).setValues(values)] *)
Definition setValues (row col : nat) (values : list (list Cell)) (sheet : Sheet) : Sheet :=
  let n := List.length values in
  let sheet' := padTo (row - 1 + n) [] sheet in
  (firstn (row - 1) sheet' ++
   map2 (setRowCells col) values (firstn n (skipn (row - 1) sheet')) ++
   skipn (row - 1 + n) sheet')%list.

(** [sheet.getRange(row, col, numRows, numCols).clear()] *)
Definition clearRange (row col numRows numCols : nat) (sheet : Sheet) : Sheet :=
  setValues row col (repeat (repeat blank numCols) numRows) sheet.

(** [sheet.getDataRange().getValues()]: from A1 to the last row and the
    last column with content; the single cell A1 for a sheet without
    content. *)
Definition getDataRangeValues (sheet : Sheet) : list (list Cell) :=
  List.map (fun i => List.map (fun j => cellAt sheet i j)
                              (seq 1 (Nat.max 1 (getLastColumn sheet))))
           (seq 1 (Nat.max 1 (getLastRow sheet))).

End SheetOps.

(* ===================================================================== *)
(** ** Ledger reconciler: [saveTradeHistoryToSheet] *)
(* ===================================================================== *)

(** The eleven column titles. *)
Definition newHeader : list string :=
  ["ID"; "アカウントID"; "契約ID"; "取引日時"; "価格"; "損益"; "手数料";
   "売買区分"; "サイズ"; "無効"; "注文ID"].

Definition numColumns : nat := List.length newHeader.

Definition headerRow : Row := List.map CStr newHeader.

(** [JSON.stringify(cells) === JSON.stringify(titles)]: the titles are
    texts, and the JSON of a text is a quoted text, that of a number or a
    boolean is not; so the two agree when each cell is the text of its
    title (a date cell prints as a quoted timestamp, which no title is). *)
Fixpoint sameAsTitles (cells : list Cell) (titles : list string) : bool :=
  match cells, titles with
  | [], [] => true
  | CStr s :: cells', t :: titles' => String.eqb s t && sameAsTitles cells' titles'
  | _, _ => false
  end.

(** First phase: make sure the sheet exists and starts with the header.
    - no sheet: insert one and append the header;
    - a sheet whose first [numColumns] header cells differ: clear all its
      contents and append the header;
    - reading the header of a sheet without content throws (a range of no
      columns). *)
Definition prepareSheet (existing : option Sheet) : result Sheet :=
  match existing with
  | None => Ok (SheetOps.appendRow headerRow [])
  | Some sheet =>
      let* values := SheetOps.getValues sheet 1 1 1 (SheetOps.getLastColumn sheet) in
      let currentHeader := nth 0 values [] in
      if negb (sameAsTitles (firstn numColumns currentHeader) newHeader)
      then Ok (SheetOps.appendRow headerRow (SheetOps.clearContents sheet))
      else Ok sheet
  end.

(** [tradeDateColumnIndex] *)
Definition tradeDateColumnIndex : nat := 4.

(** [existingDataValues]: column D of rows 2 to the last row. *)
Definition existingDataValues (sheet : Sheet) : list Cell :=
  if (1 <? SheetOps.getLastRow sheet)%nat then
    List.map (fun i => SheetOps.cellAt sheet i tradeDateColumnIndex)
             (seq 2 (SheetOps.getLastRow sheet - 1))
  else [].

(** [text.replace('T', ' ')]: the first occurrence only. *)
Fixpoint replaceFirst (a b : ascii) (s : string) : string :=
  match s with
  | EmptyString => EmptyString
  | String c s' => if Ascii.eqb c a then String b s' else String c (replaceFirst a b s')
  end.

(** What the scan makes of one cell of the date column. *)
Inductive Scanned : Type :=
| Skipped                      (* falsy, wrong type, too short, or not a date *)
| DateOf (tradeDateStr : string).

(** One step of the scan loop.  A date cell is formatted in the configured
    time zone; a text of ten characters or more is cut to nineteen, its
    first T replaced by a space, parsed and formatted, and skipped when
    that throws; anything else is skipped.  (Character positions are byte
    positions: the texts met here are ASCII timestamps.) *)
Definition scanCell (P : Platform) (cellValue : Cell) : result Scanned :=
  if cellTruthy cellValue then
    match cellValue with
    | CDate t =>
        let* tradeDateStr := formatDate P (Some t) CONFIG.TIMEZONE in
        Ok (DateOf tradeDateStr)
    | CStr s =>
        if (10 <=? jsLength s)%nat then
          match formatDate P (newDate P (replaceFirst "T" " " (substring 0 19 s)))
                           CONFIG.TIMEZONE with
          | Ok tradeDateStr => Ok (DateOf tradeDateStr)
          | Throw _ => Ok Skipped
          end
        else Ok Skipped
    | _ => Ok Skipped
    end
  else Ok Skipped.

(** The scan loop: [rowsToDelete], the positions (from 2) of the rows whose
    date is the target date, in increasing order. *)
Fixpoint scanFrom (P : Platform) (targetDate : string) (position : nat)
    (values : list Cell) : result (list nat) :=
  match values with
  | [] => Ok []
  | cellValue :: rest =>
      let* scanned := scanCell P cellValue in
      let* more := scanFrom P targetDate (S position) rest in
      match scanned with
      | DateOf tradeDateStr =>
          if String.eqb tradeDateStr targetDate then Ok (position :: more) else Ok more
      | Skipped => Ok more
      end
  end.

Definition scanRows (P : Platform) (targetDate : string) (sheet : Sheet)
    : result (list nat) :=
  scanFrom P targetDate 2 (existingDataValues sheet).

(** [for (i = rowsToDelete.length - 1; i >= 0; i--) sheet.deleteRow(rowsToDelete[i])] *)
Definition deleteRows (rowsToDelete : list nat) (sheet : Sheet) : Sheet :=
  fold_left (fun sh position => SheetOps.deleteRow position sh) (rev rowsToDelete) sheet.

(** The value a cell takes when it is set to a JavaScript value. *)
Definition cellOf (P : Platform) (v : JValue) : Cell :=
  match v with
  | JUndefined | JNull => blank
  | JBool b => CBool b
  | JNum x => CNum x
  | JStr s => CStr s
  | JArr _ | JObj _ => CStr (renderCompound P v)
  end.

(** The ledger row of one trade. *)
Definition tradeRow (P : Platform) (accountId trade : JValue) : result Row :=
  let* id := getProp trade "id" in
  let* contractId := getProp trade "contractId" in
  let* creationTimestamp := getProp trade "creationTimestamp" in
  let* price := getProp trade "price" in
  let* profitAndLoss := getProp trade "profitAndLoss" in
  let* fees := getProp trade "fees" in
  let* side := getProp trade "side" in
  let* size := getProp trade "size" in
  let* voided := getProp trade "voided" in
  let* orderId := getProp trade "orderId" in
  Ok [cellOf P id; cellOf P accountId; cellOf P contractId; cellOf P creationTimestamp;
      cellOf P price; cellOf P profitAndLoss; cellOf P fees;
      CStr (if strictEqZero side then "買い" else "売り");
      cellOf P size;
      CStr (if truthy voided then "はい" else "いいえ");
      cellOf P orderId].

(** [totalProfit += trade.profitAndLoss], done when the value is truthy.
    The sum stays a number while numbers (or [true], which counts 1) are
    added; adding a text, an array or an object makes it a text ([None]),
    and it stays one. *)
Definition addProfit (totalProfit : option float) (profitAndLoss : JValue) : option float :=
  if truthy profitAndLoss then
    match totalProfit, profitAndLoss with
    | Some total, JNum x => Some (total + x)%float
    | Some total, JBool _ => Some (total + 1)%float
    | _, _ => None
    end
  else totalProfit.

(** The state of the two nested [forEach] loops: the rows built so far (in
    order), their count and the running total. *)
Record Built : Type := mkBuilt {
  newRows : list Row;
  rowCount : nat;
  totalProfit : option float
}.

Definition pushTrade (P : Platform) (accountId : JValue) (b : Built) (trade : JValue)
    : result Built :=
  let* row := tradeRow P accountId trade in
  let* profitAndLoss := getProp trade "profitAndLoss" in
  Ok (mkBuilt (newRows b ++ [row])%list (S (rowCount b))
              (addProfit (totalProfit b) profitAndLoss)).

Fixpoint foldR {A B : Type} (f : B -> A -> result B) (items : list A) (b : B) : result B :=
  match items with
  | [] => Ok b
  | x :: rest => let* b' := f b x in foldR f rest b'
  end.

Definition pushAccount (P : Platform) (b : Built) (accountResult : AccountResult)
    : result Built :=
  let* items := asArray (trades accountResult) "forEach" in
  foldR (pushTrade P (accountId accountResult)) items b.

Definition buildRows (P : Platform) (results : list AccountResult) : result Built :=
  foldR (pushAccount P) results (mkBuilt [] O (Some 0%float)).

(** What [saveTradeHistoryToSheet] returns. *)
Inductive SaveResult : Type :=
| Saved (message : Message) (date : string) (tradeCount : nat) (totalProfit : float)
| SaveFailed (message : Message).

Definition saveSucceeded (r : SaveResult) : bool :=
  match r with
  | Saved _ _ _ _ => true
  | SaveFailed _ => false
  end.

(** The body of the [try] block: what it computes or throws, and the
    spreadsheet as it stands then.  Formatting ([formatHistorySheet]:
    number formats, colours, column widths, the filter) changes no value
    and is left out. *)
Definition saveBody (P : Platform) (targetDate : string) (results : list AccountResult)
    (ss : Spreadsheet) : result (nat * float) * Spreadsheet :=
  match prepareSheet (ss !! CONFIG.HISTORY_SHEET_NAME) with
  | Throw e => (Throw e, ss)
  | Ok sheet0 =>
      match scanRows P targetDate sheet0 with
      | Throw e => (Throw e, <[CONFIG.HISTORY_SHEET_NAME := sheet0]> ss)
      | Ok rowsToDelete =>
          let sheet1 := deleteRows rowsToDelete sheet0 in
          match buildRows P results with
          | Throw e => (Throw e, <[CONFIG.HISTORY_SHEET_NAME := sheet1]> ss)
          | Ok built =>
              let sheet2 :=
                if (0 <? List.length (newRows built))%nat
                then SheetOps.appendRows (newRows built) sheet1
                else sheet1 in
              match totalProfit built with
              | Some total =>
                  (Ok (rowCount built, total), <[CONFIG.HISTORY_SHEET_NAME := sheet2]> ss)
              | None =>
                  (Throw (TypeError [Text "totalProfit.toFixed is not a function"]),
                   <[CONFIG.HISTORY_SHEET_NAME := sheet2]> ss)
              end
          end
      end
  end.

Definition saveTradeHistoryToSheet (P : Platform) (targetDate : string)
    (result : TradeHistoryResult) (ss : Spreadsheet) : SaveResult * Spreadsheet :=
  match result with
  | HistoryFailure message =>
      (SaveFailed (Text "取引履歴の取得に失敗しました: " :: message), ss)
  | HistorySuccess _ results =>
      match saveBody P targetDate results ss with
      | (Ok (rowCount, totalProfit), ss') =>
          (Saved [Text targetDate; Text "の取引履歴をスプレッドシートに保存しました（合計";
                  Int (Z.of_nat rowCount); Text "件、損益合計: "; Fixed2 totalProfit; Text "）"]
                 targetDate rowCount totalProfit, ss')
      | (Throw error, ss') =>
          (SaveFailed (Text "スプレッドシート出力中にエラーが発生しました: " :: message error), ss')
      end
  end.

(** [fetchAndSaveTradeHistory]: retrieval, then the save when retrieval
    succeeded.  Gives the result, the spreadsheet and the requests sent. *)
Definition fetchAndSaveTradeHistory (P : Platform) (remote : Remote) (targetDate : string)
    (ss : Spreadsheet) : SaveResult * Spreadsheet * list Request :=
  let '(tradeHistoryResult, sent) := getTradeHistory P remote targetDate in
  match tradeHistoryResult with
  | HistoryFailure message =>
      (SaveFailed (Text "取引履歴の取得に失敗しました: " :: message), ss, sent)
  | HistorySuccess _ _ =>
      let '(sheetResult, ss') := saveTradeHistoryToSheet P targetDate tradeHistoryResult ss in
      (sheetResult, ss', sent)
  end.

(* ===================================================================== *)
(** ** Daily aggregator: [calculateDailyProfits] *)
(* ===================================================================== *)

(** [text.split(sep)] for a one-character separator. *)
Fixpoint splitOn (sep : ascii) (s : string) : list string :=
  match s with
  | EmptyString => [EmptyString]
  | String c s' =>
      if Ascii.eqb c sep then EmptyString :: splitOn sep s'
      else match splitOn sep s' with
           | h :: t => String c h :: t
           | [] => [String c EmptyString]
           end
  end.

(** [headers.indexOf(title)]: the first cell that is this text; [None]
    stands for -1. *)
Fixpoint indexOf (title : string) (headers : list Cell) : option nat :=
  match headers with
  | [] => None
  | c :: rest =>
      match c with
      | CStr s => if String.eqb s title then Some O else option_map S (indexOf title rest)
      | _ => option_map S (indexOf title rest)
      end
  end.

(** [row[index]]: [None] is [undefined] (index -1, or past the end). *)
Definition rowAt (row : list Cell) (index : option nat) : option Cell :=
  match index with
  | Some i => nth_error row i
  | None => None
  end.

(** The element of [parts.map(Number)] bound by the destructuring at
    position [i]; an absent element is [undefined], NaN as a number. *)
Definition numberAt (P : Platform) (parts : list string) (i : nat) : float :=
  match nth_error parts i with
  | Some part => numberOfText P part
  | None => nan
  end.

(** The [try] block of the loop: the time value of the row's date, or
    [None] when the row is skipped ([continue]): an invalid date, or a
    value that is neither a text nor a date (calling [getTime] on it
    throws, which is caught). *)
Definition dateTimeOf (P : Platform) (cell : Cell) : option Z :=
  match cell with
  | CStr s =>
      let dateParts := splitOn " " s in
      if (List.length dateParts =? 2)%nat then
        let datePart := nth 0 dateParts EmptyString in
        let timePart := nth 1 dateParts EmptyString in
        let dateNums := splitOn "-" datePart in
        let timeNums := splitOn ":" timePart in
        newDateLocal P (numberAt P dateNums 0) (numberAt P dateNums 1 - 1)%float
                       (numberAt P dateNums 2) (numberAt P timeNums 0)
                       (numberAt P timeNums 1) (numberAt P timeNums 2)
      else newDate P s
  | CDate t => Some t
  | CNum _ | CBool _ => None
  end.

(** [parseFloat(value)]: a number is first printed, then read back (which
    gives the number itself, and 0 for -0); the text of a boolean or of a
    date does not start with a number. *)
Definition parseFloatCell (P : Platform) (value : option Cell) : float :=
  match value with
  | None => nan
  | Some (CStr s) => parseFloatText P s
  | Some (CNum x) => if PrimFloat.eqb x 0%float then 0%float else x
  | Some (CBool _) | Some (CDate _) => nan
  end.

(** [x || 0] on numbers: NaN and zero are falsy. *)
Definition orZero (x : float) : float :=
  if isNaN x || PrimFloat.eqb x 0%float then 0%float else x.

(** One entry of [dailyData].  The count is a whole number (the script's
    double counts exactly up to 2^53). *)
Record DayData : Type := mkDayData {
  count : nat;
  totalProfitLoss : float;
  totalFees : float
}.

Definition emptyDay : DayData := mkDayData O 0%float 0%float.

(** The column indices found in the header row. *)
Record Columns : Type := mkColumns {
  dateColIndex : nat;
  profitLossColIndex : nat;
  feeColIndex : option nat
}.

(** The last three statements of the loop body: create the day's entry if
    there is none, then count the row and add its two amounts. *)
Definition addToDay (dateStr : string) (profitLoss fee : float)
    (dailyData : gmap string DayData) : gmap string DayData :=
  let data := default emptyDay (dailyData !! dateStr) in
  <[dateStr := mkDayData (S (count data))
                         (totalProfitLoss data + profitLoss)%float
                         (totalFees data + fee)%float]> dailyData.

(** One turn of the loop.  [Utilities.formatDate] is called outside the
    [try]: if it throws, the function throws. *)
Definition processRow (P : Platform) (cols : Columns) (dailyData : gmap string DayData)
    (row : list Cell) : result (gmap string DayData) :=
  match dateTimeOf P (nth (dateColIndex cols) row blank) with
  | None => Ok dailyData
  | Some t =>
      let* dateStr := formatDate P (Some t) (scriptTimeZone P) in
      let profitLoss := orZero (parseFloatCell P (nth_error row (profitLossColIndex cols))) in
      let fee := orZero (parseFloatCell P (rowAt row (feeColIndex cols))) in
      Ok (addToDay dateStr profitLoss fee dailyData)
  end.

(** One line of the result table. *)
Record DailyAggregate : Type := mkDailyAggregate {
  aggDate : string;
  aggTradeCount : nat;
  aggTotalProfitLoss : float;
  aggTotalFees : float;
  aggNetProfit : float
}.

(** The order of [Array.prototype.sort()] on texts (by code unit; by byte
    here, the same order for the ASCII dates that are the keys). *)
Definition strLe (a b : string) : Prop := String.leb a b = true.

#[global] Instance strLe_dec : RelDecision strLe.
Proof. intros a b. unfold strLe. apply _. Defined.

(** [Object.keys(dailyData).sort()] *)
Definition sortedDates (dailyData : gmap string DayData) : list string :=
  merge_sort strLe (elements (dom dailyData)).

Definition resultRow (dailyData : gmap string DayData) (dateStr : string) : DailyAggregate :=
  let data := default emptyDay (dailyData !! dateStr) in
  mkDailyAggregate dateStr (count data) (totalProfitLoss data) (totalFees data)
                   (totalProfitLoss data - totalFees data)%float.

(** The aggregation proper (the loop over the data rows and the loop that
    builds [resultData]). *)
Definition aggregate (P : Platform) (cols : Columns) (rows : list (list Cell))
    : result (list DailyAggregate) :=
  let* dailyData := foldR (processRow P cols) rows ∅ in
  Ok (List.map (resultRow dailyData) (sortedDates dailyData)).

Definition floatOfNat (n : nat) : float := PrimFloat.of_uint63 (Uint63.of_Z (Z.of_nat n)).

Definition aggregateCells (a : DailyAggregate) : list Cell :=
  [CStr (aggDate a); CNum (floatOfNat (aggTradeCount a)); CNum (aggTotalProfitLoss a);
   CNum (aggTotalFees a); CNum (aggNetProfit a)].

(** What a call of [calculateDailyProfits] comes to: it returns the
    aggregate sheet, or returns [null] (after an alert, or after a log line
    when there is no alert), or throws. *)
Inductive CalcOutcome : Type :=
| ReturnedSheet (resultData : list DailyAggregate)
| ReturnedNull (alertTitle : option string)
| Thrown (e : JSError).

Definition dataSheetName : string := "取引履歴".
Definition dailyProfitSheetName : string := "日次収益".

Definition dailyProfitHeader : Row :=
  [CStr "日付"; CStr "取引数"; CStr "総損益"; CStr "手数料合計"; CStr "純利益"].

(** [SpreadsheetApp.getUi()] followed by [ui.alert(title, ...)] and
    [return null]. *)
Definition alertAndReturnNull (P : Platform) (title : string) : CalcOutcome :=
  if uiAvailable P then ReturnedNull (Some title)
  else Thrown (Error [Text "Cannot call SpreadsheetApp.getUi() from this context."]).

(** The aggregate sheet made ready: inserted with its header, or its old
    data rows cleared in columns A to E. *)
Definition prepareDailySheet (existing : option Sheet) : Sheet :=
  match existing with
  | None => SheetOps.setValues 1 1 [dailyProfitHeader] []
  | Some sheet =>
      if (1 <? SheetOps.getLastRow sheet)%nat
      then SheetOps.clearRange 2 1 (SheetOps.getLastRow sheet - 1) 5 sheet
      else sheet
  end.

Definition calculateDailyProfits (P : Platform) (ss : Spreadsheet)
    : CalcOutcome * Spreadsheet :=
  match ss !! dataSheetName with
  | None =>
      if authModeFull P then (ReturnedNull None, ss)
      else (alertAndReturnNull P "取引履歴シートが見つかりません", ss)
  | Some dataSheet =>
      let dailyProfitSheet := prepareDailySheet (ss !! dailyProfitSheetName) in
      let ss1 := <[dailyProfitSheetName := dailyProfitSheet]> ss in
      let values := SheetOps.getDataRangeValues dataSheet in
      if (List.length values <=? 1)%nat
      then (alertAndReturnNull P "データがありません", ss1)
      else
        let headers := nth 0 values [] in
        match indexOf "取引日時" headers, indexOf "損益" headers with
        | Some dateCol, Some profitLossCol =>
            let cols := mkColumns dateCol profitLossCol (indexOf "手数料" headers) in
            match aggregate P cols (skipn 1 values) with
            | Throw e => (Thrown e, ss1)
            | Ok resultData =>
                let written :=
                  if (0 <? List.length resultData)%nat
                  then SheetOps.setValues 2 1 (List.map aggregateCells resultData) dailyProfitSheet
                  else dailyProfitSheet in
                (ReturnedSheet resultData, <[dailyProfitSheetName := written]> ss1)
            end
        | _, _ => (alertAndReturnNull P "必要な列が見つかりません", ss1)
        end
  end.

(* ===================================================================== *)
(** ** A host for the examples *)
(* ===================================================================== *)

(** A host whose script time zone is Asia/Tokyo (UTC+9, no daylight
    saving), run from the menu (a UI is available).  It computes what the
    examples of this file use: dates are formatted with the proleptic
    Gregorian calendar (the host's calendar for dates after 1582); date
    texts are read in the two forms the scripts write, [YYYY-MM-DDTHH:mm:ss
    .sssZ] and [YYYY-MM-DD HH:MM:SS] (local time); number texts are read
    as a sign, digits and a fraction (exact up to 15 significant digits);
    upper-casing acts on ASCII letters.  Other inputs of these built-ins
    are outside what this instance describes. *)
Module Host.

Definition tokyoOffset : Z := 9 * 3600000.

(** The whole part of a double, [None] for NaN and the infinities. *)
Definition truncZ (x : float) : option Z :=
  match Prim2SF x with
  | S754_zero _ => Some 0
  | S754_finite s m e =>
      let mag := if 0 <=? e then Z.pos m * 2 ^ e else Z.pos m / 2 ^ (- e) in
      Some (if s then - mag else mag)
  | _ => None
  end.

Definition floatOfZ (z : Z) : float :=
  if 0 <=? z then PrimFloat.of_uint63 (Uint63.of_Z z)
  else PrimFloat.opp (PrimFloat.of_uint63 (Uint63.of_Z (- z))).

Definition upperChar (c : ascii) : ascii :=
  let n := nat_of_ascii c in
  if (97 <=? n)%nat && (n <=? 122)%nat then ascii_of_nat (n - 32) else c.

Fixpoint upper (s : string) : string :=
  match s with
  | EmptyString => EmptyString
  | String c s' => String (upperChar c) (upper s')
  end.

(** A time zone name the host does not know counts as GMT. *)
Definition offsetOf (timeZone : string) : Z :=
  if String.eqb timeZone "Asia/Tokyo" then tokyoOffset else 0.

Definition formatYMD (date : option Z) (timeZone : string) : result string :=
  match date with
  | None => Throw (Error [Text "Invalid argument: date"])
  | Some t =>
      let '(y, m, d) := JSDate.civilFromDays ((t + offsetOf timeZone) / JSDate.msPerDay) in
      Ok (JSDate.isoYear y +++ "-" +++ JSDate.padDigits 2 m +++ "-" +++ JSDate.padDigits 2 d)
  end.

(** MakeDay for whole numbers: months past the year carry into it. *)
Definition makeDay (year month date : Z) : Z :=
  JSDate.daysFromCivil (year + month / 12) (month mod 12 + 1) 1 + date - 1.

Definition localDate (year month day hour minute second : float) : option Z :=
  match truncZ year, truncZ month, truncZ day, truncZ hour, truncZ minute, truncZ second with
  | Some y, Some mo, Some d, Some h, Some mi, Some s =>
      let y' := if (0 <=? y) && (y <=? 99) then 1900 + y else y in
      JSDate.timeClip
        (JSDate.makeDate (makeDay y' mo d) (JSDate.makeTime h mi s 0) - tokyoOffset)
  | _, _, _, _, _, _ => None
  end.

(** [YYYY-MM-DD HH:MM:SS], read as local time. *)
Definition parseLocal (s : string) : option Z :=
  if negb (String.length s =? 19)%nat then None else
  if negb (String.eqb (substring 4 1 s +++ substring 7 1 s +++ substring 10 1 s +++
                       substring 13 1 s +++ substring 16 1 s) "-- ::") then None else
  let fields := [substring 0 4 s; substring 5 2 s; substring 8 2 s;
                 substring 11 2 s; substring 14 2 s; substring 17 2 s] in
  if negb (forallb JSDate.allDigits fields) then None else
  match List.map JSDate.numOf fields with
  | [y; mo; d; h; mi; sec] =>
      if (1 <=? mo) && (mo <=? 12) && (1 <=? d) && (d <=? 31) &&
         (h <=? 23) && (mi <=? 59) && (sec <=? 59)
      then JSDate.timeClip
             (JSDate.makeDate (JSDate.daysFromCivil y mo d) (JSDate.makeTime h mi sec 0)
              - tokyoOffset)
      else None
  | _ => None
  end.

Definition parseDateText (s : string) : option Z :=
  match JSDate.parseISO s with
  | Some t => Some t
  | None => parseLocal s
  end.

(** The longest prefix of digits, and what follows it. *)
Fixpoint spanDigits (s : string) : string * string :=
  match s with
  | String c s' =>
      if JSDate.isDigit c then let '(ds, rest) := spanDigits s' in (String c ds, rest)
      else (EmptyString, s)
  | EmptyString => (EmptyString, EmptyString)
  end.

(** A sign, digits and a fraction at the start of a text; NaN when there
    is no digit. *)
Definition parseDecimal (s : string) : float :=
  let '(negative, body) :=
    match s with
    | String "-" s' => (true, s')
    | String "+" s' => (false, s')
    | _ => (false, s)
    end in
  let '(whole, rest) := spanDigits body in
  let frac :=
    match rest with
    | String "." rest' => fst (spanDigits rest')
    | _ => EmptyString
    end in
  if (String.length whole + String.length frac =? 0)%nat then nan else
  let mantissa := floatOfZ (JSDate.numOf (whole +++ frac)) in
  let scale := floatOfZ (10 ^ Z.of_nat (String.length frac)) in
  let magnitude := (mantissa / scale)%float in
  if negative then PrimFloat.opp magnitude else magnitude.

(** [Number(text)]: the empty text is 0; a text that is not wholly a
    number is NaN. *)
Definition numberOf (s : string) : float :=
  if String.eqb s "" then 0%float
  else if JSDate.allDigits s then floatOfZ (JSDate.numOf s)
  else nan.

Lemma parseDecimal_empty : isNaN (parseDecimal "") = true.
Proof. vm_compute. reflexivity. Qed.

Definition tokyo : Platform := {|
  toUpperCase := upper;
  newDate := parseDateText;
  newDateLocal := localDate;
  numberOfText := numberOf;
  parseFloatText := parseDecimal;
  parseFloatText_empty := parseDecimal_empty;
  formatDate := formatYMD;
  scriptTimeZone := "Asia/Tokyo";
  renderCompound := fun _ => "[object Object]";
  authModeFull := false;
  uiAvailable := true
|}.

(** The same host when the script runs from a time-driven trigger. *)
Definition tokyoFromTrigger : Platform := {|
  toUpperCase := upper;
  newDate := parseDateText;
  newDateLocal := localDate;
  numberOfText := numberOf;
  parseFloatText := parseDecimal;
  parseFloatText_empty := parseDecimal_empty;
  formatDate := formatYMD;
  scriptTimeZone := "Asia/Tokyo";
  renderCompound := fun _ => "[object Object]";
  authModeFull := true;
  uiAvailable := false
|}.

End Host.

Example formatDate_tokyo :
  formatDate Host.tokyo (JSDate.parseISO "2025-05-08T15:31:28.000Z") "Asia/Tokyo"
  = Ok "2025-05-09".
Proof. vm_compute. reflexivity. Qed.

Example newDateLocal_tokyo :
  newDateLocal Host.tokyo 2025 4 9 0 31 28 = JSDate.parseISO "2025-05-08T15:31:28.000Z".
Proof. vm_compute. reflexivity. Qed.

Example parseFloat_tokyo : parseFloatText Host.tokyo "-12.5" = (-12.5)%float.
Proof. vm_compute. reflexivity. Qed.

(* ===================================================================== *)
(** ** Housekeeping: execution log, settings sheet, triggers *)
(* ===================================================================== *)

(** Further fields of [CONFIG]. *)
Definition CONFIG_SHEET_NAME : string := "設定".
Definition LOG_SHEET_NAME : string := "実行ログ".
Definition EMAIL_NOTIFICATION : bool := true.
Definition NOTIFICATION_EMAIL : string := "your.email@example.com".
Definition EXECUTION_HOUR : Z := 8.

(** Built-ins of the runtime that the housekeeping functions use. *)
Record Services : Type := mkServices {
  (** the text of a template literal *)
  render : Message -> string;
  (** [Utilities.formatDate(date, timeZone, 'yyyy-MM-dd HH:mm:ss')] *)
  formatDateTime : option Z -> string -> result string;
  (** [date.toLocaleString()] *)
  toLocaleString : Z -> string
}.

Module RangeOps.

(** [sheet.getRange(row, col).setValue(value)] *)
Definition setValue (row col : nat) (value : Cell) (sheet : Sheet) : Sheet :=
  SheetOps.setValues row col [[value]] sheet.

(** [sheet.deleteRows(position, howMany)]: the rows below move up. *)
Definition deleteRows (position howMany : nat) (sheet : Sheet) : Sheet :=
  (firstn (position - 1) sheet ++ skipn (position - 1 + howMany) sheet)%list.

(** [sheet.clear()]: contents and formats. *)
Definition clear (sheet : Sheet) : Sheet := [].

End RangeOps.

(** *** [logExecution] *)

(** [logData.date]: a [Date] (its time value, [None] for the Invalid Date)
    or any other value, as the cell it makes. *)
Inductive LogDate : Type :=
| DateObject (t : option Z)
| NotADate (c : Cell).

Record LogData : Type := mkLogData {
  logDate : LogDate;
  logFunction : string;
  logTargetDate : string;
  logStatus : string;
  logMessage : Message;
  logDetails : Cell
}.

Definition logHeader : Row :=
  [CStr "実行日時"; CStr "実行関数"; CStr "対象日"; CStr "ステータス"; CStr "メッセージ";
   CStr "詳細"].

Definition maxLogRows : nat := 100.

(** The row that is appended; building it throws when the date cannot be
    formatted. *)
Definition logRow (rt : Services) (logData : LogData) : result Row :=
  let* date :=
    match logDate logData with
    | DateObject t =>
        let* text := formatDateTime rt t CONFIG.TIMEZONE in Ok (CStr text)
    | NotADate c => Ok c
    end in
  Ok [date; CStr (logFunction logData); CStr (logTargetDate logData);
      CStr (logStatus logData); CStr (render rt (logMessage logData));
      if cellTruthy (logDetails logData) then logDetails logData else blank].

Definition logExecution (rt : Services) (logData : LogData) (ss : Spreadsheet)
    : result unit * Spreadsheet :=
  let '(logSheet, ss0) :=
    match ss !! LOG_SHEET_NAME with
    | Some logSheet => (logSheet, ss)
    | None =>
        let logSheet := SheetOps.appendRow logHeader [] in
        (logSheet, <[LOG_SHEET_NAME := logSheet]> ss)
    end in
  match logRow rt logData with
  | Throw e => (Throw e, ss0)
  | Ok row =>
      let appended := SheetOps.appendRow row logSheet in
      let currentRows := SheetOps.getLastRow appended in
      let trimmed :=
        if (maxLogRows + 1 <? currentRows)%nat
        then RangeOps.deleteRows 2 (currentRows - maxLogRows - 1) appended
        else appended in
      (Ok tt, <[LOG_SHEET_NAME := trimmed]> ss0)
  end.

(** *** The settings sheet *)

(** The loop [for (i = 0; i < values.length; i++) if (values[i][0] === key)
    { ...; break; }]: the index of the first row whose first cell is the
    text [key]. *)
Fixpoint findRow (key : string) (values : list (list Cell)) (i : nat) : option nat :=
  match values with
  | [] => None
  | row :: rest =>
      match nth 0 row blank with
      | CStr s => if String.eqb s key then Some i else findRow key rest (S i)
      | _ => findRow key rest (S i)
      end
  end.

(** [now] is the clock when [new Date()] is evaluated. *)
Definition updateConfigLastRun (rt : Services) (now : Z) (ss : Spreadsheet) : Spreadsheet :=
  match ss !! CONFIG_SHEET_NAME with
  | None => ss
  | Some configSheet =>
      let values := SheetOps.getDataRangeValues configSheet in
      match findRow "最終実行日時" values 0 with
      | Some i =>
          <[CONFIG_SHEET_NAME :=
              RangeOps.setValue (i + 1) 2 (CStr (toLocaleString rt now)) configSheet]> ss
      | None => ss
      end
  end.

Definition updateTriggerStatus (status : string) (ss : Spreadsheet) : Spreadsheet :=
  match ss !! CONFIG_SHEET_NAME with
  | None => ss
  | Some configSheet =>
      let values := SheetOps.getDataRangeValues configSheet in
      match findRow "自動実行ステータス" values 0 with
      | Some i =>
          <[CONFIG_SHEET_NAME := RangeOps.setValue (i + 1) 2 (CStr status) configSheet]> ss
      | None => ss
      end
  end.

(** [configValues] *)
Definition configValues (rt : Services) : list Row :=
  [[CStr "APIユーザー名"; CStr CONFIG.USERNAME];
   [CStr "APIキー"; CStr "********"];
   [CStr "ユーザー名とAPIキーの更新が必要";
    CStr (if String.eqb CONFIG.USERNAME "YOUR_USERNAME" then "はい" else "いいえ")];
   [CStr "トレード履歴シート名"; CStr CONFIG.HISTORY_SHEET_NAME];
   [CStr "自動実行時間";
    CStr (render rt [Text "毎日 "; Int EXECUTION_HOUR; Text ":00 ("; Text CONFIG.TIMEZONE;
                    Text ")"])];
   [CStr "メール通知"; CStr (if EMAIL_NOTIFICATION then "オン" else "オフ")];
   [CStr "通知メールアドレス"; CStr NOTIFICATION_EMAIL];
   [CStr "最終実行日時"; CStr "未実行"];
   [CStr "自動実行ステータス"; CStr "有効"]].

(** The sheet is inserted, or cleared if it exists; then the header, the
    settings and the two notes are written.  (Fonts, colours, the merged
    cells and the protection hold no value.) *)
Definition createConfigSheet (rt : Services) (ss : Spreadsheet) : Spreadsheet :=
  let configSheet :=
    match ss !! CONFIG_SHEET_NAME with
    | None => []
    | Some sheet => RangeOps.clear sheet
    end in
  let configSheet := SheetOps.setValues 1 1 [[CStr "設定項目"; CStr "値"]] configSheet in
  let configSheet :=
    SheetOps.setValues 2 1 (configValues rt) configSheet in
  let configSheet :=
    RangeOps.setValue 12 1
      (CStr "⚠️ ユーザー名とAPIキーはスクリプトエディタ内のCONFIG変数で直接変更してください。")
      configSheet in
  let configSheet :=
    RangeOps.setValue 14 1
      (CStr "ℹ️ このシステムは毎日自動的に前日のトレード履歴を取得します。手動操作は必要ありません。")
      configSheet in
  <[CONFIG_SHEET_NAME := configSheet]> ss.

Definition createConfigSheetIfNotExists (rt : Services) (ss : Spreadsheet) : Spreadsheet :=
  match ss !! CONFIG_SHEET_NAME with
  | None => createConfigSheet rt ss
  | Some _ => ss
  end.

(** *** Triggers *)

(** The script is taken to be authorised: the calls of [ScriptApp] do what
    they are asked for. *)

(** An installed time-driven trigger: the id the project gives it, its
    handler, its hour and, when set, its time zone. *)
Record Trigger : Type := mkTrigger {
  uniqueId : string;
  handlerFunction : string;
  atHour : Z;
  inTimezone : option string
}.

(** [ScriptApp.deleteTrigger(trigger)] *)
Definition deleteTrigger (trigger : Trigger) (installed : list Trigger) : list Trigger :=
  List.filter (fun t => negb (String.eqb (uniqueId t) (uniqueId trigger))) installed.

(** The loop over [ScriptApp.getProjectTriggers()] that deletes every
    trigger whose handler is [name]; it runs over the triggers as they
    were when it began. *)
Definition deleteHandlerTriggers (name : string) (installed : list Trigger) : list Trigger :=
  fold_left (fun current trigger =>
               if String.eqb (handlerFunction trigger) name
               then deleteTrigger trigger current
               else current)
            installed installed.

(** The spreadsheet and the triggers of the project. *)
Record Project : Type := mkProject {
  book : Spreadsheet;
  projectTriggers : list Trigger
}.

(** [newId] is the id the project gives to the trigger that is created,
    [now] the clock when the log entry is made. *)
Definition setupDailyTrigger (rt : Services) (newId : string) (now : Z) (w : Project)
    : result unit * Project :=
  let installed := deleteHandlerTriggers "dailyHistoryFetch" (projectTriggers w) in
  let installed :=
    (installed ++ [mkTrigger newId "dailyHistoryFetch" EXECUTION_HOUR
                             (Some CONFIG.TIMEZONE)])%list in
  let ss := updateTriggerStatus "有効" (book w) in
  let '(r, ss) :=
    logExecution rt
      (mkLogData (DateObject (Some now)) "setupDailyTrigger" "-" "成功"
                 [Text "毎日"; Int EXECUTION_HOUR;
                  Text "時に実行する自動トリガーを設定しました"]
                 blank)
      ss in
  (r, mkProject ss installed).

Definition checkAndSetupTrigger (rt : Services) (newId : string) (now : Z) (w : Project)
    : result unit * Project :=
  let hasTradeHistoryTrigger :=
    existsb (fun trigger => String.eqb (handlerFunction trigger) "dailyHistoryFetch")
            (projectTriggers w) in
  if negb hasTradeHistoryTrigger then setupDailyTrigger rt newId now w else (Ok tt, w).

(** [onOpen] of the trade-history script. *)
Definition onOpen (rt : Services) (newId : string) (now : Z) (w : Project)
    : result unit * Project :=
  checkAndSetupTrigger rt newId now
    (mkProject (createConfigSheetIfNotExists rt (book w)) (projectTriggers w)).

(** The triggers of the daily-profit script. *)
Definition deleteExistingTriggers (installed : list Trigger) : list Trigger :=
  deleteHandlerTriggers "calculateDailyProfits" installed.

(** The closing [if (ScriptApp.getAuthMode() !== ScriptApp.AuthMode.FULL)
    { SpreadsheetApp.getUi().alert(title, ...) }]: the title of the alert
    shown, if any. *)
Definition alertUnlessFull (P : Platform) (title : string) : result (option string) :=
  if negb (authModeFull P) then
    if uiAvailable P then Ok (Some title)
    else Throw (Error [Text "Cannot call SpreadsheetApp.getUi() from this context."])
  else Ok None.

Definition createDailyTrigger (P : Platform) (newId : string) (installed : list Trigger)
    : result (option string) * list Trigger :=
  let installed := deleteExistingTriggers installed in
  let installed := (installed ++ [mkTrigger newId "calculateDailyProfits" 9 None])%list in
  (alertUnlessFull P "トリガー設定完了", installed).

Definition removeDailyTrigger (P : Platform) (installed : list Trigger)
    : result (option string) * list Trigger :=
  let installed := deleteExistingTriggers installed in
  (alertUnlessFull P "トリガー削除完了", installed).

(** *** A host for the examples of the housekeeping functions *)

(** Decimal digits of a natural number, most significant first ([fuel]
    bounds their number). *)
Fixpoint digitsOf (fuel : nat) (n : Z) : string :=
  match fuel with
  | O => EmptyString
  | S fuel' =>
      (if n <? 10 then EmptyString else digitsOf fuel' (n / 10)) +++
      String (JSDate.digitChar (n mod 10)) EmptyString
  end.

Definition showInt (n : Z) : string :=
  if n <? 0 then "-" +++ digitsOf 20 (- n) else digitsOf 20 n.

(** The texts and whole numbers of a template; the examples interpolate
    nothing else. *)
Fixpoint renderText (m : Message) : string :=
  match m with
  | [] => EmptyString
  | Text s :: rest => s +++ renderText rest
  | Int n :: rest => showInt n +++ renderText rest
  | _ :: rest => "?" +++ renderText rest
  end.

(** [yyyy-MM-dd HH:mm:ss] in the given zone. *)
Definition formatYMDHMS (date : option Z) (timeZone : string) : result string :=
  match date with
  | None => Throw (Error [Text "Invalid argument: date"])
  | Some t =>
      let* day := Host.formatYMD date timeZone in
      let tod := (t + Host.offsetOf timeZone) mod JSDate.msPerDay in
      Ok (day +++ " " +++ JSDate.padDigits 2 (tod / 3600000) +++ ":" +++
          JSDate.padDigits 2 ((tod / 60000) mod 60) +++ ":" +++
          JSDate.padDigits 2 ((tod / 1000) mod 60))
  end.

(** A runtime in Asia/Tokyo whose locale prints a date as
    [yyyy-MM-dd HH:mm:ss]. *)
Definition tokyoServices : Services := {|
  render := renderText;
  formatDateTime := formatYMDHMS;
  toLocaleString := fun t =>
    match formatYMDHMS (Some t) "Asia/Tokyo" with
    | Ok text => text
    | Throw _ => "Invalid Date"
    end
|}.

(** 10 May 2025, 08:00:05 in Tokyo. *)
Definition morning : Z := 1746831605000.

Example formatDateTime_tokyo :
  formatDateTime tokyoServices (Some morning) "Asia/Tokyo" = Ok "2025-05-10 08:00:05".
Proof. vm_compute. reflexivity. Qed.

(* ===================================================================== *)
(** ** The daily run: [dailyHistoryFetch] and its mails *)
(* ===================================================================== *)

(** The argument of [MailApp.sendEmail]. *)
Record Email : Type := mkEmail {
  to : string;
  subject : Message;
  body : Message
}.

(** What the daily run takes from its surroundings besides the
    spreadsheet and the provider. *)
Record RunHost : Type := mkRunHost {
  (** [date.setDate(date.getDate() - 1)]: the time value a day earlier in
      the script's time zone *)
  previousDay : Z -> Z;
  (** [error.stack || ''], as the cell it makes *)
  stackOf : JSError -> Cell;
  (** [result.details || ''] of a result that is not a success (the stack
      text that the save step attached, if any), as the cell it makes *)
  failureDetails : SaveResult -> Cell;
  (** [getName()] and [getUrl()] of the active spreadsheet *)
  spreadsheetName : string;
  spreadsheetUrl : string;
  (** [MailApp.sendEmail]: whether the mail is accepted, or the exception
      (quota, address) *)
  deliver : Email -> result unit
}.

(** The times that the calls of [new Date()] of a run read, by place. *)
Record Clock : Type := mkClock {
  startTime : Z;            (* [const yesterday = new Date()] *)
  logTime : Z;              (* the entry of the run *)
  lastRunTime : Z;          (* [updateConfigLastRun] *)
  mailTime : Z;             (* the body of the notification *)
  mailFailureTime : Z;      (* the entry for a notification that was refused *)
  failureTime : Z;          (* the entry of the [catch] block of the run *)
  errorMailTime : Z;        (* the body of the error mail *)
  errorMailFailureTime : Z  (* the entry for an error mail that was refused *)
}.

(** The line feed of the mail texts. *)
Definition LF : string := String "010"%char EmptyString.

(** [result.details || ''] *)
Definition resultDetails (P : Platform) (h : RunHost) (result : SaveResult) : Cell :=
  match result with
  | Saved _ date tradeCount totalProfit =>
      CStr (renderCompound P (JObj [("date", JStr date);
                                    ("tradeCount", JNum (floatOfNat tradeCount));
                                    ("totalProfit", JNum totalProfit)]))
  | SaveFailed _ => failureDetails h result
  end.

Definition resultMessage (result : SaveResult) : Message :=
  match result with
  | Saved message _ _ _ => message
  | SaveFailed message => message
  end.

Definition statusText (result : SaveResult) : string :=
  if saveSucceeded result then "成功" else "失敗".

(** The guard [CONFIG.EMAIL_NOTIFICATION && CONFIG.NOTIFICATION_EMAIL]. *)
Definition notificationOn : bool :=
  EMAIL_NOTIFICATION && negb (String.eqb NOTIFICATION_EMAIL "").

Definition notificationEmail (rt : Services) (h : RunHost) (clock : Clock)
    (result : SaveResult) (targetDate : string) : Email :=
  let subject :=
    if saveSucceeded result
    then [Text "✅ トレード履歴取得成功 ("; Text targetDate; Text ")"]
    else [Text "❌ トレード履歴取得失敗 ("; Text targetDate; Text ")"] in
  let body :=
    ([Text "トレード履歴自動取得の実行結果をお知らせします。"; Text LF; Text LF;
      Text "スプレッドシート: "; Text (spreadsheetName h); Text LF;
      Text "対象日: "; Text targetDate; Text LF;
      Text "実行日時: "; Text (toLocaleString rt (mailTime clock)); Text LF;
      Text "ステータス: "; Text (statusText result); Text LF;
      Text "メッセージ: "] ++ resultMessage result ++ [Text LF; Text LF] ++
     match result with
     | Saved _ _ tradeCount totalProfit =>
         [Text "取引件数: "; Int (Z.of_nat tradeCount); Text "件"; Text LF;
          Text "合計損益: "; Fixed2 totalProfit; Text LF; Text LF]
     | SaveFailed _ => []
     end ++
     [Text "スプレッドシートURL: "; Text (spreadsheetUrl h); Text LF; Text LF;
      Text "このメールは自動送信されています。"])%list in
  mkEmail NOTIFICATION_EMAIL subject body.

(** [sendNotificationEmail]: the spreadsheet and the mails sent, and the
    exception if the log entry of a refused mail cannot be written. *)
Definition sendNotificationEmail (rt : Services) (h : RunHost) (clock : Clock)
    (outcome : SaveResult) (targetDate : string) (ss : Spreadsheet) (outbox : list Email)
    : result unit * Spreadsheet * list Email :=
  if negb notificationOn then (Ok tt, ss, outbox) else
  let email := notificationEmail rt h clock outcome targetDate in
  match deliver h email with
  | Ok _ => (Ok tt, ss, (outbox ++ [email])%list)
  | Throw error =>
      let '(r, ss') :=
        logExecution rt
          (mkLogData (DateObject (Some (mailFailureTime clock))) "sendNotificationEmail"
                     targetDate "失敗"
                     (Text "メール送信中にエラーが発生しました: " :: message error)
                     (stackOf h error))
          ss in
      (r, ss', outbox)
  end.

Definition errorEmail (rt : Services) (h : RunHost) (clock : Clock) (errorMessage : Message)
    : Email :=
  mkEmail NOTIFICATION_EMAIL
    [Text "❌ トレード履歴自動取得でエラーが発生しました"]
    ([Text "トレード履歴自動取得の実行中にエラーが発生しました。"; Text LF; Text LF;
      Text "スプレッドシート: "; Text (spreadsheetName h); Text LF;
      Text "実行日時: "; Text (toLocaleString rt (errorMailTime clock)); Text LF;
      Text "エラー: "] ++ errorMessage ++
     [Text LF; Text LF;
      Text "スプレッドシートURL: "; Text (spreadsheetUrl h); Text LF; Text LF;
      Text "このエラーを解決するには、スクリプトエディタでログやコードを確認してください。";
      Text LF; Text LF;
      Text "このメールは自動送信されています。"])%list.

Definition sendErrorEmail (rt : Services) (h : RunHost) (clock : Clock)
    (errorMessage : Message) (ss : Spreadsheet) (outbox : list Email)
    : result unit * Spreadsheet * list Email :=
  if negb notificationOn then (Ok tt, ss, outbox) else
  let email := errorEmail rt h clock errorMessage in
  match deliver h email with
  | Ok _ => (Ok tt, ss, (outbox ++ [email])%list)
  | Throw error =>
      let '(r, ss') :=
        logExecution rt
          (mkLogData (DateObject (Some (errorMailFailureTime clock))) "sendErrorEmail" "-" "失敗"
                     (Text "エラーメール送信中にエラーが発生しました: " :: message error)
                     (stackOf h error))
          ss in
      (r, ss', outbox)
  end.

(** What a run leaves: what it returns or throws, the spreadsheet, the
    mails sent and the requests sent. *)
Record RunOutcome : Type := mkRunOutcome {
  returned : result SaveResult;
  sheetsAfter : Spreadsheet;
  outboxAfter : list Email;
  requestsSent : list Request
}.

(** The [catch] block of [dailyHistoryFetch]. *)
Definition dailyHistoryFetchFailed (rt : Services) (h : RunHost) (clock : Clock)
    (error : JSError) (ss : Spreadsheet) (outbox : list Email) (sent : list Request)
    : RunOutcome :=
  let errorMsg := (Text "自動実行中にエラーが発生しました: " :: message error) in
  match logExecution rt
          (mkLogData (DateObject (Some (failureTime clock))) "dailyHistoryFetch" "不明" "失敗"
                     errorMsg (stackOf h error))
          ss with
  | (Throw e, ss') => mkRunOutcome (Throw e) ss' outbox sent
  | (Ok _, ss') =>
      match (if notificationOn then sendErrorEmail rt h clock errorMsg ss' outbox
             else (Ok tt, ss', outbox)) with
      | (Throw e, ss'', outbox') => mkRunOutcome (Throw e) ss'' outbox' sent
      | (Ok _, ss'', outbox') => mkRunOutcome (Ok (SaveFailed errorMsg)) ss'' outbox' sent
      end
  end.

Definition dailyHistoryFetch (P : Platform) (rt : Services) (h : RunHost) (remote : Remote)
    (clock : Clock) (ss : Spreadsheet) (outbox : list Email) : RunOutcome :=
  let yesterday := previousDay h (startTime clock) in
  match formatDate P (Some yesterday) CONFIG.TIMEZONE with
  | Throw error => dailyHistoryFetchFailed rt h clock error ss outbox []
  | Ok formattedDate =>
      let '(outcome, ss, sent) := fetchAndSaveTradeHistory P remote formattedDate ss in
      match logExecution rt
              (mkLogData (DateObject (Some (logTime clock))) "dailyHistoryFetch"
                         formattedDate (statusText outcome) (resultMessage outcome)
                         (resultDetails P h outcome))
              ss with
      | (Throw error, ss) => dailyHistoryFetchFailed rt h clock error ss outbox sent
      | (Ok _, ss) =>
          let ss := updateConfigLastRun rt (lastRunTime clock) ss in
          match (if notificationOn
                 then sendNotificationEmail rt h clock outcome formattedDate ss outbox
                 else (Ok tt, ss, outbox)) with
          | (Throw error, ss, outbox) => dailyHistoryFetchFailed rt h clock error ss outbox sent
          | (Ok _, ss, outbox) => mkRunOutcome (Ok outcome) ss outbox sent
          end
      end
  end.

(* ===================================================================== *)
(** ** Daily-profit script: [setupNewTrackingSheet] *)
(* ===================================================================== *)

Definition trackingSheetName : string := "取引データ".
Definition instructionSheetName : string := "使用方法".

Definition instructions : list Row :=
  [[CStr ""; CStr ""];
   [CStr "手順1:"; CStr "「取引データ」シートに取引データを入力または貼り付けてください。"];
   [CStr "手順2:"; CStr "メニューから「日次収益管理」→「日次収益を計算」を選択してください。"];
   [CStr "手順3:"; CStr "「日次収益」シートに日付ごとの集計結果とグラフが生成されます。"];
   [CStr ""; CStr ""];
   [CStr "注意点:"; CStr "• 取引データには「取引日時」と「損益」列が必須です。"];
   [CStr ""; CStr "• 日付形式は「YYYY-MM-DD HH:MM:SS」の形式である必要があります。"];
   [CStr ""; CStr "• 定期的にデータをバックアップすることをお勧めします。"]].

(** Each of the two sheets is made only if it is missing. *)
Definition setupNewTrackingSheet (ss : Spreadsheet) : Spreadsheet :=
  let ss :=
    match ss !! trackingSheetName with
    | None =>
        <[trackingSheetName := SheetOps.setValues 1 1 [List.map CStr newHeader] []]> ss
    | Some _ => ss
    end in
  match ss !! instructionSheetName with
  | None =>
      let instructionSheet :=
        RangeOps.setValue 1 1 (CStr "日次収益管理システムの使用方法") [] in
      let instructionSheet := SheetOps.setValues 3 1 instructions instructionSheet in
      <[instructionSheetName := instructionSheet]> ss
  | Some _ => ss
  end.

(** A host for the examples of the daily run: a day is 24 hours (there
    is no daylight saving in Tokyo), errors carry no stack text, and the
    mail is accepted or, with [accepts] false, refused for the quota. *)
Definition office (accepts : bool) : RunHost := {|
  previousDay := fun t => t - JSDate.msPerDay;
  stackOf := fun _ => blank;
  failureDetails := fun _ => blank;
  spreadsheetName := "Trades";
  spreadsheetUrl := "https://docs.google.com/spreadsheets/d/1";
  deliver := fun _ =>
    if accepts then Ok tt
    else Throw (Error [Text "Service invoked too many times for one day: email."])
|}.

(** A run that starts at [morning]; each later reading is a second on. *)
Definition morningClock : Clock := {|
  startTime := morning;
  logTime := morning + 1000;
  lastRunTime := morning + 2000;
  mailTime := morning + 3000;
  mailFailureTime := morning + 4000;
  failureTime := morning + 5000;
  errorMailTime := morning + 6000;
  errorMailFailureTime := morning + 7000
|}.

(* ===================================================================== *)
(** * Properties *)
(* ===================================================================== *)

(* ===================================================================== *)
(** ** Date Window Builder *)
(* ===================================================================== *)

Section DateWindowFacts.
Import JSDate.

(** *** The calendar: a date is recovered from its day number *)

(** The years of the 400-year cycle are counted from 1 March; such a year
    has a 366th day when the calendar year that follows is a leap year. *)
Definition leapMarch (yoe : Z) : Prop :=
  (yoe + 1) mod 4 = 0 /\ ((yoe + 1) mod 100 <> 0 \/ (yoe + 1) mod 400 = 0).

Lemma yoe_recover yoe doy :
  0 <= yoe < 400 -> 0 <= doy ->
  (doy <= 364 \/ (doy = 365 /\ leapMarch yoe)) ->
  let doe := yoe * 365 + yoe / 4 - yoe / 100 + doy in
  0 <= doe < 146097 /\
  (doe - doe / 1460 + doe / 36524 - doe / 146096) / 365 = yoe.
Proof.
  unfold leapMarch. intros Hy Hd Hl. cbv zeta.
  split; Z.div_mod_to_equations; lia.
Qed.

Lemma isLeap_true_iff y :
  isLeap y = true <-> y mod 4 = 0 /\ (y mod 100 <> 0 \/ y mod 400 = 0).
Proof.
  unfold isLeap.
  rewrite andb_true_iff, orb_true_iff, negb_true_iff, !Z.eqb_eq, Z.eqb_neq. tauto.
Qed.

(** Day of the year that starts on 1 March, from the month and the day. *)
Lemma doy_bounds y m d :
  1 <= m <= 12 -> 1 <= d <= daysInMonth y m ->
  let mp := if m <=? 2 then m + 9 else m - 3 in
  let doy := (153 * mp + 2) / 5 + d - 1 in
  0 <= doy /\
  (doy <= 364 \/ (doy = 365 /\ isLeap y = true /\ m = 2)) /\
  (5 * doy + 2) / 153 = mp /\
  doy - (153 * mp + 2) / 5 + 1 = d.
Proof.
  intros Hm Hd.
  assert (Hc : m = 1 \/ m = 2 \/ m = 3 \/ m = 4 \/ m = 5 \/ m = 6 \/ m = 7 \/ m = 8
               \/ m = 9 \/ m = 10 \/ m = 11 \/ m = 12) by lia.
  unfold daysInMonth in Hd.
  destruct (isLeap y) eqn:El;
  repeat (destruct Hc as [-> | Hc]); try subst m; cbn in Hd |- *;
    (repeat split; try (Z.div_mod_to_equations; lia)).
Qed.

Lemma civil_roundtrip y m d :
  1 <= m <= 12 -> 1 <= d <= daysInMonth y m ->
  civilFromDays (daysFromCivil y m d) = (y, m, d).
Proof.
  intros Hm Hd.
  destruct (doy_bounds y m d Hm Hd) as (Hdoy0 & Hdoy & Hmp & Hday).
  unfold civilFromDays, daysFromCivil.
  set (y' := if m <=? 2 then y - 1 else y) in *.
  set (mp := if m <=? 2 then m + 9 else m - 3) in *.
  set (doy := (153 * mp + 2) / 5 + d - 1) in *.
  set (era := y' / 400).
  set (yoe := y' - era * 400).
  assert (Hyoe : 0 <= yoe < 400) by (unfold yoe, era; Z.div_mod_to_equations; lia).
  assert (Hleap : doy <= 364 \/ (doy = 365 /\ leapMarch yoe)).
  { destruct Hdoy as [H | (H & Hl & ->)]; [left; exact H | right; split; [exact H|]].
    apply isLeap_true_iff in Hl. unfold leapMarch, yoe, era, y'. cbn.
    Z.div_mod_to_equations. lia. }
  destruct (yoe_recover yoe doy Hyoe Hdoy0 Hleap) as [Hdoe Hrec].
  set (doe := yoe * 365 + yoe / 4 - yoe / 100 + doy) in *.
  replace (era * 146097 + doe - 719468 + 719468) with (doe + era * 146097) by lia.
  rewrite Z.div_add by lia. rewrite (Z.div_small doe 146097) by lia.
  replace (doe + era * 146097 - (0 + era) * 146097) with doe by lia.
  cbv zeta. rewrite Hrec.
  replace (doe - (365 * yoe + yoe / 4 - yoe / 100)) with doy by (unfold doe; lia).
  rewrite Hmp, Hday.
  unfold mp, yoe, y'.
  destruct (Z.leb_spec m 2).
  - destruct (Z.ltb_spec (m + 9) 10); [lia|].
    replace (m + 9 - 9) with m by lia.
    destruct (Z.leb_spec m 2); [|lia]. f_equal. f_equal. lia.
  - destruct (Z.ltb_spec (m - 3) 10); [|lia].
    replace (m - 3 + 3) with m by lia.
    destruct (Z.leb_spec m 2); [lia|]. f_equal. f_equal. lia.
Qed.

(** *** Digits and the shape of a date text *)

Lemma isDigit_spec c :
  isDigit c = true -> 0 <= digitVal c <= 9 /\ digitChar (digitVal c) = c.
Proof.
  destruct c as [[] [] [] [] [] [] [] []]; vm_compute; intros H;
    try discriminate H; (split; [split; discriminate | reflexivity]).
Qed.

Lemma padDigits_step w q r :
  0 <= r <= 9 ->
  padDigits (S w) (10 * q + r) = padDigits w q +++ String (digitChar r) EmptyString.
Proof.
  intros Hr. cbn [padDigits].
  replace ((10 * q + r) / 10) with q by (apply (Z.div_unique _ 10 q r); lia).
  replace ((10 * q + r) mod 10) with r by (apply (Z.mod_unique _ 10 q r); lia).
  reflexivity.
Qed.

Lemma padDigits_2 a b :
  0 <= a <= 9 -> 0 <= b <= 9 ->
  padDigits 2 (a * 10 + b) = String (digitChar a) (String (digitChar b) EmptyString).
Proof.
  intros Ha Hb.
  replace (a * 10 + b) with (10 * (10 * 0 + a) + b) by lia.
  rewrite !padDigits_step by lia. reflexivity.
Qed.

Lemma padDigits_4 a b c d :
  0 <= a <= 9 -> 0 <= b <= 9 -> 0 <= c <= 9 -> 0 <= d <= 9 ->
  padDigits 4 (((a * 10 + b) * 10 + c) * 10 + d)
  = String (digitChar a) (String (digitChar b) (String (digitChar c) (String (digitChar d) EmptyString))).
Proof.
  intros Ha Hb Hc Hd.
  replace (((a * 10 + b) * 10 + c) * 10 + d)
    with (10 * (10 * (10 * (10 * 0 + a) + b) + c) + d) by lia.
  rewrite !padDigits_step by lia. reflexivity.
Qed.

Lemma daysFromCivil_bounds y m d :
  0 <= y <= 9999 -> 1 <= m <= 12 -> 1 <= d <= 31 ->
  -719528 <= daysFromCivil y m d <= 2932896.
Proof.
  intros Hy Hm Hd. unfold daysFromCivil.
  destruct (m <=? 2) eqn:E; Z.div_mod_to_equations; lia.
Qed.

(** Shape of a string that matches the pattern. *)
Lemma matchesDatePattern_shape s :
  matchesDatePattern s = true ->
  exists y1 y2 y3 y4 m1 m2 d1 d2,
    s = String y1 (String y2 (String y3 (String y4 (String "-"
        (String m1 (String m2 (String "-" (String d1 (String d2 EmptyString)))))))))
    /\ isDigit y1 = true /\ isDigit y2 = true /\ isDigit y3 = true /\ isDigit y4 = true
    /\ isDigit m1 = true /\ isDigit m2 = true /\ isDigit d1 = true /\ isDigit d2 = true.
Proof.
  unfold matchesDatePattern. intros H.
  do 10 (destruct s as [|? s]; [discriminate H|]).
  destruct s; [|discriminate H].
  cbn in H.
  repeat match type of H with (_ && _) = true => apply andb_prop in H; destruct H as [H ?] end.
  repeat match goal with
  | H : (_ && _) = true |- _ => apply andb_prop in H; destruct H
  | H : (if Ascii.eqb ?a ?b then _ else _) = true |- _ =>
      destruct (Ascii.eqb_spec a b); [subst | discriminate H]
  end.
  do 8 eexists. split; [reflexivity|]. repeat split; assumption.
Qed.

(** *** The window of a valid date *)

Definition dateYear (s : string) : Z := numOf (substring 0 4 s).
Definition dateMonth (s : string) : Z := numOf (substring 5 2 s).
Definition dateDay (s : string) : Z := numOf (substring 8 2 s).

#[local] Arguments digitVal : simpl never.
#[local] Arguments isDigit : simpl never.
#[local] Arguments daysFromCivil : simpl never.
#[local] Arguments timeClip : simpl never.
#[local] Arguments makeDate : simpl never.
#[local] Arguments makeTime : simpl never.
#[local] Arguments Z.mul : simpl never.
#[local] Arguments Z.add : simpl never.
#[local] Arguments Z.leb : simpl never.
#[local] Arguments Z.eqb : simpl never.
#[local] Arguments String.append !_ _ / : simpl nomatch.

Ltac eval_const_digits :=
  repeat match goal with
  | |- context [isDigit (Ascii ?a ?b ?c ?d ?e ?f ?g ?h)] =>
      let b' := eval vm_compute in (isDigit (Ascii a b c d e f g h)) in
      change (isDigit (Ascii a b c d e f g h)) with b'
  | |- context [digitVal (Ascii ?a ?b ?c ?d ?e ?f ?g ?h)] =>
      let v := eval vm_compute in (digitVal (Ascii a b c d e f g h)) in
      change (digitVal (Ascii a b c d e f g h)) with v
  end.

Lemma parseISO_of_date (suffix : string) (tod : Z) s :
  (suffix = "T00:00:00.000Z" /\ tod = 0) \/ (suffix = "T23:59:59.999Z" /\ tod = 86399999) ->
  matchesDatePattern s = true ->
  parseISO (s +++ suffix)
  = if (1 <=? dateMonth s) && (dateMonth s <=? 12) && (1 <=? dateDay s) && (dateDay s <=? 31)
    then timeClip (makeDate (daysFromCivil (dateYear s) (dateMonth s) (dateDay s)) tod)
    else None.
Proof.
  intros Hsuf H. destruct (matchesDatePattern_shape s H)
    as (y1 & y2 & y3 & y4 & m1 & m2 & d1 & d2 & -> & Hy1 & Hy2 & Hy3 & Hy4 & Hm1 & Hm2 & Hd1 & Hd2).
  unfold parseISO, dateYear, dateMonth, dateDay, numOf.
  destruct Hsuf as [[-> ->] | [-> ->]].
  - cbn. rewrite Hy1, Hy2, Hy3, Hy4, Hm1, Hm2, Hd1, Hd2. eval_const_digits.
    change (makeTime _ _ _ _) with 0.
    change ((0 * 10 + 0) * 10 + 0) with 0.
    change (((0 * 10 + 0) * 10 + 0) * 10 + 0) with 0.
    change (0 <=? 23) with true. change (0 <=? 59) with true. cbn.
    repeat match goal with |- context [?a <=? ?b] => destruct (a <=? b) end; reflexivity.
  - cbn. rewrite Hy1, Hy2, Hy3, Hy4, Hm1, Hm2, Hd1, Hd2. eval_const_digits.
    change (makeTime _ _ _ _) with 86399999.
    change ((0 * 10 + 2) * 10 + 3) with 23.
    change ((0 * 10 + 5) * 10 + 9) with 59.
    change (23 <=? 23) with true. change (59 <=? 59) with true. cbn.
    repeat match goal with |- context [?a <=? ?b] => destruct (a <=? b) end; reflexivity.
Qed.

Definition isValidDateString (s : string) : bool :=
  matchesDatePattern s &&
  (1 <=? dateMonth s) && (dateMonth s <=? 12) &&
  (1 <=? dateDay s) && (dateDay s <=? daysInMonth (dateYear s) (dateMonth s)).

Lemma daysInMonth_le_31 y m : daysInMonth y m <= 31.
Proof.
  unfold daysInMonth.
  repeat match goal with |- context [if ?b then _ else _] => destruct b end; lia.
Qed.

Lemma isoOfTime_of_date (suffix : string) (tod : Z) s :
  (suffix = "T00:00:00.000Z" /\ tod = 0) \/ (suffix = "T23:59:59.999Z" /\ tod = 86399999) ->
  isValidDateString s = true ->
  isoOfTime (makeDate (daysFromCivil (dateYear s) (dateMonth s) (dateDay s)) tod)
  = s +++ suffix.
Proof.
  intros Hsuf H. unfold isValidDateString in H.
  do 4 (apply andb_prop in H; destruct H as [H ?]).
  repeat match goal with Hle : (_ <=? _) = true |- _ => apply Z.leb_le in Hle end.
  destruct (matchesDatePattern_shape s H)
    as (y1 & y2 & y3 & y4 & m1 & m2 & d1 & d2 & Hs & Hy1 & Hy2 & Hy3 & Hy4 & Hm1 & Hm2 & Hd1 & Hd2).
  destruct (isDigit_spec _ Hy1) as [By1 Cy1], (isDigit_spec _ Hy2) as [By2 Cy2],
    (isDigit_spec _ Hy3) as [By3 Cy3], (isDigit_spec _ Hy4) as [By4 Cy4],
    (isDigit_spec _ Hm1) as [Bm1 Cm1], (isDigit_spec _ Hm2) as [Bm2 Cm2],
    (isDigit_spec _ Hd1) as [Bd1 Cd1], (isDigit_spec _ Hd2) as [Bd2 Cd2].
  assert (Ey : dateYear s = ((digitVal y1 * 10 + digitVal y2) * 10 + digitVal y3) * 10 + digitVal y4).
  { subst s. unfold dateYear, numOf. cbn. lia. }
  assert (Em : dateMonth s = digitVal m1 * 10 + digitVal m2).
  { subst s. unfold dateMonth, numOf. cbn. lia. }
  assert (Ed : dateDay s = digitVal d1 * 10 + digitVal d2).
  { subst s. unfold dateDay, numOf. cbn. lia. }
  unfold isoOfTime, makeDate, msPerDay.
  set (D := daysFromCivil _ _ _).
  assert (Htod : 0 <= tod < 86400000) by (destruct Hsuf as [[_ ->] | [_ ->]]; lia).
  replace ((D * 86400000 + tod) / 86400000) with D
    by (apply (Z.div_unique _ 86400000 D tod); lia).
  replace ((D * 86400000 + tod) mod 86400000) with tod
    by (apply (Z.mod_unique _ 86400000 D tod); lia).
  unfold D. rewrite civil_roundtrip by lia.
  unfold isoYear.
  replace ((0 <=? dateYear s) && (dateYear s <=? 9999)) with true
    by (symmetry; apply andb_true_iff; split; apply Z.leb_le; lia).
  rewrite Ey, Em, Ed.
  rewrite padDigits_4, !padDigits_2 by lia.
  rewrite Cy1, Cy2, Cy3, Cy4, Cm1, Cm2, Cd1, Cd2.
  subst s. destruct Hsuf as [[-> ->] | [-> ->]]; vm_compute; reflexivity.
Qed.

Lemma dateYear_bounds s : matchesDatePattern s = true -> 0 <= dateYear s <= 9999.
Proof.
  intros H. destruct (matchesDatePattern_shape s H)
    as (y1 & y2 & y3 & y4 & m1 & m2 & d1 & d2 & -> & Hy1 & Hy2 & Hy3 & Hy4 & _).
  destruct (isDigit_spec _ Hy1), (isDigit_spec _ Hy2), (isDigit_spec _ Hy3), (isDigit_spec _ Hy4).
  unfold dateYear, numOf. cbn. lia.
Qed.

Lemma isValidDateString_fields s :
  isValidDateString s = true ->
  matchesDatePattern s = true /\ 1 <= dateMonth s <= 12 /\
  1 <= dateDay s <= daysInMonth (dateYear s) (dateMonth s).
Proof.
  unfold isValidDateString. intros H.
  do 4 (apply andb_prop in H; destruct H as [H ?]).
  repeat match goal with Hle : (_ <=? _) = true |- _ => apply Z.leb_le in Hle end.
  auto.
Qed.

Lemma parseISO_valid (suffix : string) (tod : Z) s :
  (suffix = "T00:00:00.000Z" /\ tod = 0) \/ (suffix = "T23:59:59.999Z" /\ tod = 86399999) ->
  isValidDateString s = true ->
  parseISO (s +++ suffix)
  = Some (makeDate (daysFromCivil (dateYear s) (dateMonth s) (dateDay s)) tod).
Proof.
  intros Hsuf H. destruct (isValidDateString_fields s H) as (Hp & Hm & Hd).
  pose proof (daysInMonth_le_31 (dateYear s) (dateMonth s)) as H31.
  rewrite (parseISO_of_date suffix tod s Hsuf Hp).
  replace ((1 <=? dateMonth s) && (dateMonth s <=? 12) && (1 <=? dateDay s) && (dateDay s <=? 31))
    with true by (symmetry; rewrite !andb_true_iff, !Z.leb_le; lia).
  pose proof (daysFromCivil_bounds (dateYear s) (dateMonth s) (dateDay s)
                (dateYear_bounds s Hp) Hm ltac:(lia)) as HB.
  unfold timeClip, makeDate, msPerDay, maxTime.
  assert (Htod : 0 <= tod < 86400000) by (destruct Hsuf as [[_ ->] | [_ ->]]; lia).
  destruct (Z.leb_spec (Z.abs (daysFromCivil (dateYear s) (dateMonth s) (dateDay s) * 86400000 + tod))
                       8640000000000000); [reflexivity | lia].
Qed.

(** C5.  For every valid [YYYY-MM-DD] text, [getDateTimestamps] returns
    two timestamps: the instants they denote print back as the input date
    at 00:00:00.000 and at 23:59:59.999 (UTC), the first is the start of a
    UTC day, and it is strictly earlier than the second (by 86399999
    milliseconds). *)
Theorem getDateTimestamps_valid_window (s : string) :
  isValidDateString s = true ->
  exists t0 t1 : Z,
    parseISO (s +++ "T00:00:00.000Z") = Some t0 /\
    parseISO (s +++ "T23:59:59.999Z") = Some t1 /\
    getDateTimestamps s = Ok (mkWindow (isoOfTime t0) (isoOfTime t1)) /\
    isoOfTime t0 = s +++ "T00:00:00.000Z" /\
    isoOfTime t1 = s +++ "T23:59:59.999Z" /\
    t0 mod msPerDay = 0 /\ t1 = t0 + 86399999 /\ t0 < t1.
Proof.
  intros H. destruct (isValidDateString_fields s H) as (Hp & _).
  set (D := daysFromCivil (dateYear s) (dateMonth s) (dateDay s)).
  exists (makeDate D 0), (makeDate D 86399999).
  assert (P0 := parseISO_valid "T00:00:00.000Z" 0 s ltac:(left; split; reflexivity) H).
  assert (P1 := parseISO_valid "T23:59:59.999Z" 86399999 s ltac:(right; split; reflexivity) H).
  assert (I0 := isoOfTime_of_date "T00:00:00.000Z" 0 s ltac:(left; split; reflexivity) H).
  assert (I1 := isoOfTime_of_date "T23:59:59.999Z" 86399999 s ltac:(right; split; reflexivity) H).
  fold D in P0, P1, I0, I1.
  repeat split; try assumption.
  - unfold getDateTimestamps. rewrite Hp, P0, P1. reflexivity.
  - unfold makeDate, msPerDay. rewrite Z.add_0_r. apply Z_mod_mult.
  - unfold makeDate. lia.
  - unfold makeDate. lia.
Qed.

Lemma getDateTimestamps_valid_window_witness :
  isValidDateString "2024-02-29" = true /\
  exists t0 t1 : Z,
    parseISO ("2024-02-29" +++ "T00:00:00.000Z") = Some t0 /\
    parseISO ("2024-02-29" +++ "T23:59:59.999Z") = Some t1 /\
    getDateTimestamps "2024-02-29" = Ok (mkWindow (isoOfTime t0) (isoOfTime t1)) /\
    isoOfTime t0 = "2024-02-29" +++ "T00:00:00.000Z" /\
    isoOfTime t1 = "2024-02-29" +++ "T23:59:59.999Z" /\
    t0 mod msPerDay = 0 /\ t1 = t0 + 86399999 /\ t0 < t1.
Proof.
  split; [reflexivity | apply (getDateTimestamps_valid_window "2024-02-29"); reflexivity].
Defined.

(** C4, as amended.  [getDateTimestamps] throws the InvalidDateFormat
    error exactly for the texts that do not match the pattern; a text of
    the right shape is never refused with that error, calendar date or
    not. *)
Theorem getDateTimestamps_InvalidDateFormat_iff (s : string) :
  getDateTimestamps s = Throw InvalidDateFormat <-> matchesDatePattern s = false.
Proof.
  unfold getDateTimestamps. destruct (matchesDatePattern s); cbn; split; intros H;
    try reflexivity; try discriminate H.
  destruct (parseISO (s +++ "T00:00:00.000Z")); cbn in H; [|discriminate H].
  destruct (parseISO (s +++ "T23:59:59.999Z")); cbn in H; discriminate H.
Qed.

(** C4 as stated fails: [2025-13-45] is not a calendar date, it matches
    the pattern, and the call ends in the RangeError of [toISOString]. *)
Lemma getDateTimestamps_month13_counterexample :
  isValidDateString "2025-13-45" = false /\
  getDateTimestamps "2025-13-45" = Throw (RangeError [Text "Invalid time value"]) /\
  Throw (A := Window) (RangeError [Text "Invalid time value"]) <> Throw InvalidDateFormat.
Proof. split; [reflexivity | split; [reflexivity | discriminate]]. Qed.

End DateWindowFacts.

(* ===================================================================== *)
(** ** Auth session manager, trade retrieval client, run orchestrator *)
(* ===================================================================== *)

(** *** The four conditions of [authenticate] *)






Lemma authenticate_sent remote userName apiKey :
  snd (authenticate remote userName apiKey) = [AuthRequest userName apiKey].
Proof.
  unfold authenticate, rethrow, bindM, fetchM, liftM.
  destruct (remote _) as [response | e]; cbn.
  - destruct (let* _ := _ in _) as [v | []]; reflexivity.
  - destruct e; reflexivity.
Qed.





(** Scenario 3 of the spec: HTTP 200 with [success: false]. *)
Definition rejectingRemote : Remote := fun _ =>
  Ok (mkResponse 200 "{success:false,errorCode:3,errorMessage:Invalid credentials}"
        (Some (JObj [("success", JBool false); ("errorCode", JNum 3);
                     ("errorMessage", JStr "Invalid credentials"); ("token", JNull)]))).

Example authenticate_scenario3 :
  authenticate rejectingRemote "user" "key"
  = (Throw (AuthenticationError 200 (JStr "Invalid credentials")), [AuthRequest "user" "key"]).
Proof. vm_compute. reflexivity. Qed.



(** *** What a client function sends and returns *)

Lemma searchAccounts_sent remote token :
  snd (searchAccounts remote token) = [AccountSearchRequest token].
Proof.
  unfold searchAccounts, rethrow, bindM, fetchM, liftM.
  destruct (remote _) as [response | e]; cbn.
  - destruct (let* _ := _ in _) as [v | []]; reflexivity.
  - destruct e; reflexivity.
Qed.

Lemma searchTrades_sent remote token accountId s e :
  snd (searchTrades remote token accountId s e) = [TradeSearchRequest token accountId s e].
Proof.
  unfold searchTrades, rethrow, bindM, fetchM, liftM.
  destruct (remote _) as [response | err]; cbn.
  - destruct (let* _ := _ in _) as [v | []]; reflexivity.
  - destruct err; reflexivity.
Qed.

Lemma runM_eta {A : Type} (m : RunM A) : m = (fst m, snd m).
Proof. destruct m; reflexivity. Qed.

Lemma apiSuccess_required code data field :
  apiSuccess code data (Some field) = Ok true ->
  exists v, getProp data field = Ok v /\ truthy v = true.
Proof.
  unfold apiSuccess, bind.
  destruct (code =? 200); cbn; [|discriminate].
  destruct (getProp data "success") as [s|]; [|discriminate].
  destruct (truthy s); cbn; [|discriminate].
  destruct (getProp data "errorCode") as [c|]; [|discriminate].
  destruct (strictEqZero c); cbn; [|discriminate].
  destruct (getProp data field) as [v|]; [|discriminate].
  intros [= Hv]. eauto.
Qed.

(** A token that is returned is truthy: the test [if (!token)] that
    follows the call never fires. *)
Lemma authenticate_Ok_truthy remote userName apiKey token :
  fst (authenticate remote userName apiKey) = Ok token -> truthy token = true.
Proof.
  unfold authenticate, rethrow, bindM, fetchM, liftM.
  destruct (remote _) as [response | e]; cbn.
  2: { destruct e; discriminate. }
  unfold jsonParse. destruct (json response) as [data|]; cbn; [|discriminate].
  destruct (apiSuccess _ data _) as [[] | err] eqn:Hok; cbn.
  - destruct (apiSuccess_required _ _ _ Hok) as (v & -> & Hv). cbn. intros [= <-]. exact Hv.
  - unfold errorDetail. destruct (getProp data "errorMessage"); cbn; [discriminate|].
    destruct e; discriminate.
  - destruct err; discriminate.
Qed.

Lemma searchAccounts_Ok_truthy remote token accounts :
  fst (searchAccounts remote token) = Ok accounts -> truthy accounts = true.
Proof.
  unfold searchAccounts, rethrow, bindM, fetchM, liftM.
  destruct (remote _) as [response | e]; cbn.
  2: { destruct e; discriminate. }
  unfold jsonParse. destruct (json response) as [data|]; cbn; [|discriminate].
  destruct (apiSuccess _ data _) as [[] | err] eqn:Hok; cbn.
  - destruct (apiSuccess_required _ _ _ Hok) as (v & -> & Hv). cbn. intros [= <-]. exact Hv.
  - unfold errorDetail. destruct (getProp data "errorMessage"); cbn; [discriminate|].
    destruct e; discriminate.
  - destruct err; discriminate.
Qed.

(** *** The loop over the accounts *)

Definition tradeRequest (token : JValue) (w : Window) (id : JValue) : Request :=
  TradeSearchRequest token id (startTimestamp w) (endTimestamp w).

Lemma fetchAccountTrades_stops remote token w pre a post rs sentPre id e :
  fetchAccountTrades remote token w pre = (Ok rs, sentPre) ->
  getProp a "id" = Ok id ->
  fst (searchTrades remote token id (startTimestamp w) (endTimestamp w)) = Throw e ->
  fetchAccountTrades remote token w (pre ++ a :: post)
  = (Throw e, (sentPre ++ [tradeRequest token w id])%list).
Proof.
  intros Hpre Hid Hfail. revert rs sentPre Hpre.
  induction pre as [|x pre IH]; intros rs sentPre Hpre.
  - cbn in Hpre. injection Hpre as <- <-.
    cbn [app fetchAccountTrades]. rewrite Hid. cbn.
    rewrite (runM_eta (searchTrades _ _ _ _ _)), Hfail, searchTrades_sent. reflexivity.
  - cbn [app fetchAccountTrades] in *.
    destruct (getProp x "id") as [xid | ex]; cbn in *; [|discriminate Hpre].
    rewrite (runM_eta (searchTrades remote token xid _ _)) in *.
    rewrite searchTrades_sent in *.
    destruct (fst (searchTrades remote token xid _ _)) as [trades | et]; cbn in *;
      [|discriminate Hpre].
    destruct (fetchAccountTrades remote token w pre) as [[rs' | e'] sent'] eqn:Hrec; cbn in *;
      [|discriminate Hpre].
    injection Hpre as <- <-.
    rewrite (IH rs' sent' eq_refl). cbn. rewrite ?app_nil_r. reflexivity.
Qed.

(** *** One failing account fails the run *)

(** C2, as amended.  When the search fails for an account (after the
    accounts [pre], for which it succeeded), the loop is left: the
    accounts [post] are not queried, [getTradeHistory] returns a failure
    with the message of the error, and [fetchAndSaveTradeHistory] returns
    a failure and leaves the spreadsheet as it was. *)
Theorem getTradeHistory_stops_at_first_failed_account
    (P : Platform) (remote : Remote) (targetDate : string) (ss : Spreadsheet)
    (token : JValue) (items pre post : list JValue) (a id : JValue) (w : Window)
    (rs : list AccountResult) (sentPre : list Request) (e : JSError) :
  fst (authenticate remote CONFIG.USERNAME CONFIG.API_KEY) = Ok token ->
  fst (searchAccounts remote token) = Ok (JArr items) ->
  forEachR logAccount items = Ok tt ->
  List.filter (isTradable P) items = (pre ++ a :: post)%list ->
  getDateTimestamps targetDate = Ok w ->
  fetchAccountTrades remote token w pre = (Ok rs, sentPre) ->
  getProp a "id" = Ok id ->
  fst (searchTrades remote token id (startTimestamp w) (endTimestamp w)) = Throw e ->
  let sent := (AuthRequest CONFIG.USERNAME CONFIG.API_KEY :: AccountSearchRequest token ::
               sentPre ++ [tradeRequest token w id])%list in
  getTradeHistory P remote targetDate
  = (HistoryFailure (Text "取引履歴取得処理エラー: " :: message e), sent) /\
  fetchAndSaveTradeHistory P remote targetDate ss
  = (SaveFailed (Text "取引履歴の取得に失敗しました: " ::
                 Text "取引履歴取得処理エラー: " :: message e), ss, sent).
Proof.
  intros Hauth Hacc Hlog Hfilter Hdate Hpre Hid Hfail sent.
  assert (Hbody : getTradeHistoryBody P remote targetDate = (Throw e, sent)).
  { unfold getTradeHistoryBody.
    rewrite (runM_eta (authenticate _ _ _)), Hauth, authenticate_sent.
    cbn [bindM]. rewrite (authenticate_Ok_truthy _ _ _ _ Hauth). cbn [negb].
    rewrite (runM_eta (searchAccounts _ _)), Hacc, searchAccounts_sent.
    cbn [bindM truthy negb orb lengthIsZero].
    destruct items as [|i0 items'].
    { cbn in Hfilter. destruct pre; discriminate Hfilter. }
    cbn [asArray liftM bindM]. rewrite Hlog. cbn [bindM].
    rewrite Hfilter.
    replace (List.length (pre ++ a :: post) =? 0)%nat with false
      by (symmetry; apply Nat.eqb_neq; rewrite length_app; cbn; lia).
    rewrite Hdate. cbn [bindM].
    rewrite (fetchAccountTrades_stops remote token w pre a post rs sentPre id e Hpre Hid Hfail).
    cbn. reflexivity. }
  assert (Hget : getTradeHistory P remote targetDate
                 = (HistoryFailure (Text "取引履歴取得処理エラー: " :: message e), sent)).
  { unfold getTradeHistory. rewrite Hbody. reflexivity. }
  split; [exact Hget|].
  unfold fetchAndSaveTradeHistory. rewrite Hget. reflexivity.
Qed.

(** Two accounts: the search fails for the first (HTTP 500) and would
    succeed for the second. *)
Definition account (id : float) (name : string) : JValue :=
  JObj [("id", JNum id); ("name", JStr name)].

Definition apiOk (fields : list (string * JValue)) : result HttpResponse :=
  Ok (mkResponse 200 "{...}"
        (Some (JObj (("success", JBool true) :: ("errorCode", JNum 0) :: fields)))).

Definition trade (id : float) (timestamp : JValue) (pnl : JValue) : JValue :=
  JObj [("id", JNum id); ("contractId", JStr "CON.F.US.MNQ.M25");
        ("creationTimestamp", timestamp); ("price", JNum 21000);
        ("profitAndLoss", pnl); ("fees", JNum 0.74); ("side", JNum 0);
        ("size", JNum 1); ("voided", JBool false); ("orderId", JNum 77)].

Definition oneFailingRemote : Remote := fun req =>
  match req with
  | AuthRequest _ _ => apiOk [("token", JStr "tok")]
  | AccountSearchRequest _ =>
      apiOk [("accounts", JArr [account 1 "EXPRESS-1"; account 2 "EXPRESS-2"])]
  | TradeSearchRequest _ (JNum id) _ _ =>
      if PrimFloat.eqb id 1 then
        Ok (mkResponse 500 "{...}"
              (Some (JObj [("success", JBool false); ("errorCode", JNum 1);
                           ("errorMessage", JStr "Server error")])))
      else apiOk [("trades", JArr [trade 10 (JStr "2025-05-09T01:00:00.000000+00:00") (JNum 5)])]
  | TradeSearchRequest _ _ _ _ => Throw (Error [Text "timeout"])
  end.

(** C2 as stated fails: the search for account 2 would succeed, yet after
    the failure for account 1 no request is sent for account 2, nothing is
    reconciled, and the run is a failure. *)
Lemma getTradeHistory_partial_counterexample :
  (* the search for account 2 alone succeeds *)
  fst (searchTrades oneFailingRemote (JStr "tok") (JNum 2)
         "2025-05-09T00:00:00.000Z" "2025-05-09T23:59:59.999Z")
  = Ok (JArr [trade 10 (JStr "2025-05-09T01:00:00.000000+00:00") (JNum 5)]) /\
  (* the run: no request for account 2, no success, nothing written *)
  fetchAndSaveTradeHistory Host.tokyo oneFailingRemote "2025-05-09" ∅
  = (SaveFailed [Text "取引履歴の取得に失敗しました: "; Text "取引履歴取得処理エラー: ";
                 Text "取引検索エラー ("; Int 500; Text ") (AccountID: "; Interp (JNum 1);
                 Text "): "; Interp (JStr "Server error")],
     ∅,
     [AuthRequest CONFIG.USERNAME CONFIG.API_KEY; AccountSearchRequest (JStr "tok");
      TradeSearchRequest (JStr "tok") (JNum 1)
        "2025-05-09T00:00:00.000Z" "2025-05-09T23:59:59.999Z"]).
Proof. split; vm_compute; reflexivity. Qed.

Lemma getTradeHistory_stops_at_first_failed_account_witness :
  let P := Host.tokyo in
  let remote := oneFailingRemote in
  let token := JStr "tok" in
  let a := account 1 "EXPRESS-1" in
  let post := [account 2 "EXPRESS-2"] in
  let w := mkWindow "2025-05-09T00:00:00.000Z" "2025-05-09T23:59:59.999Z" in
  let e := TradeSearchError 500 (JNum 1) (JStr "Server error") in
  let sent := [AuthRequest CONFIG.USERNAME CONFIG.API_KEY; AccountSearchRequest token;
               tradeRequest token w (JNum 1)] in
  (fst (authenticate remote CONFIG.USERNAME CONFIG.API_KEY) = Ok token /\
   fst (searchAccounts remote token) = Ok (JArr (a :: post)) /\
   forEachR logAccount (a :: post) = Ok tt /\
   List.filter (isTradable P) (a :: post) = ([] ++ a :: post)%list /\
   getDateTimestamps "2025-05-09" = Ok w /\
   fetchAccountTrades remote token w [] = (Ok [], []) /\
   getProp a "id" = Ok (JNum 1) /\
   fst (searchTrades remote token (JNum 1) (startTimestamp w) (endTimestamp w)) = Throw e) /\
  getTradeHistory P remote "2025-05-09"
  = (HistoryFailure (Text "取引履歴取得処理エラー: " :: message e), sent) /\
  fetchAndSaveTradeHistory P remote "2025-05-09" ∅
  = (SaveFailed (Text "取引履歴の取得に失敗しました: " ::
                 Text "取引履歴取得処理エラー: " :: message e), ∅, sent).
Proof.
  intros P remote token a post w e sent.
  split; [repeat split; vm_compute; reflexivity|].
  apply (getTradeHistory_stops_at_first_failed_account P remote "2025-05-09" ∅ token
           (a :: post) [] post a (JNum 1) w [] [] e); vm_compute; reflexivity.
Defined.

(** *** A failed retrieval leaves the row store as it was *)

(** C9.  When [getTradeHistory] returns an unsuccessful result, the run
    returns a failure and the spreadsheet is left as it was (no row of any
    date is deleted); [saveTradeHistoryToSheet] given such a result leaves
    it unchanged as well. *)
Theorem failed_retrieval_leaves_store_unchanged
    (P : Platform) (remote : Remote) (targetDate : string) (ss : Spreadsheet) :
  historySucceeded (fst (getTradeHistory P remote targetDate)) = false ->
  snd (fst (fetchAndSaveTradeHistory P remote targetDate ss)) = ss /\
  saveSucceeded (fst (fst (fetchAndSaveTradeHistory P remote targetDate ss))) = false /\
  snd (saveTradeHistoryToSheet P targetDate (fst (getTradeHistory P remote targetDate)) ss)
  = ss.
Proof.
  unfold fetchAndSaveTradeHistory.
  destruct (getTradeHistory P remote targetDate) as [[date results | message] sent];
    cbn; intros H; [discriminate H|]. auto.
Qed.

Lemma failed_retrieval_leaves_store_unchanged_witness :
  let ss : Spreadsheet :=
    {[ CONFIG.HISTORY_SHEET_NAME :=
         [headerRow;
          [CNum 10; CNum 1; CStr "C"; CStr "2025-05-09T01:00:00.000000+00:00"; CNum 1;
           CNum 5; CNum 1; CStr "買い"; CNum 1; CStr "いいえ"; CNum 7]] ]} in
  historySucceeded (fst (getTradeHistory Host.tokyo rejectingRemote "2025-05-09")) = false /\
  snd (fst (fetchAndSaveTradeHistory Host.tokyo rejectingRemote "2025-05-09" ss)) = ss /\
  saveSucceeded (fst (fst (fetchAndSaveTradeHistory Host.tokyo rejectingRemote
                             "2025-05-09" ss))) = false /\
  snd (saveTradeHistoryToSheet Host.tokyo "2025-05-09"
         (fst (getTradeHistory Host.tokyo rejectingRemote "2025-05-09")) ss) = ss.
Proof.
  intros ss. split; [reflexivity|].
  apply (failed_retrieval_leaves_store_unchanged Host.tokyo rejectingRemote "2025-05-09" ss).
  reflexivity.
Defined.

(* ===================================================================== *)
(** ** Row store *)
(* ===================================================================== *)

Section SheetFacts.
Import SheetOps.

Lemma isBlank_eq c : isBlank c = true -> c = blank.
Proof.
  destruct c as [s | | |]; cbn; try discriminate.
  intros H. apply String.eqb_eq in H. subst s. reflexivity.
Qed.

Lemma length_padTo {A : Type} n (d : A) l :
  List.length (padTo n d l) = Nat.max n (List.length l).
Proof. unfold padTo. rewrite length_app, repeat_length. lia. Qed.

Lemma nth_padTo {A : Type} n (d : A) l i : nth i (padTo n d l) d = nth i l d.
Proof.
  unfold padTo. destruct (Nat.lt_ge_cases i (List.length l)) as [H | H].
  - apply app_nth1, H.
  - rewrite app_nth2 by exact H. rewrite nth_repeat.
    symmetry. apply nth_overflow, H.
Qed.

Lemma nth_map2 {A B C : Type} (f : A -> B -> C) l1 l2 i d d1 d2 :
  (i < List.length l1)%nat -> (i < List.length l2)%nat ->
  nth i (map2 f l1 l2) d = f (nth i l1 d1) (nth i l2 d2).
Proof.
  revert l2 i. induction l1 as [|x l1 IH]; intros [|y l2] i H1 H2; cbn in *; try lia.
  destruct i; [reflexivity|]. apply IH; lia.
Qed.

Lemma length_map2 {A B C : Type} (f : A -> B -> C) l1 l2 :
  List.length (map2 f l1 l2) = Nat.min (List.length l1) (List.length l2).
Proof.
  revert l2. induction l1 as [|x l1 IH]; intros [|y l2]; cbn; try reflexivity.
  rewrite IH. reflexivity.
Qed.

(** Past the last element with content, everything is empty. *)
Lemma lastContent_beyond {A : Type} (empty : A -> bool) (d : A) l i :
  empty d = true -> (lastContent empty l <= i)%nat -> empty (nth i l d) = true.
Proof.
  intros Hd. revert i. induction l as [|x l IH]; intros i H; cbn in *.
  - destruct i; exact Hd.
  - destruct (lastContent empty l) as [|n] eqn:E.
    + destruct i.
      * destruct (empty x); [reflexivity | lia].
      * apply IH. lia.
    + destruct i; [lia|]. apply IH. lia.
Qed.

Lemma rowIsBlank_nth (r : Row) j : rowIsBlank r = true -> nth j r blank = blank.
Proof.
  unfold rowIsBlank. intros H. apply isBlank_eq.
  destruct (nth_in_or_default j r blank) as [Hin | ->]; [|reflexivity].
  rewrite forallb_forall in H. apply H, Hin.
Qed.

Lemma cellAt_below_last (sheet : Sheet) row col :
  (getLastRow sheet < row)%nat -> cellAt sheet row col = blank.
Proof.
  intros H. unfold cellAt. apply rowIsBlank_nth.
  apply (lastContent_beyond rowIsBlank [] sheet (row - 1)); [reflexivity|].
  unfold getLastRow in H. lia.
Qed.

(** A cell of a row after [setRowCells]. *)
Lemma nth_setRowCells col vals (r : Row) j :
  (1 <= col)%nat ->
  nth j (setRowCells col vals r) blank
  = if (col - 1 <=? j)%nat && (j <? col - 1 + List.length vals)%nat
    then nth (j - (col - 1)) vals blank
    else nth j r blank.
Proof.
  intros Hcol. unfold setRowCells.
  set (k := (col - 1)%nat). set (n := List.length vals).
  set (r' := padTo (k + n) blank r).
  assert (Hlen : (k + n <= List.length r')%nat) by (unfold r'; rewrite length_padTo; lia).
  destruct (Nat.leb_spec k j) as [Hkj | Hkj]; cbn [andb].
  - rewrite app_nth2 by (rewrite length_firstn; lia).
    rewrite length_firstn. replace (Nat.min k (List.length r')) with k by lia.
    destruct (Nat.ltb_spec j (k + n)) as [Hjn | Hjn].
    + apply app_nth1. lia.
    + rewrite app_nth2 by lia. rewrite nth_skipn.
      replace (k + n + (j - k - List.length vals))%nat with j by lia.
      apply nth_padTo.
  - rewrite app_nth1 by (rewrite length_firstn; lia).
    rewrite nth_firstn. destruct (Nat.ltb_spec j k); [|lia]. apply nth_padTo.
Qed.

(** A cell of a sheet after [setValues]. *)
Lemma cellAt_setValues row col values (sheet : Sheet) r c :
  (1 <= row)%nat -> (1 <= col)%nat -> (1 <= r)%nat -> (1 <= c)%nat ->
  cellAt (setValues row col values sheet) r c
  = if (row <=? r)%nat && (r <? row + List.length values)%nat
    then let vals := nth (r - row) values [] in
         if (col <=? c)%nat && (c <? col + List.length vals)%nat
         then nth (c - col) vals blank
         else cellAt sheet r c
    else cellAt sheet r c.
Proof.
  intros Hrow Hcol Hr Hc. unfold cellAt, setValues.
  set (k := (row - 1)%nat). set (n := List.length values).
  set (sheet' := padTo (k + n) [] sheet).
  assert (Hlen : (k + n <= List.length sheet')%nat) by (unfold sheet'; rewrite length_padTo; lia).
  destruct (Nat.leb_spec row r) as [Hrr | Hrr]; cbn [andb].
  - rewrite app_nth2 by (rewrite length_firstn; lia).
    rewrite length_firstn. replace (Nat.min k (List.length sheet')) with k by lia.
    destruct (Nat.ltb_spec r (row + n)) as [Hrn | Hrn].
    + rewrite app_nth1 by (rewrite length_map2, length_firstn, length_skipn; lia).
      rewrite (nth_map2 (setRowCells col) values (firstn n (skipn k sheet'))
                 (r - 1 - k) [] [] [])
        by (rewrite ?length_firstn, ?length_skipn; lia).
      rewrite nth_setRowCells by exact Hcol.
      replace (r - 1 - k)%nat with (r - row)%nat by lia.
      rewrite nth_firstn. destruct (Nat.ltb_spec (r - row) n); [|lia].
      rewrite nth_skipn. replace (k + (r - row))%nat with (r - 1)%nat by lia.
      unfold sheet'. rewrite nth_padTo. cbv zeta.
      replace (col - 1 <=? c - 1)%nat with (col <=? c)%nat
        by (destruct (Nat.leb_spec col c), (Nat.leb_spec (col - 1) (c - 1)); lia).
      replace (c - 1 <? col - 1 + List.length (nth (r - row) values []))%nat
        with (c <? col + List.length (nth (r - row) values []))%nat
        by (destruct (Nat.ltb_spec c (col + List.length (nth (r - row) values []))),
                     (Nat.ltb_spec (c - 1) (col - 1 + List.length (nth (r - row) values []))); lia).
      replace (c - 1 - (col - 1))%nat with (c - col)%nat by lia.
      reflexivity.
    + rewrite app_nth2 by (rewrite length_map2, length_firstn, length_skipn; lia).
      rewrite length_map2, length_firstn, length_skipn.
      rewrite nth_skipn.
      match goal with
      | |- context [nth ?i sheet' []] => replace i with (r - 1)%nat by (unfold n in *; lia)
      end.
      unfold sheet'. rewrite nth_padTo. reflexivity.
  - rewrite app_nth1 by (rewrite length_firstn; lia).
    rewrite nth_firstn. destruct (Nat.ltb_spec (r - 1) k); [|lia].
    unfold sheet'. rewrite nth_padTo. reflexivity.
Qed.


Lemma length_getDataRangeValues (sheet : Sheet) :
  List.length (getDataRangeValues sheet) = Nat.max 1 (getLastRow sheet).
Proof. unfold getDataRangeValues. rewrite length_map, length_seq. reflexivity. Qed.

Lemma nth_repeat_blank_row numCols numRows i j :
  nth j (nth i (repeat (repeat blank numCols) numRows) []) blank = blank.
Proof.
  destruct (Nat.lt_ge_cases i numRows) as [H | H].
  - rewrite (nth_indep _ [] (repeat blank numCols)) by (rewrite repeat_length; exact H).
    rewrite nth_repeat. apply nth_repeat.
  - rewrite (nth_overflow (repeat (repeat blank numCols) numRows))
      by (rewrite repeat_length; exact H).
    destruct j; reflexivity.
Qed.

End SheetFacts.

(* ===================================================================== *)
(** ** Daily aggregator *)
(* ===================================================================== *)

(** *** A ledger without data rows *)

(** The aggregate sheet made ready has no data in columns A to E. *)
Lemma prepareDailySheet_table_empty (existing : option Sheet) (row col : nat) :
  (2 <= row)%nat -> (1 <= col <= 5)%nat ->
  SheetOps.cellAt (prepareDailySheet existing) row col = blank.
Proof.
  intros Hrow Hcol. unfold prepareDailySheet.
  destruct existing as [sheet|].
  - destruct (Nat.ltb_spec 1 (SheetOps.getLastRow sheet)) as [Hlast | Hlast].
    + unfold SheetOps.clearRange. rewrite cellAt_setValues by lia.
      rewrite repeat_length.
      destruct (Nat.leb_spec 2 row); [|lia]. cbn [andb].
      destruct (Nat.ltb_spec row (2 + (SheetOps.getLastRow sheet - 1))) as [Hin | Hout].
      * cbv zeta. rewrite nth_repeat_blank_row.
        rewrite (nth_indep _ [] (repeat blank 5)) by (rewrite repeat_length; lia).
        rewrite nth_repeat, repeat_length.
        destruct (Nat.leb_spec 1 col); [|lia].
        destruct (Nat.ltb_spec col (1 + 5)); [|lia]. reflexivity.
      * apply cellAt_below_last. lia.
    + apply cellAt_below_last. lia.
  - unfold SheetOps.cellAt. cbn.
    destruct (row - 1)%nat as [|[|i]] eqn:E; [lia | |]; destruct (col - 1)%nat; reflexivity.
Qed.

(** C6, as amended.  When the ledger sheet has no data row, the call
    stops at the guard: it asks for the UI to show the alert and returns
    [null] (when a UI is available), and the aggregate sheet is left
    without data in columns A to E below its header. *)
Theorem calculateDailyProfits_without_data_rows
    (P : Platform) (ss : Spreadsheet) (dataSheet : Sheet) :
  ss !! dataSheetName = Some dataSheet ->
  (SheetOps.getLastRow dataSheet <= 1)%nat ->
  calculateDailyProfits P ss
  = (alertAndReturnNull P "データがありません",
     <[dailyProfitSheetName := prepareDailySheet (ss !! dailyProfitSheetName)]> ss) /\
  (uiAvailable P = true ->
   fst (calculateDailyProfits P ss) = ReturnedNull (Some "データがありません")) /\
  (forall row col : nat,
     (2 <= row)%nat -> (1 <= col <= 5)%nat ->
     SheetOps.cellAt (prepareDailySheet (ss !! dailyProfitSheetName)) row col = blank).
Proof.
  intros Hdata Hlast.
  assert (Hcalc : calculateDailyProfits P ss
                  = (alertAndReturnNull P "データがありません",
                     <[dailyProfitSheetName := prepareDailySheet (ss !! dailyProfitSheetName)]> ss)).
  { unfold calculateDailyProfits. rewrite Hdata.
    rewrite length_getDataRangeValues.
    destruct (Nat.leb_spec (Nat.max 1 (SheetOps.getLastRow dataSheet)) 1); [reflexivity | lia]. }
  split; [exact Hcalc|]. split.
  - intros Hui. rewrite Hcalc. unfold alertAndReturnNull. rewrite Hui. reflexivity.
  - intros row col. apply prepareDailySheet_table_empty.
Qed.

(** A ledger that holds its header row only, and an aggregate sheet with
    one line left from an earlier run. *)
Definition headerOnlyBook : Spreadsheet :=
  {[ dataSheetName := [headerRow];
     dailyProfitSheetName :=
       [dailyProfitHeader; [CStr "2025-05-08"; CNum 2; CNum 6; CNum 1.5; CNum 4.5]] ]}.

(** C6 as stated fails: on a ledger that holds its header only, the call
    returns [null] after an alert, not the (empty) table; from a trigger
    it throws. *)
Lemma calculateDailyProfits_no_data_counterexample :
  (* from the menu: an alert, and [null] instead of the sheet *)
  fst (calculateDailyProfits Host.tokyo headerOnlyBook)
  = ReturnedNull (Some "データがありません") /\
  (* from a time-driven trigger: the call of [getUi] throws *)
  fst (calculateDailyProfits Host.tokyoFromTrigger headerOnlyBook)
  = Thrown (Error [Text "Cannot call SpreadsheetApp.getUi() from this context."]).
Proof. split; vm_compute; reflexivity. Qed.

Lemma calculateDailyProfits_without_data_rows_witness :
  (headerOnlyBook !! dataSheetName = Some [headerRow] /\
   (SheetOps.getLastRow [headerRow] <= 1)%nat) /\
  calculateDailyProfits Host.tokyo headerOnlyBook
  = (alertAndReturnNull Host.tokyo "データがありません",
     <[dailyProfitSheetName := prepareDailySheet (headerOnlyBook !! dailyProfitSheetName)]>
       headerOnlyBook) /\
  (uiAvailable Host.tokyo = true ->
   fst (calculateDailyProfits Host.tokyo headerOnlyBook)
   = ReturnedNull (Some "データがありません")) /\
  (forall row col : nat,
     (2 <= row)%nat -> (1 <= col <= 5)%nat ->
     SheetOps.cellAt (prepareDailySheet (headerOnlyBook !! dailyProfitSheetName)) row col
     = blank).
Proof.
  split; [split; [reflexivity | vm_compute; lia]|].
  apply (calculateDailyProfits_without_data_rows Host.tokyo headerOnlyBook [headerRow]);
    [reflexivity | vm_compute; lia].
Defined.

Lemma float_add_zero (x : float) :
  Prim2SF x <> S754_zero true -> (x + 0)%float = x.
Proof.
  intros H. apply Prim2SF_inj. rewrite add_spec.
  change (Prim2SF 0%float) with (S754_zero false).
  destruct (Prim2SF x) as [[] | | |]; try reflexivity. contradiction.
Qed.

(** *** The loop body, row by row *)

(** The day a row counts for: [None] when the row is skipped. *)
Definition rowKey (P : Platform) (cols : Columns) (row : list Cell) : result (option string) :=
  match dateTimeOf P (nth (dateColIndex cols) row blank) with
  | None => Ok None
  | Some t => let* dateStr := formatDate P (Some t) (scriptTimeZone P) in Ok (Some dateStr)
  end.

Definition rowProfit (P : Platform) (cols : Columns) (row : list Cell) : float :=
  orZero (parseFloatCell P (nth_error row (profitLossColIndex cols))).

Definition rowFee (P : Platform) (cols : Columns) (row : list Cell) : float :=
  orZero (parseFloatCell P (rowAt row (feeColIndex cols))).

Definition hasKey (P : Platform) (cols : Columns) (k : string) (row : list Cell) : bool :=
  match rowKey P cols row with
  | Ok (Some k') => String.eqb k' k
  | _ => false
  end.

(** What one row of the day does to the day's entry. *)
Definition dayStep (P : Platform) (cols : Columns) (entry : option DayData)
    (row : list Cell) : option DayData :=
  let data := default emptyDay entry in
  Some (mkDayData (S (count data)) (totalProfitLoss data + rowProfit P cols row)%float
                  (totalFees data + rowFee P cols row)%float).

Lemma processRow_rowKey P cols m row :
  processRow P cols m row
  = match rowKey P cols row with
    | Throw e => Throw e
    | Ok None => Ok m
    | Ok (Some k) => Ok (addToDay k (rowProfit P cols row) (rowFee P cols row) m)
    end.
Proof.
  unfold processRow, rowKey.
  destruct (dateTimeOf _ _); [|reflexivity].
  destruct (formatDate _ _ _); reflexivity.
Qed.

Lemma addToDay_lookup k pl fee (m : gmap string DayData) k' :
  addToDay k pl fee m !! k'
  = if String.eqb k k'
    then Some (mkDayData (S (count (default emptyDay (m !! k))))
                 (totalProfitLoss (default emptyDay (m !! k)) + pl)%float
                 (totalFees (default emptyDay (m !! k)) + fee)%float)
    else m !! k'.
Proof.
  unfold addToDay. destruct (String.eqb_spec k k') as [-> | Hne].
  - apply lookup_insert_eq.
  - apply lookup_insert_ne. exact Hne.
Qed.

(** The entry of a day after the loop: the day's rows, in their order,
    applied to the entry it had before. *)
Lemma foldR_processRow_lookup P cols rows : forall m n k,
  foldR (processRow P cols) rows m = Ok n ->
  n !! k = fold_left (dayStep P cols) (List.filter (hasKey P cols k) rows) (m !! k).
Proof.
  induction rows as [|row rows IH]; intros m n k H; cbn in H.
  - injection H as <-. reflexivity.
  - rewrite processRow_rowKey in H. cbn [List.filter]. unfold hasKey at 1.
    destruct (rowKey P cols row) as [[k'|] | e] eqn:Hk; cbn in H; [| |discriminate H].
    + rewrite (IH _ _ k H), addToDay_lookup.
      destruct (String.eqb k' k) eqn:E; [|reflexivity].
      apply String.eqb_eq in E. subst k'. reflexivity.
    + apply (IH _ _ k H).
Qed.

(** The loop ends normally exactly when no row makes [formatDate] throw. *)
Definition keyOk (P : Platform) (cols : Columns) (row : list Cell) : Prop :=
  exists o, rowKey P cols row = Ok o.

Lemma foldR_processRow_Ok P cols rows : forall m,
  Forall (keyOk P cols) rows <-> exists n, foldR (processRow P cols) rows m = Ok n.
Proof.
  induction rows as [|row rows IH]; intros m; cbn.
  - split; [eauto | constructor].
  - rewrite processRow_rowKey. split.
    + intros H. inversion H as [|? ? [o Ho] Hrest]; subst. rewrite Ho.
      destruct o; cbn; apply IH; exact Hrest.
    + intros [n Hn].
      destruct (rowKey P cols row) as [o | e] eqn:Hk; cbn in Hn; [|discriminate Hn].
      constructor; [exists o; exact Hk|].
      destruct o; cbn in Hn; eapply IH; eauto.
Qed.

Lemma dayStep_fold_count P cols l : forall o,
  count (default emptyDay (fold_left (dayStep P cols) l o))
  = (count (default emptyDay o) + List.length l)%nat.
Proof.
  induction l as [|row l IH]; intros o; cbn [fold_left List.length].
  - lia.
  - rewrite IH. cbn. lia.
Qed.

Lemma dayStep_fold_is_Some P cols l : forall o,
  is_Some (fold_left (dayStep P cols) l o) <-> is_Some o \/ l <> [].
Proof.
  induction l as [|row l IH]; intros o; cbn [fold_left].
  - split; [auto | intros [H | H]; [exact H | contradiction]].
  - rewrite IH. split; [intros _; right; discriminate | intros _; left; eexists; reflexivity].
Qed.

Lemma filter_Permutation {A : Type} (f : A -> bool) (l l' : list A) :
  Permutation l l' -> Permutation (List.filter f l) (List.filter f l').
Proof.
  induction 1 as [| x l l' _ IH | x y l | l l' l'' _ IH1 _ IH2]; cbn.
  - constructor.
  - destruct (f x); [constructor|]; exact IH.
  - destruct (f x), (f y); try reflexivity. constructor.
  - etransitivity; eassumption.
Qed.

(** *** Row order *)

Definition dateAndCount (a : DailyAggregate) : string * nat := (aggDate a, aggTradeCount a).

(** C7, as amended.  If the aggregation of [rows] ends normally, so does
    that of any permutation [rows'], with the same dates in the same order
    and the same trade count per date; and the two results are equal
    whenever the rows of each date come in the same order in [rows'] as in
    [rows]. *)
Theorem aggregate_permutation
    (P : Platform) (cols : Columns) (rows rows' : list (list Cell))
    (out : list DailyAggregate) :
  Permutation rows rows' ->
  aggregate P cols rows = Ok out ->
  exists out' : list DailyAggregate,
    aggregate P cols rows' = Ok out' /\
    List.map dateAndCount out' = List.map dateAndCount out /\
    ((forall k, List.filter (hasKey P cols k) rows' = List.filter (hasKey P cols k) rows) ->
     out' = out).
Proof.
  intros Hperm Hagg. unfold aggregate in *.
  destruct (foldR (processRow P cols) rows ∅) as [n | e] eqn:Hn; cbn in Hagg;
    [|discriminate Hagg].
  injection Hagg as <-.
  assert (Hok : Forall (keyOk P cols) rows').
  { eapply Permutation_Forall; [exact Hperm|]. apply (foldR_processRow_Ok P cols rows ∅). eauto. }
  apply (foldR_processRow_Ok P cols rows' ∅) in Hok. destruct Hok as [n' Hn'].
  rewrite Hn'. cbn. eexists. split; [reflexivity|].
  pose proof (foldR_processRow_lookup P cols rows ∅ n) as L.
  pose proof (foldR_processRow_lookup P cols rows' ∅ n') as L'.
  assert (Hfp : forall k, Permutation (List.filter (hasKey P cols k) rows)
                                      (List.filter (hasKey P cols k) rows'))
    by (intros k; apply filter_Permutation, Hperm).
  assert (Hdom : dom n' = dom n).
  { apply set_eq. intros k. rewrite !elem_of_dom, (L k Hn), (L' k Hn'),
      !dayStep_fold_is_Some.
    split; (intros [H | H]; [left; exact H | right]); intros E; apply H.
    - specialize (Hfp k). rewrite E in Hfp. apply Permutation_nil in Hfp. exact Hfp.
    - specialize (Hfp k). rewrite E in Hfp. symmetry in Hfp.
      apply Permutation_nil in Hfp. exact Hfp. }
  assert (Hsorted : sortedDates n' = sortedDates n) by (unfold sortedDates; rewrite Hdom; reflexivity).
  split.
  - rewrite Hsorted, !List.map_map. apply List.map_ext. intros k.
    unfold dateAndCount, resultRow. cbn. f_equal.
    rewrite (L k Hn), (L' k Hn'), !dayStep_fold_count.
    f_equal. symmetry. apply Permutation_length, Hfp.
  - intros Hsame. assert (n' = n) as ->; [|reflexivity].
    apply map_eq. intros k. rewrite (L k Hn), (L' k Hn'), Hsame. reflexivity.
Qed.

(** Three fills of one day with profits 0.1, 0.2 and 0.3, and the same
    rows in the opposite order. *)
Definition fillRow (timestamp : Cell) (profitAndLoss fees : Cell) : list Cell :=
  [CNum 1; CNum 2; CStr "CON.F.US.MNQ.M25"; timestamp; CNum 21000; profitAndLoss; fees;
   CStr "買い"; CNum 1; CStr "いいえ"; CNum 7].

Definition ledgerColumns : Columns := mkColumns 3 5 (Some 6%nat).

Definition threeFills : list (list Cell) :=
  [fillRow (CStr "2025-05-09 00:31:28") (CNum 0.1) (CNum 0);
   fillRow (CStr "2025-05-09 00:45:02") (CNum 0.2) (CNum 0);
   fillRow (CStr "2025-05-09 01:10:40") (CNum 0.3) (CNum 0)].

(** C7 as stated fails: the total of the day depends on the order of its
    rows, since the addition of doubles is not associative. *)
Lemma aggregate_order_counterexample :
  Permutation threeFills (rev threeFills) /\
  aggregate Host.tokyo ledgerColumns threeFills
  = Ok [mkDailyAggregate "2025-05-09" 3 (0 + 0.1 + 0.2 + 0.3) 0 (0 + 0.1 + 0.2 + 0.3 - 0)] /\
  aggregate Host.tokyo ledgerColumns (rev threeFills)
  = Ok [mkDailyAggregate "2025-05-09" 3 (0 + 0.3 + 0.2 + 0.1) 0 (0 + 0.3 + 0.2 + 0.1 - 0)] /\
  PrimFloat.eqb (0 + 0.1 + 0.2 + 0.3) (0 + 0.3 + 0.2 + 0.1) = false.
Proof.
  split; [apply Permutation_rev|]. repeat split; vm_compute; reflexivity.
Qed.

Lemma aggregate_permutation_witness :
  Permutation threeFills (rev threeFills) /\
  aggregate Host.tokyo ledgerColumns threeFills
  = Ok [mkDailyAggregate "2025-05-09" 3 (0 + 0.1 + 0.2 + 0.3) 0 (0 + 0.1 + 0.2 + 0.3 - 0)] /\
  exists out' : list DailyAggregate,
    aggregate Host.tokyo ledgerColumns (rev threeFills) = Ok out' /\
    List.map dateAndCount out'
    = List.map dateAndCount
        [mkDailyAggregate "2025-05-09" 3 (0 + 0.1 + 0.2 + 0.3) 0 (0 + 0.1 + 0.2 + 0.3 - 0)] /\
    ((forall k, List.filter (hasKey Host.tokyo ledgerColumns k) (rev threeFills)
                = List.filter (hasKey Host.tokyo ledgerColumns k) threeFills) ->
     out' = [mkDailyAggregate "2025-05-09" 3 (0 + 0.1 + 0.2 + 0.3) 0 (0 + 0.1 + 0.2 + 0.3 - 0)]).
Proof.
  split; [apply Permutation_rev|]. split; [vm_compute; reflexivity|].
  apply (aggregate_permutation Host.tokyo ledgerColumns threeFills (rev threeFills));
    [apply Permutation_rev | vm_compute; reflexivity].
Defined.

(** *** Rows without a profit *)

(** The values that [parseFloat] makes NaN of: a missing column, an empty
    cell (how [null] is stored), a boolean, a date, and a text that does
    not start with a number. *)
Lemma parseFloatCell_not_a_number (P : Platform) :
  isNaN (parseFloatCell P None) = true /\
  isNaN (parseFloatCell P (Some blank)) = true /\
  (forall b, isNaN (parseFloatCell P (Some (CBool b))) = true) /\
  (forall t, isNaN (parseFloatCell P (Some (CDate t))) = true) /\
  (forall s, isNaN (parseFloatText P s) = true ->
             isNaN (parseFloatCell P (Some (CStr s))) = true).
Proof.
  repeat split; try reflexivity; auto.
  exact (parseFloatText_empty P).
Qed.

Lemma orZero_NaN (x : float) : isNaN x = true -> orZero x = 0%float.
Proof. unfold orZero. intros ->. reflexivity. Qed.

(** A row that counts for a day and whose profit cell holds no number
    makes the entry of the day count one more and adds 0 to its total. *)
Lemma processRow_without_profit P cols (dailyData : gmap string DayData)
    (row : list Cell) (dateStr : string) :
  rowKey P cols row = Ok (Some dateStr) ->
  isNaN (parseFloatCell P (nth_error row (profitLossColIndex cols))) = true ->
  processRow P cols dailyData row
  = Ok (addToDay dateStr 0%float (rowFee P cols row) dailyData).
Proof.
  intros Hkey Hnan. rewrite processRow_rowKey, Hkey. unfold rowProfit.
  rewrite (orZero_NaN _ Hnan). reflexivity.
Qed.

Lemma foldR_app {A B : Type} (f : B -> A -> result B) (l1 l2 : list A) (b : B) :
  foldR f (l1 ++ l2) b = let* b' := foldR f l1 b in foldR f l2 b'.
Proof.
  revert b. induction l1 as [|x l1 IH]; intros b; cbn; [reflexivity|].
  destruct (f b x) as [b' | e]; cbn; [apply IH | reflexivity].
Qed.

Lemma sortedDates_In (dailyData : gmap string DayData) (d : string) :
  In d (sortedDates dailyData) <-> is_Some (dailyData !! d).
Proof.
  unfold sortedDates.
  rewrite <- list_elem_of_In, (merge_sort_Permutation strLe (elements (dom dailyData))).
  rewrite elem_of_elements, elem_of_dom. reflexivity.
Qed.

(** The line of the table for a date. *)
Definition lineOf (dateStr : string) (table : list DailyAggregate) : option DailyAggregate :=
  find (fun a => String.eqb (aggDate a) dateStr) table.

Lemma lineOf_resultRows (dailyData : gmap string DayData) (dateStr : string)
    (dates : list string) :
  lineOf dateStr (List.map (resultRow dailyData) dates)
  = if existsb (String.eqb dateStr) dates then Some (resultRow dailyData dateStr) else None.
Proof.
  unfold lineOf. induction dates as [|d dates IH]; cbn [List.map find existsb]; [reflexivity|].
  cbn [aggDate resultRow]. rewrite (String.eqb_sym dateStr d).
  destruct (String.eqb_spec d dateStr) as [-> | _]; cbn [orb]; [reflexivity | exact IH].
Qed.

Lemma lineOf_aggregate (dailyData : gmap string DayData) (dateStr : string) :
  lineOf dateStr (List.map (resultRow dailyData) (sortedDates dailyData))
  = match dailyData !! dateStr with
    | Some _ => Some (resultRow dailyData dateStr)
    | None => None
    end.
Proof.
  rewrite lineOf_resultRows.
  destruct (existsb (String.eqb dateStr) (sortedDates dailyData)) eqn:Hex.
  - apply existsb_exists in Hex. destruct Hex as (d & Hin & Heq).
    apply String.eqb_eq in Heq. subst d. apply sortedDates_In in Hin.
    destruct Hin as [x ->]. reflexivity.
  - destruct (dailyData !! dateStr) as [x|] eqn:Hx; [|reflexivity].
    assert (Hin : In dateStr (sortedDates dailyData)) by (apply sortedDates_In; eauto).
    assert (Htrue : existsb (String.eqb dateStr) (sortedDates dailyData) = true).
    { apply existsb_exists. exists dateStr. split; [exact Hin | apply String.eqb_refl]. }
    congruence.
Qed.

(** C8, as amended.  In the table of the aggregator, a row that counts
    for a day and whose profit cell holds no number that [parseFloat]
    reads (see [parseFloatCell_not_a_number]) raises the trade count of
    its day by one and adds 0 to the day's profit total; this leaves the
    total as it was, unless it was the negative zero.  The day gets a
    line if it had none, the lines of the other days are as they were,
    and every line has [netProfit = totalProfitLoss - totalFees]. *)
Theorem profitless_row_counts_and_adds_zero
    (P : Platform) (cols : Columns) (rows : list (list Cell)) (row : list Cell)
    (dateStr : string) (out : list DailyAggregate) :
  rowKey P cols row = Ok (Some dateStr) ->
  isNaN (parseFloatCell P (nth_error row (profitLossColIndex cols))) = true ->
  aggregate P cols rows = Ok out ->
  let tradeCount0 :=
    match lineOf dateStr out with Some a => aggTradeCount a | None => O end in
  let totalProfitLoss0 :=
    match lineOf dateStr out with Some a => aggTotalProfitLoss a | None => 0%float end in
  exists (out' : list DailyAggregate) (line : DailyAggregate),
    aggregate P cols (rows ++ [row]) = Ok out' /\
    lineOf dateStr out' = Some line /\
    In line out' /\
    aggDate line = dateStr /\
    aggTradeCount line = S tradeCount0 /\
    aggTotalProfitLoss line = (totalProfitLoss0 + 0)%float /\
    (Prim2SF totalProfitLoss0 <> S754_zero true -> aggTotalProfitLoss line = totalProfitLoss0) /\
    (forall a : DailyAggregate, aggDate a <> dateStr -> In a out' <-> In a out) /\
    (forall a : DailyAggregate,
       In a out' -> aggNetProfit a = (aggTotalProfitLoss a - aggTotalFees a)%float).
Proof.
  intros Hkey Hnan Hagg. unfold aggregate in Hagg.
  destruct (foldR (processRow P cols) rows ∅) as [n | e] eqn:Hfold; cbn in Hagg;
    [|discriminate Hagg].
  injection Hagg as <-. cbv zeta. rewrite lineOf_aggregate.
  set (n' := addToDay dateStr 0%float (rowFee P cols row) n).
  assert (Hrun : aggregate P cols (rows ++ [row])
                 = Ok (List.map (resultRow n') (sortedDates n'))).
  { unfold aggregate. rewrite foldR_app, Hfold. cbn [bind foldR].
    rewrite (processRow_without_profit P cols n row dateStr Hkey Hnan). reflexivity. }
  assert (Hn' : n' !! dateStr
                = Some (mkDayData (S (count (default emptyDay (n !! dateStr))))
                                  (totalProfitLoss (default emptyDay (n !! dateStr)) + 0)
                                  (totalFees (default emptyDay (n !! dateStr))
                                   + rowFee P cols row))).
  { subst n'. rewrite addToDay_lookup, String.eqb_refl. reflexivity. }
  assert (Hother : forall d, d <> dateStr -> n' !! d = n !! d).
  { intros d Hd. subst n'. rewrite addToDay_lookup.
    destruct (String.eqb_spec dateStr d) as [-> | _]; [congruence | reflexivity]. }
  exists (List.map (resultRow n') (sortedDates n')), (resultRow n' dateStr).
  split; [exact Hrun|].
  split; [rewrite lineOf_aggregate, Hn'; reflexivity|].
  split; [apply List.in_map, sortedDates_In; rewrite Hn'; eauto|].
  split; [reflexivity|].
  assert (Hline : aggTradeCount (resultRow n' dateStr)
                  = S (count (default emptyDay (n !! dateStr))) /\
                  aggTotalProfitLoss (resultRow n' dateStr)
                  = (totalProfitLoss (default emptyDay (n !! dateStr)) + 0)%float).
  { unfold resultRow. rewrite Hn'. split; reflexivity. }
  destruct Hline as [Hcount Htotal]. rewrite Hcount, Htotal.
  assert (Hbefore :
            match (match n !! dateStr with
                   | Some _ => Some (resultRow n dateStr)
                   | None => None
                   end) with
            | Some a => aggTradeCount a
            | None => O
            end = count (default emptyDay (n !! dateStr)) /\
            match (match n !! dateStr with
                   | Some _ => Some (resultRow n dateStr)
                   | None => None
                   end) with
            | Some a => aggTotalProfitLoss a
            | None => 0%float
            end = totalProfitLoss (default emptyDay (n !! dateStr))).
  { unfold resultRow. destruct (n !! dateStr); split; reflexivity. }
  destruct Hbefore as [-> ->].
  split; [reflexivity|]. split; [reflexivity|].
  split; [intros Hnz; apply float_add_zero, Hnz|].
  split.
  - intros a Ha. rewrite !List.in_map_iff. split; intros (d & <- & Hd).
    + assert (Hne : d <> dateStr) by (intros ->; apply Ha; reflexivity).
      exists d. split.
      * unfold resultRow. rewrite (Hother d Hne). reflexivity.
      * apply sortedDates_In. rewrite <- (Hother d Hne). apply sortedDates_In, Hd.
    + assert (Hne : d <> dateStr) by (intros ->; apply Ha; reflexivity).
      exists d. split.
      * unfold resultRow. rewrite (Hother d Hne). reflexivity.
      * apply sortedDates_In. rewrite (Hother d Hne). apply sortedDates_In, Hd.
  - intros a Ha. apply List.in_map_iff in Ha. destruct Ha as (d & <- & _). reflexivity.
Qed.

(** C8 as stated fails: a profit text that is not a number but starts
    with one is read up to the first character that is not part of the
    number; the row adds 12 to the total of its day, not 0. *)
Lemma profit_text_with_leading_number_counterexample :
  parseFloatCell Host.tokyo (Some (CStr "12abc")) = 12%float /\
  aggregate Host.tokyo ledgerColumns
    [fillRow (CStr "2025-05-09 00:31:28") (CNum 10) (CNum 1)]
  = Ok [mkDailyAggregate "2025-05-09" 1 10 1 9] /\
  aggregate Host.tokyo ledgerColumns
    [fillRow (CStr "2025-05-09 00:31:28") (CNum 10) (CNum 1);
     fillRow (CStr "2025-05-09 00:45:02") (CStr "12abc") (CNum 0.5)]
  = Ok [mkDailyAggregate "2025-05-09" 2 22 1.5 20.5].
Proof. repeat split; vm_compute; reflexivity. Qed.

(** Scenario 5 of the spec: a fill whose profit is [null] (an empty cell)
    after a fill of the same day with profit 10 and a fill of another
    day. *)
Lemma profitless_row_counts_and_adds_zero_witness :
  let rows := [fillRow (CStr "2025-05-08 09:00:00") (CNum 4) (CNum 1);
               fillRow (CStr "2025-05-09 00:31:28") (CNum 10) (CNum 1)] in
  let row := fillRow (CStr "2025-05-09 00:45:02") blank (CNum 0.5) in
  let out := [mkDailyAggregate "2025-05-08" 1 4 1 3;
              mkDailyAggregate "2025-05-09" 1 10 1 9] in
  (rowKey Host.tokyo ledgerColumns row = Ok (Some "2025-05-09") /\
   isNaN (parseFloatCell Host.tokyo (nth_error row (profitLossColIndex ledgerColumns))) = true /\
   aggregate Host.tokyo ledgerColumns rows = Ok out) /\
  exists (out' : list DailyAggregate) (line : DailyAggregate),
    aggregate Host.tokyo ledgerColumns (rows ++ [row]) = Ok out' /\
    lineOf "2025-05-09" out' = Some line /\
    In line out' /\
    aggDate line = "2025-05-09" /\
    aggTradeCount line = 2%nat /\
    aggTotalProfitLoss line = (10 + 0)%float /\
    (Prim2SF 10%float <> S754_zero true -> aggTotalProfitLoss line = 10%float) /\
    (forall a : DailyAggregate, aggDate a <> "2025-05-09" -> In a out' <-> In a out) /\
    (forall a : DailyAggregate,
       In a out' -> aggNetProfit a = (aggTotalProfitLoss a - aggTotalFees a)%float).
Proof.
  intros rows row out.
  assert (H1 : rowKey Host.tokyo ledgerColumns row = Ok (Some "2025-05-09"))
    by (vm_compute; reflexivity).
  assert (H2 : isNaN (parseFloatCell Host.tokyo
                        (nth_error row (profitLossColIndex ledgerColumns))) = true)
    by (vm_compute; reflexivity).
  assert (H3 : aggregate Host.tokyo ledgerColumns rows = Ok out) by (vm_compute; reflexivity).
  split; [repeat split; assumption|].
  exact (profitless_row_counts_and_adds_zero Host.tokyo ledgerColumns rows row "2025-05-09"
           out H1 H2 H3).
Defined.

Example aggregate_scenario1 :
  aggregate Host.tokyo ledgerColumns
    [fillRow (CStr "2025-05-09 00:31:28") (CNum 10) (CNum 1);
     fillRow (CStr "2025-05-09 00:45:02") (CNum (-4)) (CNum 0.5)]
  = Ok [mkDailyAggregate "2025-05-09" 2 6 1.5 4.5].
Proof. vm_compute. reflexivity. Qed.

Example aggregate_scenario5 :
  aggregate Host.tokyo ledgerColumns
    [fillRow (CStr "2025-05-09 00:31:28") (CNum 10) (CNum 1);
     fillRow (CStr "2025-05-09 00:45:02") blank (CNum 0.5)]
  = Ok [mkDailyAggregate "2025-05-09" 2 10 1.5 8.5].
Proof. vm_compute. reflexivity. Qed.

(* ===================================================================== *)
(** ** Ledger reconciler *)
(* ===================================================================== *)

Section ReconcilerFacts.
Import SheetOps.
Variable P : Platform.
Variable targetDate : string.

(** The cell of the date column of a row. *)
Definition dateCell (row : Row) : Cell := nth (tradeDateColumnIndex - 1) row blank.

(** The scan takes the row for one of the target date. *)
Definition isTarget (row : Row) : bool :=
  match scanCell P (dateCell row) with
  | Ok (DateOf tradeDateStr) => String.eqb tradeDateStr targetDate
  | _ => false
  end.

(** The scan of the row's date cell does not throw. *)
Definition scanOk (row : Row) : Prop := exists s, scanCell P (dateCell row) = Ok s.

(** The positions, counted from [p], of the rows that satisfy [f]. *)
Fixpoint positionsOf (f : Row -> bool) (p : nat) (rows : list Row) : list nat :=
  match rows with
  | [] => []
  | r :: rest => if f r then p :: positionsOf f (S p) rest else positionsOf f (S p) rest
  end.

Lemma scanFrom_Ok p rows :
  Forall scanOk rows ->
  scanFrom P targetDate p (List.map dateCell rows) = Ok (positionsOf isTarget p rows).
Proof.
  revert p. induction rows as [|r rows IH]; intros p H; cbn; [reflexivity|].
  inversion H as [|? ? [s Hs] Hrest]; subst.
  unfold isTarget. rewrite Hs. cbn. rewrite (IH (S p) Hrest). cbn.
  destruct s as [|d]; [reflexivity|]. destruct (String.eqb d targetDate); reflexivity.
Qed.

Lemma scanFrom_Ok_inv p rows ps :
  scanFrom P targetDate p (List.map dateCell rows) = Ok ps -> Forall scanOk rows.
Proof.
  revert p ps. induction rows as [|r rows IH]; intros p ps H; [constructor|].
  cbn in H. destruct (scanCell P (dateCell r)) as [s|] eqn:Hs; cbn in H; [|discriminate H].
  destruct (scanFrom P targetDate (S p) _) as [more|] eqn:Hm; cbn in H; [|discriminate H].
  constructor; [exists s; exact Hs | eapply IH; exact Hm].
Qed.

(** Deleting the found positions, the highest first, keeps the other rows
    in their order. *)
Lemma deleteRows_positionsOf (f : Row -> bool) rows : forall pre,
  deleteRows (positionsOf f (S (List.length pre)) rows) (pre ++ rows)%list
  = (pre ++ List.filter (fun r => negb (f r)) rows)%list.
Proof.
  unfold deleteRows.
  induction rows as [|r rows IH]; intros pre; cbn [positionsOf List.filter].
  - reflexivity.
  - specialize (IH (pre ++ [r])%list).
    rewrite length_app in IH. cbn [List.length] in IH.
    replace (List.length pre + 1)%nat with (S (List.length pre)) in IH by lia.
    rewrite <- !app_assoc in IH. cbn [app] in IH.
    destruct (f r); cbn [negb].
    + cbn [rev]. rewrite fold_left_app. cbn [fold_left]. rewrite IH.
      unfold deleteRow. replace (S (List.length pre) - 1)%nat with (List.length pre) by lia.
      rewrite firstn_app, firstn_all, Nat.sub_diag, firstn_O, app_nil_r.
      rewrite skipn_app, skipn_all2 by lia.
      replace (S (List.length pre) - List.length pre)%nat with 1%nat by lia.
      reflexivity.
    + exact IH.
Qed.


(** *** The scan reads every data row *)

Lemma lastContent_le_length {A : Type} (empty : A -> bool) l :
  (lastContent empty l <= List.length l)%nat.
Proof.
  induction l as [|x l IH]; cbn; [lia|].
  destruct (lastContent empty l); [destruct (empty x); lia | lia].
Qed.

Lemma lastContent_tail_empty {A : Type} (empty : A -> bool) l :
  Forall (fun x => empty x = true) (skipn (lastContent empty l) l).
Proof.
  induction l as [|x l IH]; cbn; [constructor|].
  destruct (lastContent empty l) as [|n] eqn:E.
  - destruct (empty x) eqn:Ex; cbn; [constructor; assumption | exact IH].
  - exact IH.
Qed.

Lemma lastContent_firstn {A : Type} (empty : A -> bool) l :
  lastContent empty (firstn (lastContent empty l) l) = lastContent empty l.
Proof.
  induction l as [|x l IH]; cbn; [reflexivity|].
  destruct (lastContent empty l) as [|n] eqn:E.
  - destruct (empty x) eqn:Ex; cbn; [reflexivity | rewrite Ex; reflexivity].
  - cbn [firstn lastContent]. rewrite IH. reflexivity.
Qed.

Lemma lastContent_pos {A : Type} (empty : A -> bool) x l :
  empty x = false -> (1 <= lastContent empty (x :: l))%nat.
Proof. intros H. cbn. rewrite H. destruct (lastContent empty l); lia. Qed.

Lemma map_nth_seq {A : Type} (d : A) l a n :
  (a + n <= List.length l)%nat ->
  List.map (fun i => nth i l d) (seq a n) = firstn n (skipn a l).
Proof.
  revert l n. induction a as [|a IHa]; intros l n H.
  - change (skipn 0 l) with l. revert l H.
    induction n as [|n IHn]; intros l H; [reflexivity|].
    destruct l as [|x l]; cbn in H; [lia|].
    cbn [seq List.map firstn nth]. f_equal.
    rewrite <- seq_shift, List.map_map. cbn [nth]. apply IHn. lia.
  - destruct l as [|x l]; cbn in H; [lia|].
    rewrite <- seq_shift, List.map_map. cbn [nth skipn]. apply IHa. lia.
Qed.

Lemma scanCell_blank_row (row : Row) :
  rowIsBlank row = true -> scanCell P (dateCell row) = Ok Skipped.
Proof.
  intros H. unfold dateCell. rewrite (rowIsBlank_nth row _ H). reflexivity.
Qed.

Lemma scanFrom_blank_rows p rows :
  Forall (fun r => rowIsBlank r = true) rows ->
  scanFrom P targetDate p (List.map dateCell rows) = Ok [].
Proof.
  revert p. induction rows as [|r rows IH]; intros p H; cbn; [reflexivity|].
  inversion H; subst. rewrite scanCell_blank_row by assumption. cbn.
  rewrite IH by assumption. reflexivity.
Qed.

Lemma scanFrom_app_blank p rows tail :
  Forall (fun r => rowIsBlank r = true) tail ->
  scanFrom P targetDate p (List.map dateCell (rows ++ tail))
  = scanFrom P targetDate p (List.map dateCell rows).
Proof.
  intros Ht. revert p. induction rows as [|r rows IH]; intros p; cbn.
  - apply scanFrom_blank_rows, Ht.
  - rewrite IH. reflexivity.
Qed.

Lemma existingDataValues_firstn (sheet : Sheet) :
  existingDataValues sheet
  = List.map dateCell (firstn (getLastRow sheet - 1) (skipn 1 sheet)).
Proof.
  unfold existingDataValues.
  pose proof (lastContent_le_length rowIsBlank sheet) as Hle. fold (getLastRow sheet) in Hle.
  destruct (Nat.ltb_spec 1 (getLastRow sheet)) as [H | H].
  - rewrite <- (map_nth_seq (A := Row) [] sheet 1 (getLastRow sheet - 1)) by lia.
    rewrite List.map_map.
    rewrite <- (seq_shift (getLastRow sheet - 1) 1), List.map_map.
    apply List.map_ext. intros i. unfold cellAt, dateCell. cbn. rewrite Nat.sub_0_r.
    reflexivity.
  - replace (getLastRow sheet - 1)%nat with O by lia. reflexivity.
Qed.

Lemma scanRows_all_rows (sheet : Sheet) :
  scanRows P targetDate sheet
  = scanFrom P targetDate 2 (List.map dateCell (skipn 1 sheet)).
Proof.
  unfold scanRows. rewrite existingDataValues_firstn.
  rewrite <- (firstn_skipn (getLastRow sheet - 1) (skipn 1 sheet)) at 2.
  rewrite scanFrom_app_blank; [reflexivity|].
  rewrite skipn_skipn.
  pose proof (lastContent_tail_empty rowIsBlank sheet) as Ht. fold (getLastRow sheet) in Ht.
  destruct (getLastRow sheet) as [|n] eqn:E.
  - cbn in Ht |- *. destruct sheet; [constructor | inversion Ht; assumption].
  - replace (S n - 1 + 1)%nat with (S n) by lia. exact Ht.
Qed.


(** *** The header row *)

(** The first [numColumns] cells of a row are the titles. *)
Definition headerIntact (h : Row) : Prop :=
  List.map (fun j => nth j h blank) (seq 0 numColumns) = headerRow.

Lemma sameAsTitles_true cells titles :
  sameAsTitles cells titles = true <-> cells = List.map CStr titles.
Proof.
  revert titles. induction cells as [|c cells IH]; intros [|t titles]; cbn.
  - split; reflexivity.
  - split; discriminate.
  - destruct c; split; discriminate.
  - destruct c as [s | | |]; try (split; discriminate).
    rewrite andb_true_iff, String.eqb_eq, IH. split.
    + intros [-> ->]. reflexivity.
    + intros [= -> ->]. split; reflexivity.
Qed.

Lemma lastContent_above {A : Type} (empty : A -> bool) (d : A) l i :
  empty d = true -> empty (nth i l d) = false -> (i < lastContent empty l)%nat.
Proof.
  intros Hd Hi. destruct (Nat.lt_ge_cases i (lastContent empty l)) as [H | H]; [exact H|].
  rewrite (lastContent_beyond empty d l i Hd H) in Hi. discriminate Hi.
Qed.

Lemma getLastColumn_head h (data : list Row) :
  (lastContent isBlank h <= getLastColumn (h :: data))%nat.
Proof. unfold getLastColumn. cbn. lia. Qed.

Lemma headerIntact_nth h j :
  headerIntact h -> (j < numColumns)%nat -> nth j h blank = nth j headerRow blank.
Proof.
  unfold headerIntact. intros H Hj. rewrite <- H. symmetry.
  rewrite (nth_indep (List.map (fun j => nth j h blank) (seq 0 numColumns))
             blank ((fun j => nth j h blank) O))
    by (rewrite length_map, length_seq; exact Hj).
  rewrite (map_nth (fun j => nth j h blank) (seq 0 numColumns) O j).
  rewrite seq_nth by exact Hj. reflexivity.
Qed.

Lemma headerIntact_width h : headerIntact h -> (numColumns <= lastContent isBlank h)%nat.
Proof.
  intros H. apply (lastContent_above isBlank blank h 10); [reflexivity|].
  rewrite (headerIntact_nth h 10 H) by (vm_compute; lia). reflexivity.
Qed.

Lemma headerIntact_not_blank h : headerIntact h -> rowIsBlank h = false.
Proof.
  intros H. pose proof (headerIntact_width h H) as Hw.
  destruct (rowIsBlank h) eqn:E; [|reflexivity]. exfalso.
  assert (Hz : lastContent isBlank h = O).
  { clear -E. unfold rowIsBlank in E. induction h as [|c h IH]; cbn in *; [reflexivity|].
    apply andb_prop in E. destruct E as [Ec Eh]. rewrite (IH Eh), Ec. reflexivity. }
  rewrite Hz in Hw. change numColumns with 11%nat in Hw. lia.
Qed.

Lemma headerValues h (data : list Row) n :
  List.map (fun j => cellAt (h :: data) 1 j) (seq 1 n)
  = List.map (fun j => nth j h blank) (seq 0 n).
Proof.
  rewrite <- (seq_shift n 0), List.map_map. apply List.map_ext.
  intros j. unfold cellAt. cbn. rewrite Nat.sub_0_r. reflexivity.
Qed.

Lemma prepareSheet_intact h (data : list Row) :
  headerIntact h -> prepareSheet (Some (h :: data)) = Ok (h :: data).
Proof.
  intros H. unfold prepareSheet, getValues. cbn [Nat.eqb].
  pose proof (headerIntact_width h H) as Hw.
  pose proof (getLastColumn_head h data) as Hc.
  change numColumns with 11%nat in Hw.
  destruct (Nat.eqb_spec (getLastColumn (h :: data)) 0) as [E | _].
  { exfalso. lia. }
  cbn [bind seq List.map nth].
  rewrite List.firstn_map, take_seq.
  replace (Nat.min numColumns (getLastColumn (h :: data))) with numColumns
    by (change numColumns with 11%nat; lia).
  rewrite headerValues, H. reflexivity.
Qed.

Lemma prepareSheet_result (existing : option Sheet) (sheet0 : Sheet) :
  prepareSheet existing = Ok sheet0 ->
  exists h data, sheet0 = h :: data /\ headerIntact h.
Proof.
  unfold prepareSheet. destruct existing as [sheet|].
  2: { intros [= <-]. exists headerRow, []. split; reflexivity. }
  unfold getValues. cbn [Nat.eqb].
  destruct (Nat.eqb_spec (getLastColumn sheet) 0) as [E | Hne]; [discriminate|].
  cbn [bind seq List.map nth].
  destruct (sameAsTitles _ newHeader) eqn:Hsame; cbn [negb].
  2: { intros [= <-]. exists headerRow, []. split; reflexivity. }
  intros [= <-]. apply sameAsTitles_true in Hsame.
  destruct sheet as [|h data]; [exfalso; apply Hne; reflexivity|].
  exists h, data. split; [reflexivity|].
  rewrite List.firstn_map, take_seq, headerValues in Hsame.
  assert (Hlen : Nat.min numColumns (getLastColumn (h :: data)) = numColumns).
  { apply (f_equal (@List.length Cell)) in Hsame.
    rewrite length_map, length_seq, length_map in Hsame. exact Hsame. }
  rewrite Hlen in Hsame. exact Hsame.
Qed.


(** *** One call of the reconciler on a sheet with its header *)

Definition keep (row : Row) : bool := negb (isTarget row).

(** What is written: the rows built, below the last row with content. *)
Definition writeRows (built : Built) (sheet1 : Sheet) : Sheet :=
  if (0 <? List.length (newRows built))%nat
  then appendRows (newRows built) sheet1
  else sheet1.

(** The last step: [totalProfit.toFixed(2)] in the message. *)
Definition finishTotal (built : Built) : result (nat * float) :=
  match totalProfit built with
  | Some total => Ok (rowCount built, total)
  | None => Throw (TypeError [Text "totalProfit.toFixed is not a function"])
  end.

Lemma saveBody_prepared (results : list AccountResult) (ss : Spreadsheet) h data :
  prepareSheet (ss !! CONFIG.HISTORY_SHEET_NAME) = Ok (h :: data) ->
  saveBody P targetDate results ss
  = match scanFrom P targetDate 2 (List.map dateCell data) with
    | Throw e => (Throw e, <[CONFIG.HISTORY_SHEET_NAME := h :: data]> ss)
    | Ok _ =>
        match buildRows P results with
        | Throw e =>
            (Throw e, <[CONFIG.HISTORY_SHEET_NAME := h :: List.filter keep data]> ss)
        | Ok built =>
            (finishTotal built,
             <[CONFIG.HISTORY_SHEET_NAME := writeRows built (h :: List.filter keep data)]> ss)
        end
    end.
Proof.
  intros Hprep. unfold saveBody. rewrite Hprep, scanRows_all_rows.
  change (skipn 1 (h :: data)) with data.
  destruct (scanFrom P targetDate 2 (List.map dateCell data)) as [ps | e] eqn:Hscan;
    [|reflexivity].
  pose proof (scanFrom_Ok 2 data (scanFrom_Ok_inv 2 data ps Hscan)) as Hps.
  rewrite Hscan in Hps. injection Hps as ->.
  pose proof (deleteRows_positionsOf isTarget data [h]) as Hdel.
  cbn [List.length app] in Hdel. rewrite Hdel. clear Hdel.
  change (List.filter (fun r => negb (isTarget r)) data) with (List.filter keep data).
  destruct (buildRows P results) as [built | e]; [|reflexivity].
  unfold finishTotal, writeRows. destruct (totalProfit built); reflexivity.
Qed.

Lemma saveBody_unprepared (results : list AccountResult) (ss : Spreadsheet) e :
  prepareSheet (ss !! CONFIG.HISTORY_SHEET_NAME) = Throw e ->
  saveBody P targetDate results ss = (Throw e, ss).
Proof. intros H. unfold saveBody. rewrite H. reflexivity. Qed.

(** *** Lists of kept rows *)

Lemma filter_keep_idem (rows : list Row) :
  List.filter keep (List.filter keep rows) = List.filter keep rows.
Proof.
  induction rows as [|r rows IH]; cbn; [reflexivity|].
  destruct (keep r) eqn:E; cbn; rewrite ?E, IH; reflexivity.
Qed.

Lemma filter_keep_firstn n (rows : list Row) :
  List.filter keep (firstn n (List.filter keep rows)) = firstn n (List.filter keep rows).
Proof.
  revert n. induction rows as [|r rows IH]; intros n; cbn.
  - rewrite firstn_nil. reflexivity.
  - destruct (keep r) eqn:E; [|apply IH].
    destruct n; cbn; [reflexivity|]. rewrite E, IH. reflexivity.
Qed.

Lemma filter_keep_targets (rows : list Row) :
  Forall (fun r => isTarget r = true) rows -> List.filter keep rows = [].
Proof.
  induction 1 as [|r rows Hr _ IH]; cbn; [reflexivity|].
  unfold keep at 1. rewrite Hr. exact IH.
Qed.

Lemma scanOk_filter (f : Row -> bool) (rows : list Row) :
  Forall scanOk rows -> Forall scanOk (List.filter f rows).
Proof.
  induction 1 as [|r rows Hr _ IH]; cbn; [constructor|].
  destruct (f r); [constructor; assumption | assumption].
Qed.

Lemma scanOk_firstn n (rows : list Row) :
  Forall scanOk rows -> Forall scanOk (firstn n rows).
Proof.
  intros H. revert n. induction H as [|r rows Hr _ IH]; intros [|n]; cbn;
    constructor; auto.
Qed.

Lemma scanOk_targets (rows : list Row) :
  Forall (fun r => isTarget r = true) rows -> Forall scanOk rows.
Proof.
  induction 1 as [|r rows Hr _ IH]; constructor; [|exact IH].
  unfold isTarget in Hr. unfold scanOk.
  destruct (scanCell P (dateCell r)); [eauto | discriminate Hr].
Qed.

Lemma scanFrom_is_Ok p (rows : list Row) :
  Forall scanOk rows -> exists ps, scanFrom P targetDate p (List.map dateCell rows) = Ok ps.
Proof. intros H. eexists. apply scanFrom_Ok, H. Qed.

(** The rows written below a sheet that has its header. *)
Lemma appendRows_below_header h (data rows : list Row) :
  headerIntact h ->
  appendRows rows (h :: data)
  = h :: (firstn (getLastRow (h :: data) - 1) data ++ rows)%list.
Proof.
  intros H. unfold appendRows.
  pose proof (lastContent_pos rowIsBlank h data (headerIntact_not_blank h H)) as Hpos.
  fold (getLastRow (h :: data)) in Hpos.
  destruct (getLastRow (h :: data)) as [|n]; [lia|].
  replace (S n - 1)%nat with n by lia. reflexivity.
Qed.

Lemma appendRows_again h (data rows : list Row) :
  headerIntact h ->
  appendRows rows (h :: firstn (getLastRow (h :: data) - 1) data)
  = appendRows rows (h :: data).
Proof.
  intros H. rewrite (appendRows_below_header h data rows H).
  pose proof (lastContent_pos rowIsBlank h data (headerIntact_not_blank h H)) as Hpos.
  fold (getLastRow (h :: data)) in Hpos.
  pose proof (lastContent_firstn rowIsBlank (h :: data)) as Hfix.
  fold (getLastRow (h :: data)) in Hfix.
  pose proof (lastContent_le_length rowIsBlank (h :: data)) as Hle.
  fold (getLastRow (h :: data)) in Hle. cbn [List.length] in Hle.
  destruct (getLastRow (h :: data)) as [|n] eqn:E; [lia|].
  replace (S n - 1)%nat with n by lia.
  change (h :: firstn n data) with (firstn (S n) (h :: data)).
  unfold appendRows. unfold getLastRow. rewrite Hfix.
  rewrite firstn_firstn, Nat.min_id. reflexivity.
Qed.


(** *** Running the reconciler twice *)

Lemma saveBody_twice (results : list AccountResult) (ss : Spreadsheet) :
  (forall built, buildRows P results = Ok built ->
                 Forall (fun row => isTarget row = true) (newRows built)) ->
  saveBody P targetDate results (snd (saveBody P targetDate results ss))
  = saveBody P targetDate results ss.
Proof.
  intros Hnew.
  destruct (prepareSheet (ss !! CONFIG.HISTORY_SHEET_NAME)) as [sheet0 | e] eqn:Hprep.
  2: { rewrite (saveBody_unprepared results ss e Hprep). cbn [snd].
       apply (saveBody_unprepared results ss e Hprep). }
  destruct (prepareSheet_result _ _ Hprep) as (h & data & -> & Hh).
  rewrite (saveBody_prepared results ss h data Hprep).
  destruct (scanFrom P targetDate 2 (List.map dateCell data)) as [ps | e] eqn:Hscan.
  2: { cbn [snd]. rewrite (saveBody_prepared results _ h data)
         by (rewrite lookup_insert_eq; apply prepareSheet_intact, Hh).
       rewrite Hscan, insert_insert_eq. reflexivity. }
  pose proof (scanFrom_Ok_inv 2 data ps Hscan) as Hok.
  assert (Hok1 : Forall scanOk (List.filter keep data)) by (apply scanOk_filter, Hok).
  destruct (buildRows P results) as [built | e] eqn:Hbuild.
  2: { cbn [snd]. rewrite (saveBody_prepared results _ h (List.filter keep data))
         by (rewrite lookup_insert_eq; apply prepareSheet_intact, Hh).
       destruct (scanFrom_is_Ok 2 _ Hok1) as [ps1 ->]. rewrite Hbuild.
       rewrite filter_keep_idem, insert_insert_eq. reflexivity. }
  cbn [snd]. unfold writeRows at 1 2.
  destruct (Nat.ltb_spec 0 (List.length (newRows built))) as [Hn | Hn].
  - rewrite (appendRows_below_header h _ _ Hh).
    set (dataK := firstn (getLastRow (h :: List.filter keep data) - 1) (List.filter keep data)).
    assert (HokK : Forall scanOk (dataK ++ newRows built)).
    { apply Forall_app. split; [apply scanOk_firstn, Hok1 | apply scanOk_targets, Hnew, eq_refl]. }
    rewrite (saveBody_prepared results _ h (dataK ++ newRows built))
      by (rewrite lookup_insert_eq; apply prepareSheet_intact, Hh).
    destruct (scanFrom_is_Ok 2 _ HokK) as [ps2 ->]. rewrite Hbuild.
    rewrite List.filter_app, (filter_keep_targets _ (Hnew built eq_refl)), app_nil_r.
    unfold dataK. rewrite filter_keep_firstn.
    unfold writeRows. destruct (Nat.ltb_spec 0 (List.length (newRows built))); [|lia].
    rewrite (appendRows_again h _ _ Hh), (appendRows_below_header h _ _ Hh).
    rewrite insert_insert_eq. reflexivity.
  - rewrite (saveBody_prepared results _ h (List.filter keep data))
      by (rewrite lookup_insert_eq; apply prepareSheet_intact, Hh).
    destruct (scanFrom_is_Ok 2 _ Hok1) as [ps1 ->]. rewrite Hbuild.
    rewrite filter_keep_idem. unfold writeRows.
    destruct (Nat.ltb_spec 0 (List.length (newRows built))); [lia|].
    rewrite insert_insert_eq. reflexivity.
Qed.


(** *** What the second call finds *)

Lemma positionsOf_kept p (rows : list Row) :
  positionsOf isTarget p (List.filter keep rows) = [].
Proof.
  revert p. induction rows as [|r rows IH]; intros p; cbn; [reflexivity|].
  destruct (keep r) eqn:E; [|apply IH]. cbn.
  unfold keep in E. apply negb_true_iff in E. rewrite E. apply IH.
Qed.

Lemma positionsOf_kept_firstn p n (rows : list Row) :
  positionsOf isTarget p (firstn n (List.filter keep rows)) = [].
Proof.
  rewrite <- filter_keep_firstn. apply positionsOf_kept.
Qed.

Lemma positionsOf_app (f : Row -> bool) p (l1 l2 : list Row) :
  positionsOf f p (l1 ++ l2)
  = (positionsOf f p l1 ++ positionsOf f (p + List.length l1) l2)%list.
Proof.
  revert p. induction l1 as [|r l1 IH]; intros p; cbn.
  - rewrite Nat.add_0_r. reflexivity.
  - rewrite IH. replace (S p + List.length l1)%nat with (p + S (List.length l1))%nat by lia.
    destruct (f r); reflexivity.
Qed.

Lemma positionsOf_targets p (rows : list Row) :
  Forall (fun r => isTarget r = true) rows ->
  positionsOf isTarget p rows = seq p (List.length rows).
Proof.
  intros H. revert p. induction H as [|r rows Hr _ IH]; intros p; cbn; [reflexivity|].
  rewrite Hr, IH. reflexivity.
Qed.

(** After a call that appended rows of the target date, the scan finds
    exactly those rows. *)
Lemma scanRows_after_append h (data : list Row) (rows : list Row) :
  headerIntact h ->
  Forall scanOk data ->
  Forall (fun r => isTarget r = true) rows ->
  let sheet1 := h :: List.filter keep data in
  scanRows P targetDate (appendRows rows sheet1)
  = Ok (seq (S (getLastRow sheet1)) (List.length rows)).
Proof.
  intros Hh Hok Hrows sheet1. unfold sheet1.
  rewrite (appendRows_below_header h _ _ Hh), scanRows_all_rows.
  change (skipn 1 (h :: ?l)) with l.
  set (lr := getLastRow (h :: List.filter keep data)).
  rewrite scanFrom_Ok.
  2: { apply Forall_app. split; [apply scanOk_firstn, scanOk_filter, Hok
                                | apply scanOk_targets, Hrows]. }
  rewrite positionsOf_app, positionsOf_kept_firstn, (positionsOf_targets _ _ Hrows).
  cbn [app]. rewrite length_firstn.
  pose proof (lastContent_pos rowIsBlank h (List.filter keep data)
                (headerIntact_not_blank h Hh)) as Hpos.
  pose proof (lastContent_le_length rowIsBlank (h :: List.filter keep data)) as Hle.
  fold (getLastRow (h :: List.filter keep data)) in Hpos, Hle. fold lr in Hpos, Hle.
  cbn [List.length] in Hle.
  replace (2 + Nat.min (lr - 1) (List.length (List.filter keep data)))%nat with (S lr) by lia.
  reflexivity.
Qed.


Lemma deleteRows_scanned h (data : list Row) rowsToDelete :
  scanRows P targetDate (h :: data) = Ok rowsToDelete ->
  Forall scanOk data /\ deleteRows rowsToDelete (h :: data) = h :: List.filter keep data.
Proof.
  rewrite scanRows_all_rows. change (skipn 1 (h :: data)) with data. intros Hscan.
  pose proof (scanFrom_Ok_inv 2 data rowsToDelete Hscan) as Hok.
  split; [exact Hok|].
  pose proof (scanFrom_Ok 2 data Hok) as Hps. rewrite Hscan in Hps. injection Hps as ->.
  apply (deleteRows_positionsOf isTarget data [h]).
Qed.

End ReconcilerFacts.

(** C1, as amended.  Calling the reconciler a second time with the same
    retrieval result gives the same result and leaves the spreadsheet as
    the first call left it, provided the scan takes every row that is
    written for a row of the target date (its date cell is read as the
    target date).  Then the second call finds exactly the rows the first
    call appended, deletes them, and appends the same rows again. *)
Theorem saveTradeHistoryToSheet_twice
    (P : Platform) (targetDate : string) (result : TradeHistoryResult) (ss : Spreadsheet) :
  (forall date results built,
     result = HistorySuccess date results -> buildRows P results = Ok built ->
     Forall (fun row => isTarget P targetDate row = true) (newRows built)) ->
  saveTradeHistoryToSheet P targetDate result
    (snd (saveTradeHistoryToSheet P targetDate result ss))
  = saveTradeHistoryToSheet P targetDate result ss /\
  (forall date results built sheet0 rowsToDelete,
     result = HistorySuccess date results ->
     prepareSheet (ss !! CONFIG.HISTORY_SHEET_NAME) = Ok sheet0 ->
     scanRows P targetDate sheet0 = Ok rowsToDelete ->
     buildRows P results = Ok built ->
     (0 < List.length (newRows built))%nat ->
     let sheet1 := deleteRows rowsToDelete sheet0 in
     snd (saveTradeHistoryToSheet P targetDate result ss) !! CONFIG.HISTORY_SHEET_NAME
     = Some (SheetOps.appendRows (newRows built) sheet1) /\
     scanRows P targetDate (SheetOps.appendRows (newRows built) sheet1)
     = Ok (seq (S (SheetOps.getLastRow sheet1)) (List.length (newRows built)))).
Proof.
  intros Hnew. split.
  - destruct result as [date results | message]; [|reflexivity].
    unfold saveTradeHistoryToSheet.
    set (first := saveBody P targetDate results ss).
    replace (snd (match first with
                  | (Ok (rowCount, totalProfit), ss') => _
                  | (Throw error, ss') => _
                  end)) with (snd first)
      by (destruct first as [[[n t] | e] s]; reflexivity).
    unfold first.
    rewrite (saveBody_twice P targetDate results ss (fun built => Hnew date results built eq_refl)).
    reflexivity.
  - intros date results built sheet0 rowsToDelete -> Hprep Hscan Hbuild Hn sheet1.
    destruct (prepareSheet_result _ _ Hprep) as (h & data & -> & Hh).
    destruct (deleteRows_scanned P targetDate h data rowsToDelete Hscan) as [Hok Hdel].
    unfold sheet1. rewrite Hdel. split.
    + unfold saveTradeHistoryToSheet.
      rewrite (saveBody_prepared P targetDate results ss h data Hprep).
      rewrite scanRows_all_rows in Hscan. change (skipn 1 (h :: data)) with data in Hscan.
      rewrite Hscan, Hbuild. unfold writeRows.
      destruct (Nat.ltb_spec 0 (List.length (newRows built))); [|lia].
      unfold finishTotal. destruct (totalProfit built); cbn [snd]; apply lookup_insert_eq.
    + apply (scanRows_after_append P targetDate h data (newRows built) Hh Hok).
      apply (Hnew date results built eq_refl Hbuild).
Qed.

(** One account with one fill, its timestamp as given. *)
Definition oneFillResult (timestamp : JValue) : TradeHistoryResult :=
  HistorySuccess "2025-05-09"
    [mkAccountResult (JNum 1) (JNum 1) (JArr [trade 10 timestamp (JNum 5)])].

Definition fillRowOf (timestamp : Cell) : Row :=
  [CNum 10; CNum 1; CStr "CON.F.US.MNQ.M25"; timestamp; CNum 21000; CNum 5; CNum 0.74;
   CStr "買い"; CNum 1; CStr "いいえ"; CNum 77].

Definition historyAfter (x : SaveResult * Spreadsheet) : option Sheet :=
  snd x !! CONFIG.HISTORY_SHEET_NAME.

(** C1 as stated fails: rows whose date cell the scan does not read as the
    target date are not deleted by the second call, and are appended once
    more. *)
Lemma saveTradeHistoryToSheet_twice_counterexample :
  (* a fill without a timestamp: the scan passes over its row *)
  historyAfter (saveTradeHistoryToSheet Host.tokyo "2025-05-09" (oneFillResult JNull) ∅)
  = Some [headerRow; fillRowOf blank] /\
  historyAfter (saveTradeHistoryToSheet Host.tokyo "2025-05-09" (oneFillResult JNull)
                  (snd (saveTradeHistoryToSheet Host.tokyo "2025-05-09"
                          (oneFillResult JNull) ∅)))
  = Some [headerRow; fillRowOf blank; fillRowOf blank] /\
  (* a fill whose timestamp is read as another day *)
  historyAfter (saveTradeHistoryToSheet Host.tokyo "2025-05-09"
                  (oneFillResult (JStr "2025-05-10T00:00:03.000000+00:00")) ∅)
  = Some [headerRow; fillRowOf (CStr "2025-05-10T00:00:03.000000+00:00")] /\
  historyAfter (saveTradeHistoryToSheet Host.tokyo "2025-05-09"
                  (oneFillResult (JStr "2025-05-10T00:00:03.000000+00:00"))
                  (snd (saveTradeHistoryToSheet Host.tokyo "2025-05-09"
                          (oneFillResult (JStr "2025-05-10T00:00:03.000000+00:00")) ∅)))
  = Some [headerRow; fillRowOf (CStr "2025-05-10T00:00:03.000000+00:00");
          fillRowOf (CStr "2025-05-10T00:00:03.000000+00:00")].
Proof. repeat split; vm_compute; reflexivity. Qed.

(** A ledger with one fill of 8 May and one of 9 May. *)
Definition twoDayBook : Spreadsheet :=
  {[ CONFIG.HISTORY_SHEET_NAME :=
       [headerRow;
        fillRowOf (CStr "2025-05-08T14:00:00.000000+00:00");
        fillRowOf (CStr "2025-05-09T01:00:00.000000+00:00")] ]}.

Lemma saveTradeHistoryToSheet_twice_witness :
  let result := oneFillResult (JStr "2025-05-09T02:30:00.000000+00:00") in
  (forall date results built,
     result = HistorySuccess date results -> buildRows Host.tokyo results = Ok built ->
     Forall (fun row => isTarget Host.tokyo "2025-05-09" row = true) (newRows built)) /\
  saveTradeHistoryToSheet Host.tokyo "2025-05-09" result
    (snd (saveTradeHistoryToSheet Host.tokyo "2025-05-09" result twoDayBook))
  = saveTradeHistoryToSheet Host.tokyo "2025-05-09" result twoDayBook /\
  (forall date results built sheet0 rowsToDelete,
     result = HistorySuccess date results ->
     prepareSheet (twoDayBook !! CONFIG.HISTORY_SHEET_NAME) = Ok sheet0 ->
     scanRows Host.tokyo "2025-05-09" sheet0 = Ok rowsToDelete ->
     buildRows Host.tokyo results = Ok built ->
     (0 < List.length (newRows built))%nat ->
     let sheet1 := deleteRows rowsToDelete sheet0 in
     snd (saveTradeHistoryToSheet Host.tokyo "2025-05-09" result twoDayBook)
       !! CONFIG.HISTORY_SHEET_NAME
     = Some (SheetOps.appendRows (newRows built) sheet1) /\
     scanRows Host.tokyo "2025-05-09" (SheetOps.appendRows (newRows built) sheet1)
     = Ok (seq (S (SheetOps.getLastRow sheet1)) (List.length (newRows built)))).
Proof.
  intros result.
  assert (Hnew : forall date results built,
     result = HistorySuccess date results -> buildRows Host.tokyo results = Ok built ->
     Forall (fun row => isTarget Host.tokyo "2025-05-09" row = true) (newRows built)).
  { intros date results built [= <- <-] Hbuild. vm_compute in Hbuild.
    injection Hbuild as <-. repeat constructor. }
  split; [exact Hnew|].
  apply (saveTradeHistoryToSheet_twice Host.tokyo "2025-05-09" result twoDayBook Hnew).
Defined.

Example saveTradeHistoryToSheet_replaces_day :
  historyAfter (saveTradeHistoryToSheet Host.tokyo "2025-05-09"
                  (oneFillResult (JStr "2025-05-09T02:30:00.000000+00:00")) twoDayBook)
  = Some [headerRow;
          fillRowOf (CStr "2025-05-08T14:00:00.000000+00:00");
          fillRowOf (CStr "2025-05-09T02:30:00.000000+00:00")].
Proof. vm_compute. reflexivity. Qed.

(** *** A sheet whose header differs *)


(** The rows that the call builds from the result (none if building them
    throws). *)
Definition builtRows (P : Platform) (results : list AccountResult) : list Row :=
  match buildRows P results with
  | Ok built => newRows built
  | Throw _ => []
  end.


(** A ledger in an older layout (ten columns), with fills of two days. *)
Definition oldLayoutBook : Spreadsheet :=
  {[ CONFIG.HISTORY_SHEET_NAME :=
       [[CStr "ID"; CStr "契約ID"; CStr "取引日時"; CStr "価格"; CStr "損益"; CStr "手数料";
         CStr "売買区分"; CStr "サイズ"; CStr "無効"; CStr "注文ID"];
        [CNum 3; CStr "CON.F.US.MNQ.M25"; CStr "2025-05-07T14:00:00.000000+00:00";
         CNum 20950; CNum 12; CNum 0.74; CStr "売り"; CNum 1; CStr "いいえ"; CNum 70];
        [CNum 4; CStr "CON.F.US.MNQ.M25"; CStr "2025-05-09T01:00:00.000000+00:00";
         CNum 21010; CNum (-3); CNum 0.74; CStr "買い"; CNum 1; CStr "いいえ"; CNum 71]] ]}.


Example header_mismatch_example :
  historyAfter (saveTradeHistoryToSheet Host.tokyo "2025-05-09"
                  (oneFillResult (JStr "2025-05-09T02:30:00.000000+00:00")) oldLayoutBook)
  = Some [headerRow; fillRowOf (CStr "2025-05-09T02:30:00.000000+00:00")].
Proof. vm_compute. reflexivity. Qed.

(* ===================================================================== *)
(** ** More on the retrieval client and [getTradeHistory] *)
(* ===================================================================== *)



(** A provider that answers a trade search with success and no [trades]
    field. *)
Definition noTradesRemote : Remote := fun _ => apiOk [("trades", JNull)].


Example searchTrades_without_trades_field :
  fst (searchTrades noTradesRemote (JStr "tok") (JNum 1) "a" "b") = Ok (JArr []).
Proof. vm_compute. reflexivity. Qed.

(** X2.  A response whose body is not JSON makes each of the three client
    functions throw a plain [Error] whose message starts with the
    function's parse-failure text (for [searchTrades], with the account
    id), whatever the status of the response. *)
Theorem unparsable_body_is_reported
    (remote : Remote) (response : HttpResponse)
    (userName apiKey : string) (token accountId : JValue) (s e : string) :
  (forall req, remote req = Ok response) ->
  json response = None ->
  exists detail : Message,
    fst (authenticate remote userName apiKey) = Throw (Error (authParseFailure ++ detail)%list) /\
    fst (searchAccounts remote token) = Throw (Error (accountParseFailure ++ detail)%list) /\
    fst (searchTrades remote token accountId s e)
    = Throw (Error (tradeParseFailure accountId ++ detail)%list).
Proof.
  intros Hremote Hjson. exists [Text "Unexpected token in JSON"].
  unfold authenticate, searchAccounts, searchTrades, rethrow, bindM, fetchM, liftM, jsonParse.
  rewrite !Hremote, Hjson. cbn. repeat split.
Qed.

Definition badGateway : Remote := fun _ => Ok (mkResponse 502 "<html>Bad Gateway</html>" None).

Lemma unparsable_body_is_reported_witness :
  ((forall req, badGateway req = Ok (mkResponse 502 "<html>Bad Gateway</html>" None)) /\
   json (mkResponse 502 "<html>Bad Gateway</html>" None) = None) /\
  exists detail : Message,
    fst (authenticate badGateway "user" "key") = Throw (Error (authParseFailure ++ detail)%list) /\
    fst (searchAccounts badGateway (JStr "tok"))
    = Throw (Error (accountParseFailure ++ detail)%list) /\
    fst (searchTrades badGateway (JStr "tok") (JNum 1) "a" "b")
    = Throw (Error (tradeParseFailure (JNum 1) ++ detail)%list).
Proof.
  split; [split; [intros req; reflexivity | reflexivity]|].
  apply (unparsable_body_is_reported badGateway (mkResponse 502 "<html>Bad Gateway</html>" None)
           "user" "key" (JStr "tok") (JNum 1) "a" "b");
    [intros req; reflexivity | reflexivity].
Defined.

(** *** The requests of a run *)

(** The id the loop reads from an account. *)
Definition idOf (account : JValue) : JValue :=
  match getProp account "id" with
  | Ok v => v
  | Throw _ => JUndefined
  end.

Definition login : Request := AuthRequest CONFIG.USERNAME CONFIG.API_KEY.

(** The trade searches for a list of accounts, in order. *)
Definition tradeRequests (token : JValue) (w : Window) (accounts : list JValue)
    : list Request :=
  List.map (fun account => tradeRequest token w (idOf account)) accounts.

Lemma truthy_orElse a b : truthy b = true -> truthy (orElse a b) = true.
Proof. intros Hb. unfold orElse. destruct (truthy a) eqn:Ha; assumption. Qed.

Lemma searchTrades_Ok_truthy remote token accountId s e trades :
  fst (searchTrades remote token accountId s e) = Ok trades -> truthy trades = true.
Proof.
  unfold searchTrades, rethrow, bindM, fetchM, liftM.
  destruct (remote _) as [response | err]; cbn.
  2: { destruct err; discriminate. }
  unfold jsonParse. destruct (json response) as [data|]; cbn; [|discriminate].
  destruct (apiSuccess _ data _) as [[] | err]; cbn.
  - destruct (getProp data "trades") as [t | err]; cbn.
    + intros [= <-]. apply truthy_orElse. reflexivity.
    + destruct err; discriminate.
  - unfold errorDetail. destruct (getProp data "errorMessage") as [m | err]; cbn;
      [discriminate | destruct err; discriminate].
  - destruct err; discriminate.
Qed.

(** The loop sends the trade searches of a first part of the accounts, in
    order; when it ends normally it has sent them all, and the results are
    those of the accounts, one for one. *)
Lemma fetchAccountTrades_trace remote token w accounts :
  exists n : nat,
    snd (fetchAccountTrades remote token w accounts)
    = firstn n (tradeRequests token w accounts) /\
    forall rs, fst (fetchAccountTrades remote token w accounts) = Ok rs ->
      n = List.length accounts /\
      List.map accountId rs = List.map idOf accounts /\
      Forall (fun r => tradeCount r = lengthOf (trades r) /\ truthy (trades r) = true) rs.
Proof.
  induction accounts as [|a rest IH].
  - exists O. cbn. split; [reflexivity|]. intros rs [= <-]. repeat split. constructor.
  - cbn [fetchAccountTrades tradeRequests List.map].
    destruct (getProp a "id") as [id | err] eqn:Hid; cbn.
    2: { exists O. split; [reflexivity | discriminate]. }
    assert (Hidof : idOf a = id) by (unfold idOf; rewrite Hid; reflexivity).
    rewrite Hidof.
    rewrite (runM_eta (searchTrades remote token id _ _)), searchTrades_sent.
    destruct (fst (searchTrades remote token id _ _)) as [trades | err] eqn:Htrades; cbn.
    2: { exists 1%nat. split; [reflexivity | discriminate]. }
    destruct IH as (n & Hsent & Hok).
    destruct (fetchAccountTrades remote token w rest) as [[rs' | err] sent'] eqn:Hrec;
      cbn in *.
    + exists (S n). rewrite app_nil_r. split; [cbn; rewrite Hsent; reflexivity|].
      intros rs [= <-]. destruct (Hok rs' eq_refl) as (-> & Hids & Hall).
      repeat split; cbn; [congruence|]. constructor; [|exact Hall].
      cbn. split; [reflexivity|]. exact (searchTrades_Ok_truthy _ _ _ _ _ _ Htrades).
    + exists (S n). split; [cbn; rewrite Hsent; reflexivity | discriminate].
Qed.

Lemma getTradeHistory_sent P remote targetDate :
  snd (getTradeHistory P remote targetDate) = snd (getTradeHistoryBody P remote targetDate).
Proof.
  unfold getTradeHistory. destruct (getTradeHistoryBody P remote targetDate) as [[r | e] sent];
    reflexivity.
Qed.

(** X3.  The requests of a run of [getTradeHistory] are, in this order:
    the login; then, only if a token was returned, the account search with
    that token; then, only if the accounts came as an array and the date
    gave a window, trade searches with that token and that window for a
    first part of the tradable accounts (those the practice filter keeps),
    in the order of the array, one search per account.  No search is sent
    for an account that the filter drops. *)
Theorem getTradeHistory_requests (P : Platform) (remote : Remote) (targetDate : string) :
  let sent := snd (getTradeHistory P remote targetDate) in
  sent = [login] \/
  exists token : JValue,
    fst (authenticate remote CONFIG.USERNAME CONFIG.API_KEY) = Ok token /\
    (sent = [login; AccountSearchRequest token] \/
     exists (items : list JValue) (w : Window) (n : nat),
       fst (searchAccounts remote token) = Ok (JArr items) /\
       getDateTimestamps targetDate = Ok w /\
       sent = (login :: AccountSearchRequest token ::
               firstn n (tradeRequests token w (List.filter (isTradable P) items)))%list).
Proof.
  cbv zeta. rewrite getTradeHistory_sent. unfold getTradeHistoryBody.
  rewrite (runM_eta (authenticate remote _ _)), authenticate_sent.
  destruct (fst (authenticate remote _ _)) as [token | err] eqn:Hauth; [|left; reflexivity].
  cbn [bindM]. destruct (negb (truthy token)); [left; reflexivity|].
  right. exists token. split; [reflexivity|].
  rewrite (runM_eta (searchAccounts remote token)), searchAccounts_sent.
  destruct (fst (searchAccounts remote token)) as [allAccounts | err] eqn:Hacc;
    [|left; reflexivity].
  cbn [bindM]. destruct (negb (truthy allAccounts) || lengthIsZero allAccounts);
    [left; reflexivity|].
  destruct allAccounts as [| | b | x | str | items | fields]; try (left; reflexivity).
  cbn [asArray liftM bindM]. destruct (forEachR logAccount items); [|left; reflexivity].
  cbn [bindM]. destruct (_ =? _)%nat; [left; reflexivity|].
  destruct (getDateTimestamps targetDate) as [w | err] eqn:Hw; [|left; reflexivity].
  cbn [bindM].
  destruct (fetchAccountTrades_trace remote token w (List.filter (isTradable P) items))
    as (n & Hsent & _).
  right. exists items, w, n. repeat split.
  destruct (fetchAccountTrades remote token w _) as [[rs | err] sent']; cbn in *;
    rewrite Hsent, ?app_nil_r; reflexivity.
Qed.

(** The run once the accounts have come: what is left is the practice
    filter, the date window and the loop. *)
Lemma getTradeHistoryBody_with_accounts P remote targetDate token items :
  fst (authenticate remote CONFIG.USERNAME CONFIG.API_KEY) = Ok token ->
  fst (searchAccounts remote token) = Ok (JArr items) ->
  items <> [] ->
  forEachR logAccount items = Ok tt ->
  getTradeHistoryBody P remote targetDate
  = let filteredAccounts := List.filter (isTradable P) items in
    if (List.length filteredAccounts =? 0)%nat
    then (Ok (HistoryFailure NoTradableAccountsFound), [login; AccountSearchRequest token])
    else
      match getDateTimestamps targetDate with
      | Throw e => (Throw e, [login; AccountSearchRequest token])
      | Ok w =>
          (match fst (fetchAccountTrades remote token w filteredAccounts) with
           | Ok results => Ok (HistorySuccess targetDate results)
           | Throw e => Throw e
           end,
           (login :: AccountSearchRequest token ::
            snd (fetchAccountTrades remote token w filteredAccounts))%list)
      end.
Proof.
  intros Hauth Hacc Hitems Hlog. unfold getTradeHistoryBody.
  rewrite (runM_eta (authenticate remote _ _)), authenticate_sent, Hauth.
  cbn [bindM]. rewrite (authenticate_Ok_truthy _ _ _ _ Hauth). cbn [negb].
  rewrite (runM_eta (searchAccounts remote token)), searchAccounts_sent, Hacc.
  cbn [bindM truthy negb orb lengthIsZero].
  destruct items as [|a items']; [congruence|].
  cbn [asArray liftM bindM]. rewrite Hlog. cbn [bindM].
  cbv zeta. destruct (_ =? _)%nat; [reflexivity|].
  destruct (getDateTimestamps targetDate) as [w | e]; [|reflexivity].
  cbn [bindM].
  destruct (fetchAccountTrades remote token w _) as [[rs | e] sent]; cbn;
    rewrite ?app_nil_r; reflexivity.
Qed.

(** The results of a loop that ended normally are those of the accounts,
    one for one: each has the id of its account and what [searchTrades]
    returned for that id and the window. *)
Lemma fetchAccountTrades_results remote token w accounts rs :
  fst (fetchAccountTrades remote token w accounts) = Ok rs ->
  Forall2 (fun r account =>
             accountId r = idOf account /\
             fst (searchTrades remote token (idOf account) (startTimestamp w) (endTimestamp w))
             = Ok (trades r) /\
             tradeCount r = lengthOf (trades r))
          rs accounts.
Proof.
  revert rs. induction accounts as [|a rest IH]; intros rs.
  - cbn. intros [= <-]. constructor.
  - cbn [fetchAccountTrades].
    destruct (getProp a "id") as [id | err] eqn:Hid; cbn; [|discriminate].
    assert (Hidof : idOf a = id) by (unfold idOf; rewrite Hid; reflexivity).
    rewrite (runM_eta (searchTrades remote token id _ _)).
    destruct (fst (searchTrades remote token id _ _)) as [fills | err] eqn:Htrades; cbn;
      [|discriminate].
    destruct (fetchAccountTrades remote token w rest) as [[rs' | err] sent'] eqn:Hrec;
      cbn in *; [|discriminate].
    intros [= <-]. constructor; [|apply IH; reflexivity].
    cbn [accountId trades tradeCount]. rewrite Hidof.
    split; [reflexivity|]. split; [exact Htrades | reflexivity].
Qed.

(** X4.  A successful result of [getTradeHistory] carries the date it was
    asked for and one entry per tradable account, in the order of the
    account array, each with the account's id, the trades that
    [searchTrades] returned for that id, the token of the login and the
    window of the date (an array or another truthy value), and their
    [length] as [tradeCount]; there is at least one entry; and the run
    sent the login, the account search and one trade search per entry, no
    more. *)
Theorem getTradeHistory_success_shape
    (P : Platform) (remote : Remote) (targetDate date : string)
    (results : list AccountResult) :
  fst (getTradeHistory P remote targetDate) = HistorySuccess date results ->
  date = targetDate /\
  (0 < List.length results)%nat /\
  Forall (fun r => tradeCount r = lengthOf (trades r) /\ truthy (trades r) = true) results /\
  exists (token : JValue) (items : list JValue) (w : Window),
    fst (authenticate remote CONFIG.USERNAME CONFIG.API_KEY) = Ok token /\
    fst (searchAccounts remote token) = Ok (JArr items) /\
    getDateTimestamps targetDate = Ok w /\
    List.map accountId results = List.map idOf (List.filter (isTradable P) items) /\
    Forall2 (fun r account =>
               accountId r = idOf account /\
               fst (searchTrades remote token (idOf account)
                      (startTimestamp w) (endTimestamp w))
               = Ok (trades r) /\
               tradeCount r = lengthOf (trades r))
            results (List.filter (isTradable P) items) /\
    snd (getTradeHistory P remote targetDate)
    = (login :: AccountSearchRequest token ::
       tradeRequests token w (List.filter (isTradable P) items))%list.
Proof.
  intros Hres.
  assert (Hbody : fst (getTradeHistoryBody P remote targetDate)
                  = Ok (HistorySuccess date results)).
  { unfold getTradeHistory in Hres.
    destruct (getTradeHistoryBody P remote targetDate) as [[r | e] sent]; cbn in *;
      [congruence | discriminate]. }
  rewrite getTradeHistory_sent. clear Hres.
  destruct (fst (authenticate remote CONFIG.USERNAME CONFIG.API_KEY)) as [token | e] eqn:Hauth.
  2: { unfold getTradeHistoryBody in Hbody.
       rewrite (runM_eta (authenticate remote _ _)), Hauth in Hbody. discriminate Hbody. }
  destruct (fst (searchAccounts remote token)) as [allAccounts | e] eqn:Hacc.
  2: { unfold getTradeHistoryBody in Hbody.
       rewrite (runM_eta (authenticate remote _ _)), Hauth in Hbody. cbn [bindM] in Hbody.
       rewrite (authenticate_Ok_truthy _ _ _ _ Hauth) in Hbody. cbn [negb] in Hbody.
       rewrite (runM_eta (searchAccounts remote token)), Hacc in Hbody. discriminate Hbody. }
  assert (Hshape : exists items, allAccounts = JArr items /\ items <> [] /\
                                 forEachR logAccount items = Ok tt).
  { unfold getTradeHistoryBody in Hbody.
    rewrite (runM_eta (authenticate remote _ _)), Hauth in Hbody. cbn [bindM] in Hbody.
    rewrite (authenticate_Ok_truthy _ _ _ _ Hauth) in Hbody. cbn [negb] in Hbody.
    rewrite (runM_eta (searchAccounts remote token)), Hacc in Hbody. cbn [bindM] in Hbody.
    destruct (negb (truthy allAccounts) || lengthIsZero allAccounts) eqn:Hempty;
      [discriminate Hbody|].
    destruct allAccounts as [| | b | x | str | items | fields]; try discriminate Hbody.
    exists items. split; [reflexivity|]. split.
    - intros ->. discriminate Hempty.
    - cbn [asArray liftM bindM] in Hbody.
      destruct (forEachR logAccount items) as [[] | e]; [reflexivity | discriminate Hbody]. }
  destruct Hshape as (items & -> & Hitems & Hlog).
  rewrite (getTradeHistoryBody_with_accounts P remote targetDate token items
             Hauth Hacc Hitems Hlog) in Hbody |- *.
  cbv zeta in Hbody |- *.
  destruct (_ =? _)%nat eqn:Hnone; [discriminate Hbody|].
  destruct (getDateTimestamps targetDate) as [w | e]; [|discriminate Hbody].
  cbn [fst snd] in Hbody |- *.
  destruct (fetchAccountTrades_trace remote token w (List.filter (isTradable P) items))
    as (n & Hsent & Hok).
  destruct (fst (fetchAccountTrades remote token w _)) as [rs | e] eqn:Hloop;
    [|discriminate Hbody].
  injection Hbody as <- <-.
  destruct (Hok rs eq_refl) as (-> & Hids & Hall).
  assert (Hlen : List.length rs = List.length (List.filter (isTradable P) items)).
  { rewrite <- (length_map accountId rs), Hids, length_map. reflexivity. }
  split; [reflexivity|]. split.
  { rewrite Hlen. apply Nat.eqb_neq in Hnone. lia. }
  split; [exact Hall|].
  exists token, items, w.
  do 3 (split; [first [reflexivity | assumption]|]).
  split; [exact Hids|].
  split; [exact (fetchAccountTrades_results remote token w _ rs Hloop)|].
  rewrite Hsent, firstn_all2; [reflexivity|].
  unfold tradeRequests. rewrite length_map. lia.
Qed.

(** A provider with two live accounts and a practice account between
    them; every account has one fill. *)
Definition mixedRemote : Remote := fun req =>
  match req with
  | AuthRequest _ _ => apiOk [("token", JStr "tok")]
  | AccountSearchRequest _ =>
      apiOk [("accounts",
              JArr [account 1 "EXPRESS-1"; account 2 "practice-7"; account 3 "50KTC-3"])]
  | TradeSearchRequest _ _ _ _ =>
      apiOk [("trades", JArr [trade 10 (JStr "2025-05-09T01:00:00.000000+00:00") (JNum 5)])]
  end.

Lemma getTradeHistory_success_shape_witness :
  let fills := JArr [trade 10 (JStr "2025-05-09T01:00:00.000000+00:00") (JNum 5)] in
  let results :=
    [mkAccountResult (JNum 1) (JNum 1) fills; mkAccountResult (JNum 3) (JNum 1) fills] in
  fst (getTradeHistory Host.tokyo mixedRemote "2025-05-09")
  = HistorySuccess "2025-05-09" results /\
  "2025-05-09" = "2025-05-09" /\
  (0 < List.length results)%nat /\
  Forall (fun r => tradeCount r = lengthOf (trades r) /\ truthy (trades r) = true) results /\
  exists (token : JValue) (items : list JValue) (w : Window),
    fst (authenticate mixedRemote CONFIG.USERNAME CONFIG.API_KEY) = Ok token /\
    fst (searchAccounts mixedRemote token) = Ok (JArr items) /\
    getDateTimestamps "2025-05-09" = Ok w /\
    List.map accountId results = List.map idOf (List.filter (isTradable Host.tokyo) items) /\
    Forall2 (fun r account =>
               accountId r = idOf account /\
               fst (searchTrades mixedRemote token (idOf account)
                      (startTimestamp w) (endTimestamp w))
               = Ok (trades r) /\
               tradeCount r = lengthOf (trades r))
            results (List.filter (isTradable Host.tokyo) items) /\
    snd (getTradeHistory Host.tokyo mixedRemote "2025-05-09")
    = (login :: AccountSearchRequest token ::
       tradeRequests token w (List.filter (isTradable Host.tokyo) items))%list.
Proof.
  intros fills results. split; [vm_compute; reflexivity|].
  apply (getTradeHistory_success_shape Host.tokyo mixedRemote "2025-05-09" "2025-05-09" results).
  vm_compute. reflexivity.
Defined.

Example getTradeHistory_skips_practice_account :
  snd (getTradeHistory Host.tokyo mixedRemote "2025-05-09")
  = [login; AccountSearchRequest (JStr "tok");
     TradeSearchRequest (JStr "tok") (JNum 1)
       "2025-05-09T00:00:00.000Z" "2025-05-09T23:59:59.999Z";
     TradeSearchRequest (JStr "tok") (JNum 3)
       "2025-05-09T00:00:00.000Z" "2025-05-09T23:59:59.999Z"].
Proof. vm_compute. reflexivity. Qed.

(** X5.  The target date is looked at only after the login and the
    account search: when it gives no window (it does not have the shape
    [YYYY-MM-DD], or is no calendar date) and there is a tradable account,
    the run has sent these two requests, sends no trade search, and
    returns a failure with the message of the date error. *)
Theorem getTradeHistory_checks_date_late
    (P : Platform) (remote : Remote) (targetDate : string)
    (token : JValue) (items : list JValue) (e : JSError) :
  fst (authenticate remote CONFIG.USERNAME CONFIG.API_KEY) = Ok token ->
  fst (searchAccounts remote token) = Ok (JArr items) ->
  forEachR logAccount items = Ok tt ->
  (0 < List.length (List.filter (isTradable P) items))%nat ->
  getDateTimestamps targetDate = Throw e ->
  getTradeHistory P remote targetDate
  = (HistoryFailure (Text "取引履歴取得処理エラー: " :: message e),
     [login; AccountSearchRequest token]).
Proof.
  intros Hauth Hacc Hlog Hsome Hdate. unfold getTradeHistory.
  rewrite (getTradeHistoryBody_with_accounts P remote targetDate token items Hauth Hacc);
    [|intros ->; cbn in Hsome; lia | exact Hlog].
  cbv zeta. destruct (_ =? _)%nat eqn:Hnone; [apply Nat.eqb_eq in Hnone; lia|].
  rewrite Hdate. reflexivity.
Qed.

Lemma getTradeHistory_checks_date_late_witness :
  let items := [account 1 "EXPRESS-1"; account 2 "practice-7"; account 3 "50KTC-3"] in
  (fst (authenticate mixedRemote CONFIG.USERNAME CONFIG.API_KEY) = Ok (JStr "tok") /\
   fst (searchAccounts mixedRemote (JStr "tok")) = Ok (JArr items) /\
   forEachR logAccount items = Ok tt /\
   (0 < List.length (List.filter (isTradable Host.tokyo) items))%nat /\
   getDateTimestamps "09/05/2025" = Throw InvalidDateFormat) /\
  getTradeHistory Host.tokyo mixedRemote "09/05/2025"
  = (HistoryFailure (Text "取引履歴取得処理エラー: " :: message InvalidDateFormat),
     [login; AccountSearchRequest (JStr "tok")]).
Proof.
  intros items.
  assert (H1 : fst (authenticate mixedRemote CONFIG.USERNAME CONFIG.API_KEY) = Ok (JStr "tok"))
    by (vm_compute; reflexivity).
  assert (H2 : fst (searchAccounts mixedRemote (JStr "tok")) = Ok (JArr items))
    by (vm_compute; reflexivity).
  assert (H3 : forEachR logAccount items = Ok tt) by (vm_compute; reflexivity).
  assert (H4 : (0 < List.length (List.filter (isTradable Host.tokyo) items))%nat)
    by (vm_compute; lia).
  assert (H5 : getDateTimestamps "09/05/2025" = Throw InvalidDateFormat)
    by (vm_compute; reflexivity).
  split; [repeat split; assumption|].
  exact (getTradeHistory_checks_date_late Host.tokyo mixedRemote "09/05/2025"
           (JStr "tok") items InvalidDateFormat H1 H2 H3 H4 H5).
Defined.

(** X6.  When the practice filter drops every account of a non-empty
    account array, the run returns the failure for no tradable account
    after the login and the account search; no trade search is sent and
    the target date is not looked at. *)
Theorem getTradeHistory_only_practice_accounts
    (P : Platform) (remote : Remote) (targetDate : string)
    (token : JValue) (items : list JValue) :
  fst (authenticate remote CONFIG.USERNAME CONFIG.API_KEY) = Ok token ->
  fst (searchAccounts remote token) = Ok (JArr items) ->
  (0 < List.length items)%nat ->
  forEachR logAccount items = Ok tt ->
  Forall (fun account => isTradable P account = false) items ->
  getTradeHistory P remote targetDate
  = (HistoryFailure NoTradableAccountsFound, [login; AccountSearchRequest token]).
Proof.
  intros Hauth Hacc Hsome Hlog Hnone. unfold getTradeHistory.
  rewrite (getTradeHistoryBody_with_accounts P remote targetDate token items Hauth Hacc);
    [|intros ->; cbn in Hsome; lia | exact Hlog].
  cbv zeta.
  assert (Hfilter : List.filter (isTradable P) items = []).
  { clear -Hnone. induction Hnone as [|a l Ha _ IH]; cbn; [reflexivity|].
    rewrite Ha. exact IH. }
  rewrite Hfilter. reflexivity.
Qed.

Definition practiceOnlyRemote : Remote := fun req =>
  match req with
  | AuthRequest _ _ => apiOk [("token", JStr "tok")]
  | AccountSearchRequest _ =>
      apiOk [("accounts", JArr [account 2 "Practice-7"; JObj [("id", JNum 4)]])]
  | TradeSearchRequest _ _ _ _ => apiOk [("trades", JArr [])]
  end.

Lemma getTradeHistory_only_practice_accounts_witness :
  let items := [account 2 "Practice-7"; JObj [("id", JNum 4)]] in
  (fst (authenticate practiceOnlyRemote CONFIG.USERNAME CONFIG.API_KEY) = Ok (JStr "tok") /\
   fst (searchAccounts practiceOnlyRemote (JStr "tok")) = Ok (JArr items) /\
   (0 < List.length items)%nat /\
   forEachR logAccount items = Ok tt /\
   Forall (fun account => isTradable Host.tokyo account = false) items) /\
  getTradeHistory Host.tokyo practiceOnlyRemote "not a date"
  = (HistoryFailure NoTradableAccountsFound, [login; AccountSearchRequest (JStr "tok")]).
Proof.
  intros items.
  assert (H1 : fst (authenticate practiceOnlyRemote CONFIG.USERNAME CONFIG.API_KEY)
               = Ok (JStr "tok")) by (vm_compute; reflexivity).
  assert (H2 : fst (searchAccounts practiceOnlyRemote (JStr "tok")) = Ok (JArr items))
    by (vm_compute; reflexivity).
  assert (H3 : (0 < List.length items)%nat) by (cbn; lia).
  assert (H4 : forEachR logAccount items = Ok tt) by (vm_compute; reflexivity).
  assert (H5 : Forall (fun account => isTradable Host.tokyo account = false) items)
    by (repeat constructor).
  split; [repeat split; assumption|].
  exact (getTradeHistory_only_practice_accounts Host.tokyo practiceOnlyRemote "not a date"
           (JStr "tok") items H1 H2 H3 H4 H5).
Defined.

(* ===================================================================== *)
(** ** More on the ledger reconciler *)
(* ===================================================================== *)

(** What a call makes of the rows built. *)
Definition savedAs (targetDate : string) (built : Built) : SaveResult :=
  match totalProfit built with
  | Some total =>
      Saved [Text targetDate; Text "の取引履歴をスプレッドシートに保存しました（合計";
             Int (Z.of_nat (rowCount built)); Text "件、損益合計: "; Fixed2 total; Text "）"]
            targetDate (rowCount built) total
  | None =>
      SaveFailed [Text "スプレッドシート出力中にエラーが発生しました: ";
                  Text "totalProfit.toFixed is not a function"]
  end.

Lemma saveTradeHistoryToSheet_intact P targetDate date results ss h (data : list Row) :
  ss !! CONFIG.HISTORY_SHEET_NAME = Some (h :: data) ->
  headerIntact h ->
  Forall (scanOk P) data ->
  saveTradeHistoryToSheet P targetDate (HistorySuccess date results) ss
  = match buildRows P results with
    | Ok built =>
        (savedAs targetDate built,
         <[CONFIG.HISTORY_SHEET_NAME :=
             writeRows built (h :: List.filter (keep P targetDate) data)]> ss)
    | Throw e =>
        (SaveFailed (Text "スプレッドシート出力中にエラーが発生しました: " :: message e),
         <[CONFIG.HISTORY_SHEET_NAME := h :: List.filter (keep P targetDate) data]> ss)
    end.
Proof.
  intros Hsheet Hh Hscan. unfold saveTradeHistoryToSheet.
  rewrite (saveBody_prepared P targetDate results ss h data)
    by (rewrite Hsheet; apply prepareSheet_intact, Hh).
  rewrite (scanFrom_Ok P targetDate 2 data Hscan).
  destruct (buildRows P results) as [built | e]; [|reflexivity].
  unfold finishTotal, savedAs. destruct (totalProfit built); reflexivity.
Qed.

(** X7.  On a ledger sheet whose header is in place, a call deletes the
    rows whose date cell the scan reads as the target date and no other:
    the rows it does not read as the target date (other days, and rows it
    cannot date) stay, in their order, and the rows built from the result
    are written below the last of them that has content. *)
Theorem saveTradeHistoryToSheet_keeps_other_rows
    (P : Platform) (targetDate date : string) (results : list AccountResult)
    (ss : Spreadsheet) (h : Row) (data : list Row) (built : Built) :
  ss !! CONFIG.HISTORY_SHEET_NAME = Some (h :: data) ->
  headerIntact h ->
  Forall (scanOk P) data ->
  buildRows P results = Ok built ->
  let kept := List.filter (fun row => negb (isTarget P targetDate row)) data in
  let after := saveTradeHistoryToSheet P targetDate (HistorySuccess date results) ss in
  snd after !! CONFIG.HISTORY_SHEET_NAME
  = Some (if (0 <? List.length (newRows built))%nat
          then (h :: firstn (SheetOps.getLastRow (h :: kept) - 1) kept ++ newRows built)%list
          else h :: kept).
Proof.
  intros Hsheet Hh Hscan Hbuild kept after. subst after.
  rewrite (saveTradeHistoryToSheet_intact P targetDate date results ss h data Hsheet Hh Hscan).
  rewrite Hbuild. cbn [snd]. rewrite lookup_insert_eq. unfold writeRows.
  fold (keep P targetDate). change (List.filter (keep P targetDate) data) with kept.
  destruct (0 <? List.length (newRows built))%nat; [|reflexivity].
  rewrite (appendRows_below_header h kept (newRows built) Hh). reflexivity.
Qed.

Lemma saveTradeHistoryToSheet_keeps_other_rows_witness :
  let h := headerRow in
  let data := [fillRowOf (CStr "2025-05-08T14:00:00.000000+00:00");
               fillRowOf (CStr "2025-05-09T01:00:00.000000+00:00")] in
  let results :=
    [mkAccountResult (JNum 1) (JNum 1)
       (JArr [trade 10 (JStr "2025-05-09T02:30:00.000000+00:00") (JNum 5)])] in
  let built := mkBuilt [fillRowOf (CStr "2025-05-09T02:30:00.000000+00:00")] 1 (Some 5%float) in
  (twoDayBook !! CONFIG.HISTORY_SHEET_NAME = Some (h :: data) /\
   headerIntact h /\ Forall (scanOk Host.tokyo) data /\
   buildRows Host.tokyo results = Ok built) /\
  snd (saveTradeHistoryToSheet Host.tokyo "2025-05-09" (HistorySuccess "2025-05-09" results)
         twoDayBook) !! CONFIG.HISTORY_SHEET_NAME
  = Some [h; fillRowOf (CStr "2025-05-08T14:00:00.000000+00:00");
          fillRowOf (CStr "2025-05-09T02:30:00.000000+00:00")].
Proof.
  intros h data results built.
  assert (H1 : twoDayBook !! CONFIG.HISTORY_SHEET_NAME = Some (h :: data))
    by (vm_compute; reflexivity).
  assert (H2 : headerIntact h) by reflexivity.
  assert (H3 : Forall (scanOk Host.tokyo) data)
    by (repeat constructor; eexists; vm_compute; reflexivity).
  assert (H4 : buildRows Host.tokyo results = Ok built) by (vm_compute; reflexivity).
  split; [repeat split; assumption|].
  exact (saveTradeHistoryToSheet_keeps_other_rows Host.tokyo "2025-05-09" "2025-05-09"
           results twoDayBook h data built H1 H2 H3 H4).
Defined.

Lemma foldR_pushAccount_no_trades P results b :
  Forall (fun r => trades r = JArr []) results ->
  foldR (pushAccount P) results b = Ok b.
Proof.
  intros H. induction H as [|r rs Hr _ IH]; cbn; [reflexivity|].
  unfold pushAccount at 1. rewrite Hr. cbn. exact IH.
Qed.

(** X8.  When the result holds no trade at all (every account came with
    an empty array), a call on a ledger whose header is in place deletes
    the stored rows of the target date, writes nothing, and reports a
    success with 0 trades and a total of 0. *)
Theorem saveTradeHistoryToSheet_without_trades
    (P : Platform) (targetDate date : string) (results : list AccountResult)
    (ss : Spreadsheet) (h : Row) (data : list Row) :
  ss !! CONFIG.HISTORY_SHEET_NAME = Some (h :: data) ->
  headerIntact h ->
  Forall (scanOk P) data ->
  Forall (fun r => trades r = JArr []) results ->
  saveTradeHistoryToSheet P targetDate (HistorySuccess date results) ss
  = (Saved [Text targetDate; Text "の取引履歴をスプレッドシートに保存しました（合計";
            Int 0; Text "件、損益合計: "; Fixed2 0%float; Text "）"]
           targetDate 0 0%float,
     <[CONFIG.HISTORY_SHEET_NAME :=
         h :: List.filter (fun row => negb (isTarget P targetDate row)) data]> ss).
Proof.
  intros Hsheet Hh Hscan Hnone.
  rewrite (saveTradeHistoryToSheet_intact P targetDate date results ss h data Hsheet Hh Hscan).
  unfold buildRows. rewrite (foldR_pushAccount_no_trades P results _ Hnone). reflexivity.
Qed.

Lemma saveTradeHistoryToSheet_without_trades_witness :
  let h := headerRow in
  let data := [fillRowOf (CStr "2025-05-08T14:00:00.000000+00:00");
               fillRowOf (CStr "2025-05-09T01:00:00.000000+00:00")] in
  let results := [mkAccountResult (JNum 1) (JNum 0) (JArr [])] in
  (twoDayBook !! CONFIG.HISTORY_SHEET_NAME = Some (h :: data) /\
   headerIntact h /\ Forall (scanOk Host.tokyo) data /\
   Forall (fun r => trades r = JArr []) results) /\
  saveTradeHistoryToSheet Host.tokyo "2025-05-09" (HistorySuccess "2025-05-09" results)
    twoDayBook
  = (Saved [Text "2025-05-09"; Text "の取引履歴をスプレッドシートに保存しました（合計";
            Int 0; Text "件、損益合計: "; Fixed2 0%float; Text "）"]
           "2025-05-09" 0 0%float,
     <[CONFIG.HISTORY_SHEET_NAME :=
         h :: List.filter (fun row => negb (isTarget Host.tokyo "2025-05-09" row)) data]>
       twoDayBook).
Proof.
  intros h data results.
  assert (H1 : twoDayBook !! CONFIG.HISTORY_SHEET_NAME = Some (h :: data))
    by (vm_compute; reflexivity).
  assert (H2 : headerIntact h) by reflexivity.
  assert (H3 : Forall (scanOk Host.tokyo) data)
    by (repeat constructor; eexists; vm_compute; reflexivity).
  assert (H4 : Forall (fun r => trades r = JArr []) results) by (repeat constructor).
  split; [repeat split; assumption|].
  exact (saveTradeHistoryToSheet_without_trades Host.tokyo "2025-05-09" "2025-05-09"
           results twoDayBook h data H1 H2 H3 H4).
Defined.

Example saveTradeHistoryToSheet_without_trades_example :
  historyAfter (saveTradeHistoryToSheet Host.tokyo "2025-05-09"
                  (HistorySuccess "2025-05-09" [mkAccountResult (JNum 1) (JNum 0) (JArr [])])
                  twoDayBook)
  = Some [headerRow; fillRowOf (CStr "2025-05-08T14:00:00.000000+00:00")].
Proof. vm_compute. reflexivity. Qed.

(** X9.  When building the rows throws (a trade of the result is [null],
    say), the call has already deleted the stored rows of the target date:
    it returns a failure with the message of the error, and the ledger is
    left without the rows of that date and without replacement. *)
Theorem saveTradeHistoryToSheet_deletes_before_building
    (P : Platform) (targetDate date : string) (results : list AccountResult)
    (ss : Spreadsheet) (h : Row) (data : list Row) (e : JSError) :
  ss !! CONFIG.HISTORY_SHEET_NAME = Some (h :: data) ->
  headerIntact h ->
  Forall (scanOk P) data ->
  buildRows P results = Throw e ->
  saveTradeHistoryToSheet P targetDate (HistorySuccess date results) ss
  = (SaveFailed (Text "スプレッドシート出力中にエラーが発生しました: " :: message e),
     <[CONFIG.HISTORY_SHEET_NAME :=
         h :: List.filter (fun row => negb (isTarget P targetDate row)) data]> ss).
Proof.
  intros Hsheet Hh Hscan Hbuild.
  rewrite (saveTradeHistoryToSheet_intact P targetDate date results ss h data Hsheet Hh Hscan).
  rewrite Hbuild. reflexivity.
Qed.

Lemma saveTradeHistoryToSheet_deletes_before_building_witness :
  let h := headerRow in
  let data := [fillRowOf (CStr "2025-05-08T14:00:00.000000+00:00");
               fillRowOf (CStr "2025-05-09T01:00:00.000000+00:00")] in
  let results := [mkAccountResult (JNum 1) (JNum 1) (JArr [JNull])] in
  let e := TypeError [Text "Cannot read properties of "; Interp JNull;
                      Text " (reading '"; Text "id"; Text "')"] in
  (twoDayBook !! CONFIG.HISTORY_SHEET_NAME = Some (h :: data) /\
   headerIntact h /\ Forall (scanOk Host.tokyo) data /\
   buildRows Host.tokyo results = Throw e) /\
  saveTradeHistoryToSheet Host.tokyo "2025-05-09" (HistorySuccess "2025-05-09" results)
    twoDayBook
  = (SaveFailed (Text "スプレッドシート出力中にエラーが発生しました: " :: message e),
     <[CONFIG.HISTORY_SHEET_NAME :=
         h :: List.filter (fun row => negb (isTarget Host.tokyo "2025-05-09" row)) data]>
       twoDayBook).
Proof.
  intros h data results e.
  assert (H1 : twoDayBook !! CONFIG.HISTORY_SHEET_NAME = Some (h :: data))
    by (vm_compute; reflexivity).
  assert (H2 : headerIntact h) by reflexivity.
  assert (H3 : Forall (scanOk Host.tokyo) data)
    by (repeat constructor; eexists; vm_compute; reflexivity).
  assert (H4 : buildRows Host.tokyo results = Throw e) by (vm_compute; reflexivity).
  split; [repeat split; assumption|].
  exact (saveTradeHistoryToSheet_deletes_before_building Host.tokyo "2025-05-09" "2025-05-09"
           results twoDayBook h data e H1 H2 H3 H4).
Defined.

Example saveTradeHistoryToSheet_deletes_before_building_example :
  historyAfter (saveTradeHistoryToSheet Host.tokyo "2025-05-09"
                  (HistorySuccess "2025-05-09" [mkAccountResult (JNum 1) (JNum 1) (JArr [JNull])])
                  twoDayBook)
  = Some [headerRow; fillRowOf (CStr "2025-05-08T14:00:00.000000+00:00")].
Proof. vm_compute. reflexivity. Qed.

(** X10.  A call never touches a sheet other than the ledger sheet:
    whatever the result given and whatever happens, every other sheet of
    the spreadsheet is as it was; the same holds for a whole run of
    [fetchAndSaveTradeHistory]. *)
Theorem saveTradeHistoryToSheet_other_sheets
    (P : Platform) (targetDate : string) (result : TradeHistoryResult)
    (ss : Spreadsheet) (name : string) :
  name <> CONFIG.HISTORY_SHEET_NAME ->
  snd (saveTradeHistoryToSheet P targetDate result ss) !! name = ss !! name /\
  forall remote : Remote,
    snd (fst (fetchAndSaveTradeHistory P remote targetDate ss)) !! name = ss !! name.
Proof.
  intros Hname.
  assert (Hsave : forall result,
            snd (saveTradeHistoryToSheet P targetDate result ss) !! name = ss !! name).
  { intros [d results | m]; [|reflexivity]. unfold saveTradeHistoryToSheet.
    assert (Hbody : snd (saveBody P targetDate results ss) !! name = ss !! name).
    { unfold saveBody.
      destruct (prepareSheet _) as [sheet0 | e]; [|reflexivity].
      destruct (scanRows P targetDate sheet0) as [rowsToDelete | e]; cbn [snd];
        [|rewrite lookup_insert_ne by congruence; reflexivity].
      destruct (buildRows P results) as [built | e]; cbn [snd];
        [|rewrite lookup_insert_ne by congruence; reflexivity].
      destruct (totalProfit built); cbn [snd];
        rewrite lookup_insert_ne by congruence; reflexivity. }
    destruct (saveBody P targetDate results ss) as [[[n total] | e] ss']; exact Hbody. }
  split; [apply Hsave|].
  intros remote. unfold fetchAndSaveTradeHistory.
  destruct (getTradeHistory P remote targetDate) as [[d results | m] sent]; [|reflexivity].
  specialize (Hsave (HistorySuccess d results)).
  destruct (saveTradeHistoryToSheet P targetDate (HistorySuccess d results) ss) as [r ss'].
  exact Hsave.
Qed.

Lemma saveTradeHistoryToSheet_other_sheets_witness :
  let ss : Spreadsheet := <["設定" := [[CStr "設定項目"; CStr "値"]]]> twoDayBook in
  "設定" <> CONFIG.HISTORY_SHEET_NAME /\
  snd (saveTradeHistoryToSheet Host.tokyo "2025-05-09"
         (oneFillResult (JStr "2025-05-09T02:30:00.000000+00:00")) ss) !! "設定" = ss !! "設定" /\
  forall remote : Remote,
    snd (fst (fetchAndSaveTradeHistory Host.tokyo remote "2025-05-09" ss)) !! "設定"
    = ss !! "設定".
Proof.
  intros ss.
  assert (H : "設定" <> CONFIG.HISTORY_SHEET_NAME) by discriminate.
  split; [exact H|].
  exact (saveTradeHistoryToSheet_other_sheets Host.tokyo "2025-05-09"
           (oneFillResult (JStr "2025-05-09T02:30:00.000000+00:00")) ss "設定" H).
Defined.

(** *** The rows that are built *)

(** The trades of an entry of the result, when they are an array. *)
Definition tradesOf (r : AccountResult) : list JValue :=
  match trades r with
  | JArr items => items
  | _ => []
  end.

(** Every trade of the result with the id of its account, in the order of
    the two nested loops. *)
Definition fills (results : list AccountResult) : list (JValue * JValue) :=
  flat_map (fun r => List.map (fun t => (accountId r, t)) (tradesOf r)) results.

Lemma tradeRow_length P accountId trade row :
  tradeRow P accountId trade = Ok row -> List.length row = numColumns.
Proof.
  unfold tradeRow, bind.
  repeat (match goal with
          | |- context [getProp trade ?f] => destruct (getProp trade f); [|discriminate]
          end).
  intros [= <-]. reflexivity.
Qed.

Lemma foldR_pushTrade P accountId items b b' :
  foldR (pushTrade P accountId) items b = Ok b' ->
  exists rows,
    newRows b' = (newRows b ++ rows)%list /\
    rowCount b' = (rowCount b + List.length rows)%nat /\
    Forall2 (fun row t => tradeRow P accountId t = Ok row) rows items.
Proof.
  revert b. induction items as [|t items IH]; intros b; cbn.
  - intros [= <-]. exists []. rewrite app_nil_r. repeat split; [cbn; lia | constructor].
  - unfold pushTrade at 1.
    destruct (tradeRow P accountId t) as [row | e] eqn:Hrow; cbn; [|discriminate].
    destruct (getProp t "profitAndLoss") as [pl | e]; cbn; [|discriminate].
    intros H. destruct (IH _ H) as (rows & Hrows & Hcount & Hall). cbn in Hrows, Hcount.
    exists (row :: rows). rewrite Hrows, Hcount, <- app_assoc. cbn.
    repeat split; [cbn; lia|]. constructor; assumption.
Qed.

Lemma foldR_pushAccount P results b b' :
  foldR (pushAccount P) results b = Ok b' ->
  exists rows,
    newRows b' = (newRows b ++ rows)%list /\
    rowCount b' = (rowCount b + List.length rows)%nat /\
    Forall2 (fun row f => tradeRow P (fst f) (snd f) = Ok row) rows (fills results).
Proof.
  revert b. induction results as [|r results IH]; intros b; cbn.
  - intros [= <-]. exists []. rewrite app_nil_r. repeat split; [cbn; lia | constructor].
  - unfold pushAccount at 1, tradesOf.
    destruct (trades r) as [| | ? | ? | ? | items | ?]; cbn; try discriminate.
    destruct (foldR (pushTrade P (accountId r)) items b) as [b1 | e] eqn:H1; cbn;
      [|discriminate].
    intros H. destruct (foldR_pushTrade _ _ _ _ _ H1) as (rows1 & Hr1 & Hc1 & Ha1).
    destruct (IH _ H) as (rows2 & Hr2 & Hc2 & Ha2).
    exists (rows1 ++ rows2)%list. rewrite Hr2, Hr1, Hc2, Hc1, <- app_assoc, length_app.
    repeat split; [lia|]. apply Forall2_app; [|exact Ha2].
    clear -Ha1. induction Ha1; cbn; constructor; assumption.
Qed.

(** X11.  When the rows are built without an exception, there is one row
    per trade of the result, in the order of the accounts and, within an
    account, of its trades; each row is that of its trade with the id of
    its account in the second cell and has eleven cells; and the count
    reported is the number of rows. *)
Theorem buildRows_one_row_per_trade
    (P : Platform) (results : list AccountResult) (built : Built) :
  buildRows P results = Ok built ->
  Forall2 (fun row f => tradeRow P (fst f) (snd f) = Ok row) (newRows built) (fills results) /\
  Forall (fun row => List.length row = numColumns) (newRows built) /\
  rowCount built = List.length (newRows built) /\
  List.length (newRows built) = List.length (fills results).
Proof.
  intros H. destruct (foldR_pushAccount P results _ _ H) as (rows & Hrows & Hcount & Hall).
  cbn in Hrows, Hcount. rewrite Hrows, Hcount.
  split; [exact Hall|]. split; [|split; [reflexivity | exact (Forall2_length _ _ _ Hall)]].
  clear -Hall. induction Hall as [|row f rows fs Hrow _ IH]; constructor; [|exact IH].
  exact (tradeRow_length _ _ _ _ Hrow).
Qed.

Lemma buildRows_one_row_per_trade_witness :
  let results :=
    [mkAccountResult (JNum 1) (JNum 2)
       (JArr [trade 10 (JStr "2025-05-09T02:30:00.000000+00:00") (JNum 5);
              trade 11 (JStr "2025-05-09T03:00:00.000000+00:00") JNull]);
     mkAccountResult (JNum 3) (JNum 0) (JArr []);
     mkAccountResult (JNum 4) (JNum 1)
       (JArr [trade 12 (JStr "2025-05-09T04:00:00.000000+00:00") (JNum (-2))])] in
  exists built,
    buildRows Host.tokyo results = Ok built /\
    Forall2 (fun row f => tradeRow Host.tokyo (fst f) (snd f) = Ok row)
            (newRows built) (fills results) /\
    Forall (fun row => List.length row = numColumns) (newRows built) /\
    rowCount built = List.length (newRows built) /\
    List.length (newRows built) = 3%nat.
Proof.
  intros results.
  destruct (buildRows Host.tokyo results) as [built | e] eqn:Hbuild;
    [|exfalso; vm_compute in Hbuild; discriminate Hbuild].
  exists built. split; [reflexivity|].
  exact (buildRows_one_row_per_trade Host.tokyo results built Hbuild).
Defined.

(** X12.  When the spreadsheet has no ledger sheet, a call inserts it:
    afterwards the sheet holds the header row followed by the rows built
    from the result (the header alone when building them throws). *)
Theorem saveTradeHistoryToSheet_creates_sheet
    (P : Platform) (targetDate date : string) (results : list AccountResult)
    (ss : Spreadsheet) :
  ss !! CONFIG.HISTORY_SHEET_NAME = None ->
  snd (saveTradeHistoryToSheet P targetDate (HistorySuccess date results) ss)
    !! CONFIG.HISTORY_SHEET_NAME
  = Some (headerRow :: builtRows P results).
Proof.
  intros Hsheet. unfold saveTradeHistoryToSheet.
  rewrite (saveBody_prepared P targetDate results ss headerRow [])
    by (rewrite Hsheet; reflexivity).
  cbn [List.map scanFrom List.filter]. unfold builtRows.
  destruct (buildRows P results) as [built | e]; cbn [snd].
  - unfold writeRows, finishTotal.
    destruct (totalProfit built); cbn [snd]; rewrite lookup_insert_eq;
      (destruct (newRows built) as [|r rows]; [reflexivity|]);
      cbn [List.length Nat.ltb Nat.leb]; reflexivity.
  - rewrite lookup_insert_eq. reflexivity.
Qed.

Lemma saveTradeHistoryToSheet_creates_sheet_witness :
  let results :=
    [mkAccountResult (JNum 1) (JNum 1)
       (JArr [trade 10 (JStr "2025-05-09T02:30:00.000000+00:00") (JNum 5)])] in
  (∅ : Spreadsheet) !! CONFIG.HISTORY_SHEET_NAME = None /\
  snd (saveTradeHistoryToSheet Host.tokyo "2025-05-09" (HistorySuccess "2025-05-09" results) ∅)
    !! CONFIG.HISTORY_SHEET_NAME
  = Some [headerRow; fillRowOf (CStr "2025-05-09T02:30:00.000000+00:00")].
Proof.
  intros results. split; [reflexivity|].
  exact (saveTradeHistoryToSheet_creates_sheet Host.tokyo "2025-05-09" "2025-05-09" results ∅
           eq_refl).
Defined.

(* ===================================================================== *)
(** ** More on the daily aggregator *)
(* ===================================================================== *)

(** *** The order of the dates *)

Lemma string_compare_lt_trans s1 s2 s3 :
  String.compare s1 s2 = Lt -> String.compare s2 s3 = Lt -> String.compare s1 s3 = Lt.
Proof.
  revert s2 s3. induction s1 as [|c1 s1 IH]; intros [|c2 s2] [|c3 s3]; cbn;
    try congruence.
  unfold Ascii.compare.
  destruct (N.compare (N_of_ascii c1) (N_of_ascii c2)) eqn:E12; try discriminate;
    destruct (N.compare (N_of_ascii c2) (N_of_ascii c3)) eqn:E23; try discriminate;
    intros H12 H23.
  - apply N.compare_eq_iff in E12, E23. rewrite E12, E23, N.compare_refl.
    exact (IH s2 s3 H12 H23).
  - apply N.compare_eq_iff in E12. rewrite E12, E23. reflexivity.
  - apply N.compare_eq_iff in E23. rewrite <- E23, E12. reflexivity.
  - replace (N.compare (N_of_ascii c1) (N_of_ascii c3)) with Lt; [reflexivity|].
    symmetry. apply N.compare_lt_iff.
    apply N.compare_lt_iff in E12. apply N.compare_lt_iff in E23.
    exact (N.lt_trans _ _ _ E12 E23).
Qed.

#[local] Instance strLe_total : Total strLe.
Proof. intros a b. apply String.leb_total. Qed.

#[local] Instance strLe_trans : Transitive strLe.
Proof.
  intros a b c. unfold strLe, String.leb.
  destruct (String.compare a b) eqn:Eab; try discriminate;
    destruct (String.compare b c) eqn:Ebc; try discriminate; intros _ _.
  - apply String.compare_eq_iff in Eab. subst b. rewrite Ebc. reflexivity.
  - apply String.compare_eq_iff in Eab. subst b. rewrite Ebc. reflexivity.
  - apply String.compare_eq_iff in Ebc. subst c. rewrite Eab. reflexivity.
  - rewrite (string_compare_lt_trans a b c Eab Ebc). reflexivity.
Qed.

Lemma sortedDates_spec (dailyData : gmap string DayData) :
  StronglySorted strLe (sortedDates dailyData) /\
  NoDup (sortedDates dailyData) /\
  forall d, In d (sortedDates dailyData) <-> is_Some (dailyData !! d).
Proof.
  unfold sortedDates. split; [apply StronglySorted_merge_sort; apply _|].
  pose proof (merge_sort_Permutation strLe (elements (dom dailyData))) as Hp.
  split.
  - rewrite Hp. apply NoDup_elements.
  - intros d. rewrite <- list_elem_of_In, Hp, elem_of_elements, elem_of_dom. reflexivity.
Qed.

Lemma map_aggDate_resultRow dailyData dates :
  List.map aggDate (List.map (resultRow dailyData) dates) = dates.
Proof. induction dates as [|d l IH]; cbn; [reflexivity | rewrite IH; reflexivity]. Qed.

Lemma aggregate_dates_in_rows P cols (rows : list (list Cell)) resultData :
  aggregate P cols rows = Ok resultData ->
  NoDup (List.map aggDate resultData) /\
  forall d : string,
    In d (List.map aggDate resultData) <->
    exists row, In row rows /\ rowKey P cols row = Ok (Some d).
Proof.
  unfold aggregate. destruct (foldR (processRow P cols) rows ∅) as [n | e] eqn:Hfold;
    cbn; [|discriminate].
  intros [= <-]. rewrite map_aggDate_resultRow.
  destruct (sortedDates_spec n) as (_ & Hnodup & Hin).
  split; [exact Hnodup|].
  intros d. rewrite Hin, (foldR_processRow_lookup P cols rows ∅ n d Hfold).
  rewrite dayStep_fold_is_Some, lookup_empty. split.
  - intros [[x Hx] | Hne]; [discriminate Hx|].
    destruct (List.filter (hasKey P cols d) rows) as [|row l] eqn:Hf; [congruence|].
    assert (Hrow : In row (List.filter (hasKey P cols d) rows)) by (rewrite Hf; left; reflexivity).
    apply List.filter_In in Hrow. destruct Hrow as [Hrow Hkey].
    exists row. split; [exact Hrow|]. unfold hasKey in Hkey.
    destruct (rowKey P cols row) as [[k|] | e]; try discriminate Hkey.
    apply String.eqb_eq in Hkey. subst k. reflexivity.
  - intros (row & Hrow & Hkey). right. intros Hnil.
    assert (Hin' : In row (List.filter (hasKey P cols d) rows)).
    { apply List.filter_In. split; [exact Hrow|]. unfold hasKey. rewrite Hkey.
      apply String.eqb_refl. }
    rewrite Hnil in Hin'. exact Hin'.
Qed.

(** X13.  The table that the aggregation gives has its dates in ascending
    order (the order of [sort()] on the date texts), each date once; and a
    date is in the table exactly when some row has that date: a row whose
    date cannot be read adds no line, and no dated row is left out. *)
Theorem aggregate_dates_ascending
    (P : Platform) (cols : Columns) (rows : list (list Cell))
    (resultData : list DailyAggregate) :
  aggregate P cols rows = Ok resultData ->
  StronglySorted strLe (List.map aggDate resultData) /\
  NoDup (List.map aggDate resultData) /\
  forall d : string,
    In d (List.map aggDate resultData) <->
    exists row, In row rows /\ rowKey P cols row = Ok (Some d).
Proof.
  intros Hagg. split; [|exact (aggregate_dates_in_rows P cols rows resultData Hagg)].
  unfold aggregate in Hagg.
  destruct (foldR (processRow P cols) rows ∅) as [n | e]; cbn in Hagg; [|discriminate Hagg].
  injection Hagg as <-. rewrite map_aggDate_resultRow. apply sortedDates_spec.
Qed.

(** Fills of two days, the later day first, and a row without a date. *)
Definition mixedFills : list (list Cell) :=
  [fillRow (CStr "2025-05-12 09:00:00") (CNum 4) (CNum 1);
   fillRow (CStr "2025-05-09 00:31:28") (CNum 10) (CNum 1);
   fillRow blank (CNum 99) (CNum 9);
   fillRow (CStr "2025-05-09 00:45:02") (CNum (-4)) (CNum 0.5)].

Example aggregate_mixedFills :
  aggregate Host.tokyo ledgerColumns mixedFills
  = Ok [mkDailyAggregate "2025-05-09" 2 6 1.5 4.5; mkDailyAggregate "2025-05-12" 1 4 1 3].
Proof. vm_compute. reflexivity. Qed.

Lemma aggregate_dates_ascending_witness :
  let resultData :=
    [mkDailyAggregate "2025-05-09" 2 6 1.5 4.5; mkDailyAggregate "2025-05-12" 1 4 1 3] in
  aggregate Host.tokyo ledgerColumns mixedFills = Ok resultData /\
  StronglySorted strLe (List.map aggDate resultData) /\
  NoDup (List.map aggDate resultData) /\
  forall d : string,
    In d (List.map aggDate resultData) <->
    exists row, In row mixedFills /\ rowKey Host.tokyo ledgerColumns row = Ok (Some d).
Proof.
  intros resultData. split; [vm_compute; reflexivity|].
  apply (aggregate_dates_ascending Host.tokyo ledgerColumns mixedFills resultData).
  vm_compute. reflexivity.
Defined.

(** *** The counts *)

(** The row has a date that can be read. *)
Definition dated (P : Platform) (cols : Columns) (row : Row) : bool :=
  match rowKey P cols row with
  | Ok (Some _) => true
  | _ => false
  end.

Lemma list_sum_map_add {A : Type} (f g : A -> nat) (l : list A) :
  list_sum (List.map (fun x => f x + g x)%nat l)
  = (list_sum (List.map f l) + list_sum (List.map g l))%nat.
Proof.
  unfold list_sum. induction l as [|x l IH]; cbn [List.map fold_right]; [reflexivity|].
  rewrite IH. lia.
Qed.

Lemma list_sum_map_zero {A : Type} (l : list A) :
  list_sum (List.map (fun _ => O) l) = O.
Proof.
  unfold list_sum. induction l as [|x l IH]; cbn [List.map fold_right]; [reflexivity|].
  rewrite IH. reflexivity.
Qed.

Lemma list_sum_indicator (k0 : string) (keys : list string) :
  NoDup keys -> In k0 keys ->
  list_sum (List.map (fun k => if String.eqb k0 k then 1 else 0)%nat keys) = 1%nat.
Proof.
  intros Hnd. induction Hnd as [|k keys Hk Hnd IH]; cbn; [intros []|].
  intros [-> | Hin].
  - rewrite String.eqb_refl.
    replace (list_sum _) with O; [reflexivity|].
    symmetry. clear IH Hnd. induction keys as [|k keys IH]; cbn; [reflexivity|].
    destruct (String.eqb_spec k0 k) as [-> | _].
    + exfalso. apply Hk. left.
    + apply IH. intros H. apply Hk. right. exact H.
  - destruct (String.eqb_spec k0 k) as [-> | _].
    + exfalso. apply Hk. apply list_elem_of_In. exact Hin.
    + apply IH, Hin.
Qed.

(** Sorting the rows by date: the numbers of rows of the dates add up to
    the number of dated rows. *)
Lemma rows_by_date P cols (keys : list string) (rows : list Row) :
  NoDup keys ->
  (forall row k, In row rows -> rowKey P cols row = Ok (Some k) -> In k keys) ->
  list_sum (List.map (fun k => List.length (List.filter (hasKey P cols k) rows)) keys)
  = List.length (List.filter (dated P cols) rows).
Proof.
  intros Hnd. induction rows as [|row rows IH]; intros Hkeys; cbn [List.filter].
  - cbn. apply list_sum_map_zero.
  - assert (Hrest : forall row k, In row rows -> rowKey P cols row = Ok (Some k) -> In k keys).
    { intros r k Hr. apply Hkeys. right. exact Hr. }
    specialize (IH Hrest). unfold dated at 1, hasKey at 1.
    destruct (rowKey P cols row) as [[k0|] | e] eqn:Hkey.
    + cbn [List.length]. rewrite <- IH.
      rewrite (List.map_ext _ (fun k => ((if String.eqb k0 k then 1 else 0)
                                         + List.length (List.filter (hasKey P cols k) rows))%nat))
        by (intros k; destruct (String.eqb k0 k); reflexivity).
      rewrite list_sum_map_add.
      rewrite (list_sum_indicator k0 keys Hnd (Hkeys row k0 (or_introl eq_refl) Hkey)).
      reflexivity.
    + exact IH.
    + exact IH.
Qed.

(** X14.  In the table the trade count of a date is the number of rows of
    that date, and the counts add up to the number of rows that have a
    date: every dated row is counted once, and a row whose date cannot be
    read is counted nowhere. *)
Theorem aggregate_counts
    (P : Platform) (cols : Columns) (rows : list (list Cell))
    (resultData : list DailyAggregate) :
  aggregate P cols rows = Ok resultData ->
  Forall (fun a => aggTradeCount a
                   = List.length (List.filter (hasKey P cols (aggDate a)) rows)) resultData /\
  list_sum (List.map aggTradeCount resultData)
  = List.length (List.filter (dated P cols) rows).
Proof.
  intros Hagg.
  destruct (aggregate_dates_in_rows P cols rows resultData Hagg) as (Hnd & Hin).
  unfold aggregate in Hagg.
  destruct (foldR (processRow P cols) rows ∅) as [n | e] eqn:Hfold; cbn in Hagg;
    [|discriminate Hagg].
  injection Hagg as <-.
  assert (Hcount : forall k, count (default emptyDay (n !! k))
                             = List.length (List.filter (hasKey P cols k) rows)).
  { intros k. rewrite (foldR_processRow_lookup P cols rows ∅ n k Hfold), dayStep_fold_count.
    rewrite lookup_empty. reflexivity. }
  rewrite map_aggDate_resultRow in Hnd, Hin.
  split.
  - apply Forall_forall. intros a Ha. apply list_elem_of_In, List.in_map_iff in Ha.
    destruct Ha as (k & <- & _). cbn. apply Hcount.
  - rewrite List.map_map. cbn [aggTradeCount resultRow].
    rewrite (List.map_ext _ (fun k => List.length (List.filter (hasKey P cols k) rows)))
      by (intros k; apply Hcount).
    apply rows_by_date; [exact Hnd|].
    intros row k Hrow Hkey. apply Hin. exists row. split; assumption.
Qed.

Lemma aggregate_counts_witness :
  let resultData :=
    [mkDailyAggregate "2025-05-09" 2 6 1.5 4.5; mkDailyAggregate "2025-05-12" 1 4 1 3] in
  aggregate Host.tokyo ledgerColumns mixedFills = Ok resultData /\
  Forall (fun a => aggTradeCount a
                   = List.length (List.filter (hasKey Host.tokyo ledgerColumns (aggDate a))
                                              mixedFills)) resultData /\
  list_sum (List.map aggTradeCount resultData) = 3%nat.
Proof.
  intros resultData. split; [vm_compute; reflexivity|].
  apply (aggregate_counts Host.tokyo ledgerColumns mixedFills resultData).
  vm_compute. reflexivity.
Defined.

(** *** A ledger without a fee column *)

Lemma dayStep_fold_no_fee P cols (l : list Row) (o : option DayData) :
  feeColIndex cols = None ->
  totalFees (default emptyDay o) = 0%float ->
  totalFees (default emptyDay (fold_left (dayStep P cols) l o)) = 0%float.
Proof.
  intros Hfee. revert o. induction l as [|row l IH]; intros o Ho; cbn [fold_left];
    [exact Ho|].
  apply IH. cbn. rewrite Ho. unfold rowFee. rewrite Hfee. reflexivity.
Qed.

(** X15.  When the header has no fee column (its index is -1), every line
    of the table has 0 as its fee total, and its net profit is the profit
    total minus 0. *)
Theorem aggregate_without_fee_column
    (P : Platform) (cols : Columns) (rows : list (list Cell))
    (resultData : list DailyAggregate) :
  feeColIndex cols = None ->
  aggregate P cols rows = Ok resultData ->
  Forall (fun a => aggTotalFees a = 0%float /\
                   aggNetProfit a = (aggTotalProfitLoss a - 0)%float) resultData.
Proof.
  intros Hfee Hagg. unfold aggregate in Hagg.
  destruct (foldR (processRow P cols) rows ∅) as [n | e] eqn:Hfold; cbn in Hagg;
    [|discriminate Hagg].
  injection Hagg as <-.
  apply Forall_forall. intros a Ha. apply list_elem_of_In, List.in_map_iff in Ha.
  destruct Ha as (k & <- & _). cbn.
  assert (H0 : totalFees (default emptyDay (n !! k)) = 0%float).
  { rewrite (foldR_processRow_lookup P cols rows ∅ n k Hfold).
    apply dayStep_fold_no_fee; [exact Hfee|]. rewrite lookup_empty. reflexivity. }
  rewrite H0. split; reflexivity.
Qed.

Lemma aggregate_without_fee_column_witness :
  let cols := mkColumns 3 5 None in
  let resultData :=
    [mkDailyAggregate "2025-05-09" 2 6 0 6; mkDailyAggregate "2025-05-12" 1 4 0 4] in
  (feeColIndex cols = None /\ aggregate Host.tokyo cols mixedFills = Ok resultData) /\
  Forall (fun a => aggTotalFees a = 0%float /\
                   aggNetProfit a = (aggTotalProfitLoss a - 0)%float) resultData.
Proof.
  intros cols resultData.
  assert (H : aggregate Host.tokyo cols mixedFills = Ok resultData) by (vm_compute; reflexivity).
  split; [split; [reflexivity | exact H]|].
  exact (aggregate_without_fee_column Host.tokyo cols mixedFills resultData eq_refl H).
Defined.

(** *** When the sheet is returned, and what it holds then *)

Lemma alertAndReturnNull_not_sheet P title resultData :
  alertAndReturnNull P title <> ReturnedSheet resultData.
Proof. unfold alertAndReturnNull. destruct (uiAvailable P); discriminate. Qed.

(** X16.  [calculateDailyProfits] returns the aggregate sheet exactly when
    the ledger sheet exists, has a row below its header row, its header
    row has a date column and a profit column, and the aggregation of the
    rows below the header does not throw; the table is then that of the
    aggregation.  In every other case it returns [null] or throws. *)
Theorem calculateDailyProfits_returns_sheet_iff
    (P : Platform) (ss : Spreadsheet) (resultData : list DailyAggregate) :
  fst (calculateDailyProfits P ss) = ReturnedSheet resultData <->
  exists (dataSheet : Sheet) (dateCol profitLossCol : nat),
    ss !! dataSheetName = Some dataSheet /\
    (2 <= SheetOps.getLastRow dataSheet)%nat /\
    let values := SheetOps.getDataRangeValues dataSheet in
    let headers := nth 0 values [] in
    indexOf "取引日時" headers = Some dateCol /\
    indexOf "損益" headers = Some profitLossCol /\
    aggregate P (mkColumns dateCol profitLossCol (indexOf "手数料" headers)) (skipn 1 values)
    = Ok resultData.
Proof.
  unfold calculateDailyProfits. split.
  - destruct (ss !! dataSheetName) as [dataSheet|].
    2: { destruct (authModeFull P); cbn; [discriminate|].
         intros H. exfalso. exact (alertAndReturnNull_not_sheet _ _ _ H). }
    cbv zeta. rewrite length_getDataRangeValues.
    destruct (Nat.leb_spec (Nat.max 1 (SheetOps.getLastRow dataSheet)) 1) as [Hle | Hgt]; cbn [fst].
    { intros H. exfalso. exact (alertAndReturnNull_not_sheet _ _ _ H). }
    destruct (indexOf "取引日時" _) as [dateCol|] eqn:Hd.
    2: { intros H. exfalso. exact (alertAndReturnNull_not_sheet _ _ _ H). }
    destruct (indexOf "損益" _) as [plCol|] eqn:Hp.
    2: { intros H. exfalso. exact (alertAndReturnNull_not_sheet _ _ _ H). }
    destruct (aggregate P _ _) as [res | e] eqn:Hagg; cbn [fst]; [|discriminate].
    intros [= <-]. exists dataSheet, dateCol, plCol.
    split; [reflexivity|]. split; [lia|]. cbv zeta. rewrite Hd, Hp, Hagg. repeat split.
  - intros (dataSheet & dateCol & plCol & Hsheet & Hrows & Hd & Hp & Hagg).
    rewrite Hsheet. cbv zeta. rewrite length_getDataRangeValues.
    destruct (Nat.leb_spec (Nat.max 1 (SheetOps.getLastRow dataSheet)) 1) as [Hle | Hgt]; [lia|].
    rewrite Hd, Hp, Hagg. reflexivity.
Qed.

(** X17.  When [calculateDailyProfits] returns the aggregate sheet, the
    sheet holds below its first row, in columns A to E, exactly the table:
    line [i] of the table in row [i + 2], and nothing in the rows below
    the table (the lines of an earlier, longer table are gone). *)
Theorem calculateDailyProfits_table_written
    (P : Platform) (ss : Spreadsheet) (resultData : list DailyAggregate) :
  fst (calculateDailyProfits P ss) = ReturnedSheet resultData ->
  exists sheet : Sheet,
    snd (calculateDailyProfits P ss) !! dailyProfitSheetName = Some sheet /\
    forall row col : nat,
      (2 <= row)%nat -> (1 <= col <= 5)%nat ->
      SheetOps.cellAt sheet row col
      = nth (col - 1) (nth (row - 2) (List.map aggregateCells resultData) []) blank.
Proof.
  unfold calculateDailyProfits.
  destruct (ss !! dataSheetName) as [dataSheet|].
  2: { destruct (authModeFull P); cbn; [discriminate|].
       intros H. exfalso. exact (alertAndReturnNull_not_sheet _ _ _ H). }
  cbv zeta.
  destruct (_ <=? 1)%nat; cbn [fst].
  { intros H. exfalso. exact (alertAndReturnNull_not_sheet _ _ _ H). }
  destruct (indexOf "取引日時" _) as [dateCol|].
  2: { intros H. exfalso. exact (alertAndReturnNull_not_sheet _ _ _ H). }
  destruct (indexOf "損益" _) as [plCol|].
  2: { intros H. exfalso. exact (alertAndReturnNull_not_sheet _ _ _ H). }
  destruct (aggregate P _ _) as [res | e]; cbn [fst snd]; [|discriminate].
  intros [= <-]. eexists. split; [apply lookup_insert_eq|].
  intros row col Hrow Hcol.
  pose proof (prepareDailySheet_table_empty (ss !! dailyProfitSheetName) row col Hrow Hcol)
    as Hclear.
  destruct (0 <? List.length res)%nat eqn:Hsome.
  - rewrite cellAt_setValues by lia. rewrite length_map.
    destruct (Nat.leb_spec 2 row) as [_ | Hlt]; [|lia].
    destruct (Nat.ltb_spec row (2 + List.length res)) as [Hin | Hout]; cbn [andb].
    + cbv zeta.
      assert (Hlen : List.length (nth (row - 2) (List.map aggregateCells res) []) = 5%nat).
      { rewrite (nth_indep _ [] (aggregateCells (mkDailyAggregate "" 0 0 0 0)))
          by (rewrite length_map; lia).
        rewrite map_nth. reflexivity. }
      rewrite Hlen.
      destruct (Nat.leb_spec 1 col) as [_ | Hlt]; [|lia].
      destruct (Nat.ltb_spec col (1 + 5)) as [_ | Hge]; [|lia].
      reflexivity.
    + rewrite Hclear, (nth_overflow (List.map aggregateCells res)) by (rewrite length_map; lia).
      destruct (col - 1)%nat; reflexivity.
  - apply Nat.ltb_ge in Hsome. destruct res; [|cbn in Hsome; lia].
    rewrite Hclear. cbn. destruct (row - 2)%nat, (col - 1)%nat; reflexivity.
Qed.

(** A ledger with the fills of two days, and an aggregate sheet that
    still holds the three lines of an earlier run. *)
Definition staleBook : Spreadsheet :=
  {[ dataSheetName := headerRow :: mixedFills;
     dailyProfitSheetName :=
       [dailyProfitHeader;
        [CStr "2025-05-07"; CNum 1; CNum 1; CNum 1; CNum 0];
        [CStr "2025-05-08"; CNum 2; CNum 6; CNum 1.5; CNum 4.5];
        [CStr "2025-05-09"; CNum 1; CNum 10; CNum 1; CNum 9]] ]}.

Lemma calculateDailyProfits_table_written_witness :
  let resultData :=
    [mkDailyAggregate "2025-05-09" 2 6 1.5 4.5; mkDailyAggregate "2025-05-12" 1 4 1 3] in
  fst (calculateDailyProfits Host.tokyo staleBook) = ReturnedSheet resultData /\
  exists sheet : Sheet,
    snd (calculateDailyProfits Host.tokyo staleBook) !! dailyProfitSheetName = Some sheet /\
    forall row col : nat,
      (2 <= row)%nat -> (1 <= col <= 5)%nat ->
      SheetOps.cellAt sheet row col
      = nth (col - 1) (nth (row - 2) (List.map aggregateCells resultData) []) blank.
Proof.
  intros resultData.
  assert (H : fst (calculateDailyProfits Host.tokyo staleBook) = ReturnedSheet resultData)
    by (vm_compute; reflexivity).
  split; [exact H|].
  exact (calculateDailyProfits_table_written Host.tokyo staleBook resultData H).
Defined.

Example calculateDailyProfits_staleBook :
  snd (calculateDailyProfits Host.tokyo staleBook) !! dailyProfitSheetName
  = Some [dailyProfitHeader;
          [CStr "2025-05-09"; CNum 2; CNum 6; CNum 1.5; CNum 4.5];
          [CStr "2025-05-12"; CNum 1; CNum 4; CNum 1; CNum 3];
          [blank; blank; blank; blank; blank]].
Proof. vm_compute. reflexivity. Qed.

(* ===================================================================== *)
(** ** The execution log *)
(* ===================================================================== *)

Lemma lastContent_app {A : Type} (empty : A -> bool) (l1 l2 : list A) :
  SheetOps.lastContent empty (l1 ++ l2)
  = match SheetOps.lastContent empty l2 with
    | O => SheetOps.lastContent empty l1
    | S n => (List.length l1 + S n)%nat
    end.
Proof.
  induction l1 as [|x l1 IH]; cbn [app SheetOps.lastContent List.length].
  - destruct (SheetOps.lastContent empty l2); reflexivity.
  - rewrite IH. destruct (SheetOps.lastContent empty l2); [reflexivity|].
    rewrite Nat.add_succ_r. cbn. rewrite Nat.add_succ_r. reflexivity.
Qed.

Lemma lastContent_skipn {A : Type} (empty : A -> bool) (k : nat) (l : list A) :
  SheetOps.lastContent empty (skipn k l) = (SheetOps.lastContent empty l - k)%nat.
Proof.
  revert l. induction k as [|k IH]; intros l; [rewrite Nat.sub_0_r; reflexivity|].
  destruct l as [|x l]; [reflexivity|].
  cbn [skipn SheetOps.lastContent]. rewrite IH.
  destruct (SheetOps.lastContent empty l) as [|n]; [|lia].
  destruct (empty x); reflexivity.
Qed.

Lemma getLastRow_appendRow row (sheet : Sheet) :
  SheetOps.rowIsBlank row = false ->
  SheetOps.getLastRow (SheetOps.appendRow row sheet) = S (SheetOps.getLastRow sheet).
Proof.
  intros Hrow. unfold SheetOps.appendRow, SheetOps.getLastRow.
  rewrite lastContent_app. cbn [SheetOps.lastContent]. rewrite Hrow.
  rewrite length_firstn.
  pose proof (lastContent_le_length SheetOps.rowIsBlank sheet). lia.
Qed.

Lemma getLastRow_appendRow_le row (sheet : Sheet) :
  (SheetOps.getLastRow (SheetOps.appendRow row sheet) <= S (SheetOps.getLastRow sheet))%nat.
Proof.
  unfold SheetOps.appendRow, SheetOps.getLastRow.
  rewrite lastContent_app. cbn [SheetOps.lastContent].
  pose proof (lastContent_le_length SheetOps.rowIsBlank sheet).
  pose proof (lastContent_firstn SheetOps.rowIsBlank sheet).
  destruct (SheetOps.rowIsBlank row); [lia|]. rewrite length_firstn. lia.
Qed.

(** The rows from the second on are deleted so that [maxLogRows + 1] rows
    with content are left. *)
Lemma getLastRow_trimmed (sheet : Sheet) :
  (maxLogRows + 1 < SheetOps.getLastRow sheet)%nat ->
  SheetOps.getLastRow
    (RangeOps.deleteRows 2 (SheetOps.getLastRow sheet - maxLogRows - 1) sheet)
  = (maxLogRows + 1)%nat.
Proof.
  unfold SheetOps.getLastRow, RangeOps.deleteRows. intros H.
  pose proof (lastContent_le_length SheetOps.rowIsBlank sheet) as Hlen.
  rewrite lastContent_app, lastContent_skipn, length_firstn.
  unfold maxLogRows in *.
  destruct (SheetOps.lastContent SheetOps.rowIsBlank sheet - _)%nat eqn:E; lia.
Qed.

(** X18.  After a call of [logExecution] that does not throw, the log
    sheet exists and its last row with content is at most row 101: the
    header and no more than 100 entries, however long the log was. *)
Theorem logExecution_keeps_100_entries
    (rt : Services) (logData : LogData) (ss : Spreadsheet) :
  fst (logExecution rt logData ss) = Ok tt ->
  exists logSheet : Sheet,
    snd (logExecution rt logData ss) !! LOG_SHEET_NAME = Some logSheet /\
    (SheetOps.getLastRow logSheet <= maxLogRows + 1)%nat.
Proof.
  unfold logExecution.
  destruct (ss !! LOG_SHEET_NAME) as [logSheet|];
    (destruct (logRow rt logData) as [row | e]; cbn [fst snd]; [intros _ | discriminate]);
    (eexists; split; [apply lookup_insert_eq|]);
    match goal with
    | |- context [SheetOps.appendRow row ?s] =>
        destruct (Nat.ltb_spec (maxLogRows + 1)
                    (SheetOps.getLastRow (SheetOps.appendRow row s))) as [Hlong | Hshort];
          [rewrite (getLastRow_trimmed _ Hlong); lia | exact Hshort]
    end.
Qed.

Definition successEntry : LogData :=
  mkLogData (DateObject (Some morning)) "dailyHistoryFetch" "2025-05-09" "成功"
            [Text "2025-05-09の取引履歴をスプレッドシートに保存しました（合計";
             Int 3; Text "件）"]
            blank.

Definition successRow : Row :=
  [CStr "2025-05-10 08:00:05"; CStr "dailyHistoryFetch"; CStr "2025-05-09"; CStr "成功";
   CStr "2025-05-09の取引履歴をスプレッドシートに保存しました（合計3件）"; blank].

(** A log that is full: the header and 100 entries. *)
Definition fullLog : Spreadsheet :=
  {[ LOG_SHEET_NAME :=
       logHeader ::
       [CStr "2025-01-29 08:00:03"; CStr "dailyHistoryFetch"; CStr "2025-01-28"; CStr "失敗";
        CStr "oldest"; blank] ::
       repeat [CStr "2025-02-01 08:00:03"; CStr "dailyHistoryFetch"; CStr "2025-01-31";
               CStr "成功"; CStr "later"; blank] 99 ]}.

Lemma logExecution_keeps_100_entries_witness :
  fst (logExecution tokyoServices successEntry fullLog) = Ok tt /\
  exists logSheet : Sheet,
    snd (logExecution tokyoServices successEntry fullLog) !! LOG_SHEET_NAME = Some logSheet /\
    (SheetOps.getLastRow logSheet <= maxLogRows + 1)%nat.
Proof.
  assert (H : fst (logExecution tokyoServices successEntry fullLog) = Ok tt)
    by (vm_compute; reflexivity).
  split; [exact H|].
  exact (logExecution_keeps_100_entries tokyoServices successEntry fullLog H).
Defined.

(** X19.  The entry is appended below the last row with content of the log
    sheet (of a new sheet that holds the header, when there was none).  If
    that makes more than 100 entries, the oldest are deleted from row 2
    on: the first row stays, the entry is the last row, and the rows
    between are the latest of the old ones. *)
Theorem logExecution_appends_and_trims
    (rt : Services) (logData : LogData) (ss : Spreadsheet) (row : Row) :
  logRow rt logData = Ok row ->
  SheetOps.rowIsBlank row = false ->
  let logSheet := default [logHeader] (ss !! LOG_SHEET_NAME) in
  let old := firstn (SheetOps.getLastRow logSheet) logSheet in
  snd (logExecution rt logData ss) !! LOG_SHEET_NAME
  = Some (if (List.length old <=? maxLogRows)%nat
          then (old ++ [row])%list
          else (firstn 1 old ++ skipn (List.length old - (maxLogRows - 1)) old ++ [row])%list).
Proof.
  intros Hrow Hblank logSheet old.
  assert (Hrun : snd (logExecution rt logData ss) !! LOG_SHEET_NAME
                 = Some (let appended := SheetOps.appendRow row logSheet in
                         if (maxLogRows + 1 <? SheetOps.getLastRow appended)%nat
                         then RangeOps.deleteRows 2 (SheetOps.getLastRow appended - maxLogRows - 1)
                                                  appended
                         else appended)).
  { unfold logExecution. subst logSheet.
    destruct (ss !! LOG_SHEET_NAME) as [sheet|]; rewrite Hrow; cbn [snd default];
      rewrite lookup_insert_eq; reflexivity. }
  rewrite Hrun. cbv zeta. f_equal.
  rewrite (getLastRow_appendRow row logSheet Hblank).
  assert (Hold : List.length old = SheetOps.getLastRow logSheet).
  { subst old. rewrite length_firstn.
    pose proof (lastContent_le_length SheetOps.rowIsBlank logSheet) as Hle.
    unfold SheetOps.getLastRow. lia. }
  unfold SheetOps.appendRow. fold old. rewrite <- Hold. unfold maxLogRows.
  destruct (Nat.ltb_spec (100 + 1) (S (List.length old))) as [Hlong | Hshort];
    destruct (Nat.leb_spec (List.length old) 100) as [Hle | Hgt]; try lia; [|reflexivity].
  unfold RangeOps.deleteRows.
  replace (2 - 1)%nat with 1%nat by lia.
  replace (1 + (S (List.length old) - 100 - 1))%nat with (List.length old - 99)%nat by lia.
  replace (100 - 1)%nat with 99%nat by lia.
  rewrite firstn_app, skipn_app.
  replace (1 - List.length old)%nat with O by lia.
  replace (List.length old - 99 - List.length old)%nat with O by lia.
  cbn [firstn skipn]. rewrite app_nil_r. reflexivity.
Qed.

Lemma logExecution_appends_and_trims_witness :
  (logRow tokyoServices successEntry = Ok successRow /\
   SheetOps.rowIsBlank successRow = false) /\
  snd (logExecution tokyoServices successEntry fullLog) !! LOG_SHEET_NAME
  = Some (logHeader ::
          repeat [CStr "2025-02-01 08:00:03"; CStr "dailyHistoryFetch"; CStr "2025-01-31";
                  CStr "成功"; CStr "later"; blank] 99 ++ [successRow])%list.
Proof.
  assert (H1 : logRow tokyoServices successEntry = Ok successRow) by (vm_compute; reflexivity).
  assert (H2 : SheetOps.rowIsBlank successRow = false) by reflexivity.
  split; [split; assumption|].
  exact (logExecution_appends_and_trims tokyoServices successEntry fullLog successRow H1 H2).
Defined.

Example logExecution_creates_log :
  snd (logExecution tokyoServices successEntry ∅) !! LOG_SHEET_NAME
  = Some [logHeader; successRow].
Proof. vm_compute. reflexivity. Qed.

(* ===================================================================== *)
(** ** The settings sheet *)
(* ===================================================================== *)

(** Row [r] is the first row of the sheet whose cell in column A is the
    text [key]. *)
Definition firstWithKey (key : string) (sheet : Sheet) (r : nat) : Prop :=
  (1 <= r)%nat /\
  SheetOps.cellAt sheet r 1 = CStr key /\
  forall r' : nat, (1 <= r' < r)%nat -> SheetOps.cellAt sheet r' 1 <> CStr key.

(** The other sheets are as they were, the settings sheet has [value] in
    column B of row [r], and no other cell of it has changed. *)
Definition writesCell (ss ss' : Spreadsheet) (r : nat) (value : Cell) : Prop :=
  exists sheet sheet' : Sheet,
    ss !! CONFIG_SHEET_NAME = Some sheet /\
    ss' = <[CONFIG_SHEET_NAME := sheet']> ss /\
    SheetOps.cellAt sheet' r 2 = value /\
    forall r' c : nat, (1 <= r')%nat -> (1 <= c)%nat -> r' <> r \/ c <> 2%nat ->
      SheetOps.cellAt sheet' r' c = SheetOps.cellAt sheet r' c.

Lemma firstCell_getDataRangeValues (sheet : Sheet) (j : nat) :
  (j < Nat.max 1 (SheetOps.getLastRow sheet))%nat ->
  nth 0 (nth j (SheetOps.getDataRangeValues sheet) []) blank = SheetOps.cellAt sheet (j + 1) 1.
Proof.
  intros Hj. unfold SheetOps.getDataRangeValues.
  set (f := fun i => List.map (fun c => SheetOps.cellAt sheet i c)
                              (seq 1 (Nat.max 1 (SheetOps.getLastColumn sheet)))).
  rewrite (nth_indep _ [] (f O)) by (rewrite length_map, length_seq; exact Hj).
  rewrite map_nth, seq_nth by exact Hj. subst f. cbv beta.
  destruct (Nat.max 1 (SheetOps.getLastColumn sheet)) as [|m] eqn:Hm; [lia|].
  cbn [seq List.map nth]. f_equal. lia.
Qed.

Lemma findRow_first key (values : list (list Cell)) (i0 j : nat) :
  (j < List.length values)%nat ->
  nth 0 (nth j values []) blank = CStr key ->
  (forall j', (j' < j)%nat -> nth 0 (nth j' values []) blank <> CStr key) ->
  findRow key values i0 = Some (i0 + j)%nat.
Proof.
  revert i0 j. induction values as [|row values IH]; intros i0 j Hj Hkey Hfirst;
    [cbn in Hj; lia|].
  destruct j as [|j].
  - cbn in Hkey. cbn [findRow]. rewrite Hkey, String.eqb_refl. f_equal. lia.
  - cbn [findRow].
    assert (Hrow : nth 0 row blank <> CStr key) by (apply (Hfirst O); lia).
    assert (Hnext : findRow key values (S i0) = Some (S i0 + j)%nat).
    { apply IH; [cbn in Hj; lia | exact Hkey|].
      intros j' Hj'. apply (Hfirst (S j')). lia. }
    rewrite Hnext. replace (i0 + S j)%nat with (S i0 + j)%nat by lia.
    destruct (nth 0 row blank) as [s | | |]; try reflexivity.
    destruct (String.eqb_spec s key) as [-> | _]; [congruence | reflexivity].
Qed.

Lemma findRow_none key (values : list (list Cell)) (i0 : nat) :
  (forall j, (j < List.length values)%nat -> nth 0 (nth j values []) blank <> CStr key) ->
  findRow key values i0 = None.
Proof.
  revert i0. induction values as [|row values IH]; intros i0 Hnone; [reflexivity|].
  cbn [findRow].
  assert (Hrow : nth 0 row blank <> CStr key) by (apply (Hnone O); cbn; lia).
  rewrite IH by (intros j Hj; apply (Hnone (S j)); cbn; lia).
  destruct (nth 0 row blank) as [s | | |]; try reflexivity.
  destruct (String.eqb_spec s key) as [-> | _]; [congruence | reflexivity].
Qed.

Lemma findRow_firstWithKey key (sheet : Sheet) (r : nat) :
  key <> "" ->
  firstWithKey key sheet r ->
  findRow key (SheetOps.getDataRangeValues sheet) 0 = Some (r - 1)%nat.
Proof.
  intros Hkey (Hr & Hcell & Hfirst).
  assert (Hlast : (r <= SheetOps.getLastRow sheet)%nat).
  { destruct (Nat.le_gt_cases r (SheetOps.getLastRow sheet)) as [H | H]; [exact H|].
    rewrite (cellAt_below_last sheet r 1 H) in Hcell. injection Hcell as Hcell.
    congruence. }
  apply (findRow_first key _ 0 (r - 1)).
  - rewrite length_getDataRangeValues. lia.
  - rewrite firstCell_getDataRangeValues by lia.
    replace (r - 1 + 1)%nat with r by lia. exact Hcell.
  - intros j' Hj'. rewrite firstCell_getDataRangeValues by lia. apply Hfirst. lia.
Qed.

Lemma writesCell_setValue (ss : Spreadsheet) (sheet : Sheet) (r : nat) (value : Cell) :
  ss !! CONFIG_SHEET_NAME = Some sheet -> (1 <= r)%nat ->
  writesCell ss (<[CONFIG_SHEET_NAME := RangeOps.setValue r 2 value sheet]> ss) r value.
Proof.
  intros Hsheet Hr. exists sheet, (RangeOps.setValue r 2 value sheet).
  split; [exact Hsheet|]. split; [reflexivity|]. unfold RangeOps.setValue. split.
  - rewrite cellAt_setValues by lia. cbn [List.length].
    destruct (Nat.leb_spec r r) as [_ | H]; [|lia].
    destruct (Nat.ltb_spec r (r + 1)) as [_ | H]; [|lia].
    cbn [andb]. rewrite Nat.sub_diag. reflexivity.
  - intros r' c Hr' Hc Hne. rewrite cellAt_setValues by lia. cbn [List.length].
    destruct (Nat.leb_spec r r') as [Hle | Hlt]; [|reflexivity].
    destruct (Nat.ltb_spec r' (r + 1)) as [Hin | Hout]; [|reflexivity].
    cbn [andb]. assert (r' = r) by lia. subst r'. rewrite Nat.sub_diag. cbn [nth List.length].
    destruct (Nat.leb_spec 2 c) as [Hc2 | Hc1]; [|reflexivity].
    destruct (Nat.ltb_spec c (2 + 1)) as [Hc3 | _]; [|reflexivity].
    exfalso. destruct Hne as [Hne | Hne]; [congruence | lia].
Qed.

Lemma updateTriggerStatus_writes status (ss : Spreadsheet) (configSheet : Sheet) (r : nat) :
  ss !! CONFIG_SHEET_NAME = Some configSheet ->
  firstWithKey "自動実行ステータス" configSheet r ->
  writesCell ss (updateTriggerStatus status ss) r (CStr status).
Proof.
  intros Hsheet Hfirst. unfold updateTriggerStatus. rewrite Hsheet. cbv zeta.
  rewrite (findRow_firstWithKey _ configSheet r) by (discriminate || exact Hfirst).
  destruct Hfirst as (Hr & _). replace (r - 1 + 1)%nat with r by lia.
  apply writesCell_setValue; assumption.
Qed.

Lemma updateConfigLastRun_writes rt now (ss : Spreadsheet) (configSheet : Sheet) (r : nat) :
  ss !! CONFIG_SHEET_NAME = Some configSheet ->
  firstWithKey "最終実行日時" configSheet r ->
  writesCell ss (updateConfigLastRun rt now ss) r (CStr (toLocaleString rt now)).
Proof.
  intros Hsheet Hfirst. unfold updateConfigLastRun. rewrite Hsheet. cbv zeta.
  rewrite (findRow_firstWithKey _ configSheet r) by (discriminate || exact Hfirst).
  destruct Hfirst as (Hr & _). replace (r - 1 + 1)%nat with r by lia.
  apply writesCell_setValue; assumption.
Qed.

(** X20.  On a settings sheet, [updateTriggerStatus] writes the status
    into column B of the first row whose cell in column A is the status
    key, and [updateConfigLastRun] writes the printed time into column B
    of the first row whose cell in column A is the last-run key; neither
    changes any other cell of the sheet, nor any other sheet. *)
Theorem config_updates_write_one_cell
    (rt : Services) (now : Z) (status : string) (ss : Spreadsheet) (configSheet : Sheet) :
  ss !! CONFIG_SHEET_NAME = Some configSheet ->
  (forall r : nat,
     firstWithKey "自動実行ステータス" configSheet r ->
     writesCell ss (updateTriggerStatus status ss) r (CStr status)) /\
  (forall r : nat,
     firstWithKey "最終実行日時" configSheet r ->
     writesCell ss (updateConfigLastRun rt now ss) r (CStr (toLocaleString rt now))).
Proof.
  intros Hsheet. split; intros r Hfirst.
  - exact (updateTriggerStatus_writes status ss configSheet r Hsheet Hfirst).
  - exact (updateConfigLastRun_writes rt now ss configSheet r Hsheet Hfirst).
Qed.

Lemma findRow_Some_inv key (values : list (list Cell)) (i0 i : nat) :
  findRow key values i0 = Some i ->
  exists j : nat,
    i = (i0 + j)%nat /\ (j < List.length values)%nat /\
    nth 0 (nth j values []) blank = CStr key /\
    forall j', (j' < j)%nat -> nth 0 (nth j' values []) blank <> CStr key.
Proof.
  revert i0. induction values as [|row values IH]; intros i0; cbn [findRow]; [discriminate|].
  assert (Hnext : findRow key values (S i0) = Some i ->
                  nth 0 row blank <> CStr key ->
                  exists j : nat,
                    i = (i0 + j)%nat /\ (j < List.length (row :: values))%nat /\
                    nth 0 (nth j (row :: values) []) blank = CStr key /\
                    forall j', (j' < j)%nat -> nth 0 (nth j' (row :: values) []) blank <> CStr key).
  { intros H Hrow. destruct (IH _ H) as (j & -> & Hj & Hkey & Hfirst).
    exists (S j). split; [lia|]. split; [cbn; lia|]. split; [exact Hkey|].
    intros [|j'] Hj'; [exact Hrow | apply Hfirst; lia]. }
  destruct (nth 0 row blank) as [s | x | b | t] eqn:Hcell;
    try (intros H; apply Hnext; [exact H | discriminate]).
  destruct (String.eqb_spec s key) as [-> | Hne].
  - intros [= <-]. exists O. split; [lia|]. split; [cbn; lia|]. split; [exact Hcell|].
    intros j' Hj'. lia.
  - intros H. apply Hnext; [exact H | congruence].
Qed.

Lemma findRow_getDataRangeValues key (sheet : Sheet) (i : nat) :
  findRow key (SheetOps.getDataRangeValues sheet) 0 = Some i ->
  SheetOps.cellAt sheet (i + 1) 1 = CStr key /\
  forall r' : nat, (1 <= r' < i + 1)%nat -> SheetOps.cellAt sheet r' 1 <> CStr key.
Proof.
  intros H. destruct (findRow_Some_inv _ _ _ _ H) as (j & -> & Hj & Hkey & Hfirst).
  rewrite length_getDataRangeValues in Hj. cbn [Nat.add].
  rewrite firstCell_getDataRangeValues in Hkey by exact Hj. split; [exact Hkey|].
  intros r' Hr'. specialize (Hfirst (r' - 1)%nat).
  rewrite firstCell_getDataRangeValues in Hfirst by lia.
  replace (r' - 1 + 1)%nat with r' in Hfirst by lia. apply Hfirst. lia.
Qed.

(** X21.  An update changes the spreadsheet only if the settings sheet
    exists and has a row with the key in column A: otherwise it leaves
    the spreadsheet as it is, and creates neither the sheet nor the
    row. *)
Theorem config_updates_need_their_row
    (rt : Services) (now : Z) (status : string) (ss : Spreadsheet) :
  (updateTriggerStatus status ss = ss \/
   exists (configSheet : Sheet) (r : nat),
     ss !! CONFIG_SHEET_NAME = Some configSheet /\
     firstWithKey "自動実行ステータス" configSheet r) /\
  (updateConfigLastRun rt now ss = ss \/
   exists (configSheet : Sheet) (r : nat),
     ss !! CONFIG_SHEET_NAME = Some configSheet /\
     firstWithKey "最終実行日時" configSheet r).
Proof.
  unfold updateTriggerStatus, updateConfigLastRun.
  destruct (ss !! CONFIG_SHEET_NAME) as [sheet|]; [|split; left; reflexivity].
  cbv zeta. split.
  - destruct (findRow "自動実行ステータス" _ 0) as [i|] eqn:Hfind; [|left; reflexivity].
    right. exists sheet, (i + 1)%nat. split; [reflexivity|].
    destruct (findRow_getDataRangeValues _ _ _ Hfind) as [Hkey Hfirst].
    split; [lia|]. split; assumption.
  - destruct (findRow "最終実行日時" _ 0) as [i|] eqn:Hfind; [|left; reflexivity].
    right. exists sheet, (i + 1)%nat. split; [reflexivity|].
    destruct (findRow_getDataRangeValues _ _ _ Hfind) as [Hkey Hfirst].
    split; [lia|]. split; assumption.
Qed.

Example updateTriggerStatus_without_sheet :
  updateTriggerStatus "有効" (∅ : Spreadsheet) = ∅.
Proof. reflexivity. Qed.

(** *** The sheet that [createConfigSheet] writes *)

(** What the sheet holds when [createConfigSheet] is done, whatever it
    held before. *)
Definition writtenConfigSheet (rt : Services) : Sheet :=
  RangeOps.setValue 14 1
    (CStr "ℹ️ このシステムは毎日自動的に前日のトレード履歴を取得します。手動操作は必要ありません。")
    (RangeOps.setValue 12 1
       (CStr "⚠️ ユーザー名とAPIキーはスクリプトエディタ内のCONFIG変数で直接変更してください。")
       (SheetOps.setValues 2 1 (configValues rt)
          (SheetOps.setValues 1 1 [[CStr "設定項目"; CStr "値"]] []))).

Lemma createConfigSheet_written (rt : Services) (ss : Spreadsheet) :
  createConfigSheet rt ss = <[CONFIG_SHEET_NAME := writtenConfigSheet rt]> ss.
Proof. unfold createConfigSheet. destruct (ss !! CONFIG_SHEET_NAME); reflexivity. Qed.

Lemma writtenConfigSheet_rows (rt : Services) :
  List.map (fun r => SheetOps.cellAt (writtenConfigSheet rt) r 1) (seq 1 14)
  = [CStr "設定項目"; CStr "APIユーザー名"; CStr "APIキー";
     CStr "ユーザー名とAPIキーの更新が必要"; CStr "トレード履歴シート名";
     CStr "自動実行時間"; CStr "メール通知"; CStr "通知メールアドレス";
     CStr "最終実行日時"; CStr "自動実行ステータス"; blank;
     CStr "⚠️ ユーザー名とAPIキーはスクリプトエディタ内のCONFIG変数で直接変更してください。";
     blank;
     CStr "ℹ️ このシステムは毎日自動的に前日のトレード履歴を取得します。手動操作は必要ありません。"] /\
  SheetOps.cellAt (writtenConfigSheet rt) 9 2 = CStr "未実行" /\
  SheetOps.cellAt (writtenConfigSheet rt) 10 2 = CStr "有効".
Proof. split; [|split]; vm_compute; reflexivity. Qed.

Lemma writtenConfigSheet_keys (rt : Services) :
  firstWithKey "自動実行ステータス" (writtenConfigSheet rt) 10 /\
  firstWithKey "最終実行日時" (writtenConfigSheet rt) 9.
Proof.
  split; (split; [lia|]); (split; [vm_compute; reflexivity|]); intros r' Hr'.
  - assert (H : In r' (seq 1 9)) by (apply in_seq; lia).
    cbn in H. repeat (destruct H as [<- | H]; [vm_compute; discriminate|]). destruct H.
  - assert (H : In r' (seq 1 8)) by (apply in_seq; lia).
    cbn in H. repeat (destruct H as [<- | H]; [vm_compute; discriminate|]). destruct H.
Qed.

(** X22.  The sheet that [createConfigSheet] writes is the same whatever
    the settings sheet held before (an earlier status and last-run time
    are reset to their initial texts), and it has the rows the two
    updates look for: after it, [updateTriggerStatus] writes cell B10 and
    [updateConfigLastRun] writes cell B9, and nothing else. *)
Theorem createConfigSheet_then_updates
    (rt : Services) (now : Z) (status : string) (ss : Spreadsheet) :
  let created := createConfigSheet rt ss in
  (forall old : Sheet,
     createConfigSheet rt (<[CONFIG_SHEET_NAME := old]> ss) = created) /\
  (exists sheet : Sheet,
     created !! CONFIG_SHEET_NAME = Some sheet /\
     SheetOps.cellAt sheet 9 1 = CStr "最終実行日時" /\
     SheetOps.cellAt sheet 9 2 = CStr "未実行" /\
     SheetOps.cellAt sheet 10 1 = CStr "自動実行ステータス" /\
     SheetOps.cellAt sheet 10 2 = CStr "有効") /\
  writesCell created (updateTriggerStatus status created) 10 (CStr status) /\
  writesCell created (updateConfigLastRun rt now created) 9 (CStr (toLocaleString rt now)).
Proof.
  cbv zeta. rewrite !createConfigSheet_written.
  assert (Hsheet : (<[CONFIG_SHEET_NAME := writtenConfigSheet rt]> ss) !! CONFIG_SHEET_NAME
                   = Some (writtenConfigSheet rt)) by apply lookup_insert_eq.
  destruct (writtenConfigSheet_keys rt) as [Hstatus Hlast].
  split; [|split; [|split]].
  - intros old. rewrite createConfigSheet_written. apply insert_insert_eq.
  - exists (writtenConfigSheet rt). split; [exact Hsheet|].
    repeat split; vm_compute; reflexivity.
  - exact (updateTriggerStatus_writes status _ _ 10 Hsheet Hstatus).
  - exact (updateConfigLastRun_writes rt now _ _ 9 Hsheet Hlast).
Qed.

Lemma config_updates_write_one_cell_witness :
  let ss := createConfigSheet tokyoServices ∅ in
  let configSheet := writtenConfigSheet tokyoServices in
  (ss !! CONFIG_SHEET_NAME = Some configSheet /\
   firstWithKey "自動実行ステータス" configSheet 10 /\
   firstWithKey "最終実行日時" configSheet 9) /\
  writesCell ss (updateTriggerStatus "無効" ss) 10 (CStr "無効") /\
  writesCell ss (updateConfigLastRun tokyoServices morning ss) 9
             (CStr (toLocaleString tokyoServices morning)).
Proof.
  intros ss configSheet.
  assert (H : ss !! CONFIG_SHEET_NAME = Some configSheet).
  { subst ss. rewrite createConfigSheet_written. apply lookup_insert_eq. }
  destruct (writtenConfigSheet_keys tokyoServices) as [Hk1 Hk2].
  split; [split; [exact H | split; [exact Hk1 | exact Hk2]]|].
  destruct (config_updates_write_one_cell tokyoServices morning "無効" ss configSheet H)
    as [Hstatus Hlast].
  split; [exact (Hstatus 10%nat Hk1) | exact (Hlast 9%nat Hk2)].
Defined.

Example updateTriggerStatus_after_createConfigSheet :
  SheetOps.cellAt
    (default [] (updateTriggerStatus "無効" (createConfigSheet tokyoServices ∅)
                   !! CONFIG_SHEET_NAME)) 10 2
  = CStr "無効".
Proof. vm_compute. reflexivity. Qed.

(* ===================================================================== *)
(** ** Triggers *)
(* ===================================================================== *)

Definition handles (name : string) (trigger : Trigger) : bool :=
  String.eqb (handlerFunction trigger) name.

Lemma filter_filter_and {A : Type} (f g : A -> bool) (l : list A) :
  List.filter f (List.filter g l) = List.filter (fun x => g x && f x) l.
Proof.
  induction l as [|x l IH]; cbn; [reflexivity|].
  destruct (g x); cbn; [destruct (f x)|]; rewrite IH; reflexivity.
Qed.

(** The loop deletes from [current] the triggers that have the id of a
    trigger of the snapshot handled by [name]. *)
Lemma deleteLoop_filter (name : string) (snapshot current : list Trigger) :
  fold_left (fun current trigger =>
               if String.eqb (handlerFunction trigger) name
               then deleteTrigger trigger current
               else current)
            snapshot current
  = List.filter
      (fun t => negb (existsb (fun d => handles name d &&
                                        String.eqb (uniqueId t) (uniqueId d)) snapshot))
      current.
Proof.
  revert current. induction snapshot as [|d snapshot IH]; intros current; cbn [fold_left existsb].
  - cbn. induction current as [|t current IHc]; cbn; [reflexivity | rewrite <- IHc; reflexivity].
  - rewrite IH. unfold handles at 2. destruct (String.eqb (handlerFunction d) name); cbn [andb orb].
    + unfold deleteTrigger. rewrite filter_filter_and. apply List.filter_ext. intros t.
      rewrite negb_orb. reflexivity.
    + reflexivity.
Qed.

Lemma deleteHandlerTriggers_none_left (name : string) (installed : list Trigger) :
  List.filter (handles name) (deleteHandlerTriggers name installed) = [].
Proof.
  unfold deleteHandlerTriggers. rewrite deleteLoop_filter, filter_filter_and.
  assert (H : forall l : list Trigger,
            (forall t, In t l -> In t installed) ->
            List.filter (fun x => negb (existsb (fun d => handles name d &&
                                                   String.eqb (uniqueId x) (uniqueId d))
                                           installed) && handles name x) l = []).
  { induction l as [|t l IH]; intros Hsub; cbn; [reflexivity|].
    rewrite IH by (intros t' Ht'; apply Hsub; right; exact Ht').
    destruct (handles name t) eqn:Ht; [|rewrite andb_false_r; reflexivity].
    assert (Hex : existsb (fun d => handles name d && String.eqb (uniqueId t) (uniqueId d))
                          installed = true).
    { apply existsb_exists. exists t. split; [apply Hsub; left; reflexivity|].
      rewrite Ht, String.eqb_refl. reflexivity. }
    rewrite Hex. reflexivity. }
  apply H. auto.
Qed.

Lemma NoDup_map_inj {A B : Type} (f : A -> B) (l : list A) (x y : A) :
  NoDup (List.map f l) -> In x l -> In y l -> f x = f y -> x = y.
Proof.
  induction l as [|a l IH]; cbn; [intros _ []|].
  intros Hnd. inversion Hnd as [|? ? Hnotin Hrest]; subst.
  intros [-> | Hx] [-> | Hy] Hf; try reflexivity.
  - exfalso. apply Hnotin. rewrite Hf. apply list_elem_of_In, List.in_map, Hy.
  - exfalso. apply Hnotin. rewrite <- Hf. apply list_elem_of_In, List.in_map, Hx.
  - exact (IH Hrest Hx Hy Hf).
Qed.

(** With ids that differ, the loop deletes the triggers handled by [name]
    and keeps the others in their order. *)
Lemma deleteHandlerTriggers_filter (name : string) (installed : list Trigger) :
  NoDup (List.map uniqueId installed) ->
  deleteHandlerTriggers name installed
  = List.filter (fun t => negb (handles name t)) installed.
Proof.
  intros Hnd. unfold deleteHandlerTriggers. rewrite deleteLoop_filter.
  apply List.filter_ext_in. intros t Ht. f_equal.
  destruct (handles name t) eqn:Hh.
  - apply existsb_exists. exists t. split; [exact Ht|].
    rewrite Hh, String.eqb_refl. reflexivity.
  - destruct (existsb _ installed) eqn:Hex; [|reflexivity].
    apply existsb_exists in Hex. destruct Hex as (d & Hd & Hboth).
    apply andb_prop in Hboth. destruct Hboth as [Hdh Hid]. apply String.eqb_eq in Hid.
    assert (t = d) by exact (NoDup_map_inj uniqueId installed t d Hnd Ht Hd Hid).
    subst d. congruence.
Qed.

Lemma filter_handles_app name (l1 l2 : list Trigger) :
  List.filter (handles name) (l1 ++ l2)
  = (List.filter (handles name) l1 ++ List.filter (handles name) l2)%list.
Proof. apply List.filter_app. Qed.

(** X23.  After [setupDailyTrigger] exactly one trigger runs
    [dailyHistoryFetch]: the new one, at the configured hour in the
    configured time zone, whatever was installed before and even if the
    log entry could not be written.  When the ids of the installed
    triggers differ, the triggers of other handlers are kept, in their
    order. *)
Theorem setupDailyTrigger_one_trigger
    (rt : Services) (newId : string) (now : Z) (w : Project) :
  let created := mkTrigger newId "dailyHistoryFetch" EXECUTION_HOUR (Some CONFIG.TIMEZONE) in
  let after := projectTriggers (snd (setupDailyTrigger rt newId now w)) in
  List.filter (handles "dailyHistoryFetch") after = [created] /\
  (NoDup (List.map uniqueId (projectTriggers w)) ->
   after = (List.filter (fun t => negb (handles "dailyHistoryFetch" t)) (projectTriggers w)
            ++ [created])%list).
Proof.
  cbv zeta. unfold setupDailyTrigger.
  destruct (logExecution rt _ _) as [r ss]. cbn [snd projectTriggers]. split.
  - rewrite filter_handles_app, deleteHandlerTriggers_none_left. reflexivity.
  - intros Hnd. rewrite (deleteHandlerTriggers_filter _ _ Hnd). reflexivity.
Qed.

Lemma lookup_config_logExecution rt logData (ss : Spreadsheet) :
  snd (logExecution rt logData ss) !! CONFIG_SHEET_NAME = ss !! CONFIG_SHEET_NAME.
Proof.
  assert (Hne : LOG_SHEET_NAME <> CONFIG_SHEET_NAME) by discriminate.
  unfold logExecution.
  destruct (ss !! LOG_SHEET_NAME) as [logSheet|]; destruct (logRow rt logData); cbn [snd];
    rewrite ?lookup_insert_ne by exact Hne; reflexivity.
Qed.

Lemma is_Some_config_updateTriggerStatus status (ss : Spreadsheet) :
  is_Some (ss !! CONFIG_SHEET_NAME) ->
  is_Some (updateTriggerStatus status ss !! CONFIG_SHEET_NAME).
Proof.
  intros H. unfold updateTriggerStatus.
  destruct (ss !! CONFIG_SHEET_NAME) as [sheet|] eqn:Hsheet;
    [|destruct H as [? H]; discriminate H].
  cbv zeta. destruct (findRow _ _ 0); [|rewrite Hsheet; exact H].
  rewrite lookup_insert_eq. eauto.
Qed.

(** X24.  Opening the spreadsheet a second time changes nothing: after a
    first [onOpen] (whether or not its log entry could be written) the
    settings sheet exists and a trigger runs [dailyHistoryFetch], so the
    second [onOpen] returns normally and leaves the sheets and the
    triggers as they are; no second trigger is created. *)
Theorem onOpen_twice
    (rt : Services) (newId newId' : string) (now now' : Z) (w : Project) :
  let opened := snd (onOpen rt newId now w) in
  onOpen rt newId' now' opened = (Ok tt, opened).
Proof.
  cbv zeta.
  assert (Hstate : is_Some (book (snd (onOpen rt newId now w)) !! CONFIG_SHEET_NAME) /\
                   existsb (handles "dailyHistoryFetch")
                           (projectTriggers (snd (onOpen rt newId now w))) = true).
  { unfold onOpen, checkAndSetupTrigger. cbn [projectTriggers book].
    assert (Hconfig : is_Some (createConfigSheetIfNotExists rt (book w) !! CONFIG_SHEET_NAME)).
    { unfold createConfigSheetIfNotExists.
      destruct (book w !! CONFIG_SHEET_NAME) as [sheet|] eqn:Hsheet; [rewrite Hsheet; eauto|].
      rewrite createConfigSheet_written, lookup_insert_eq. eauto. }
    fold (handles "dailyHistoryFetch").
    destruct (existsb (handles "dailyHistoryFetch") (projectTriggers w)) eqn:Hhas; cbn [negb].
    - cbn [snd book projectTriggers]. split; [exact Hconfig | exact Hhas].
    - unfold setupDailyTrigger. cbn [book projectTriggers].
      pose proof (lookup_config_logExecution rt
                    (mkLogData (DateObject (Some now)) "setupDailyTrigger" "-" "成功"
                               [Text "毎日"; Int EXECUTION_HOUR;
                                Text "時に実行する自動トリガーを設定しました"] blank)
                    (updateTriggerStatus "有効" (createConfigSheetIfNotExists rt (book w))))
        as Hlog.
      destruct (logExecution rt _ _) as [r ss]. cbn [snd book projectTriggers] in *.
      split.
      + rewrite Hlog. apply is_Some_config_updateTriggerStatus, Hconfig.
      + rewrite existsb_app. cbn. apply orb_true_r. }
  destruct Hstate as [[sheet Hsheet] Hhas].
  destruct (snd (onOpen rt newId now w)) as [ss installed]. cbn [book projectTriggers] in *.
  unfold onOpen, createConfigSheetIfNotExists, checkAndSetupTrigger. cbn [book projectTriggers].
  rewrite Hsheet. cbn [projectTriggers]. fold (handles "dailyHistoryFetch").
  rewrite Hhas. reflexivity.
Qed.

(** X25.  In the daily-profit script, after [createDailyTrigger] exactly
    one trigger runs [calculateDailyProfits] (the new one, at 9 o'clock),
    and after [removeDailyTrigger] none does.  When the ids of the
    installed triggers differ, both keep the triggers of other handlers in
    their order.  Each shows its alert unless the script runs with full
    authorisation. *)
Theorem daily_profit_triggers
    (P : Platform) (newId : string) (installed : list Trigger) :
  let created := mkTrigger newId "calculateDailyProfits" 9 None in
  let others := List.filter (fun t => negb (handles "calculateDailyProfits" t)) installed in
  List.filter (handles "calculateDailyProfits") (snd (createDailyTrigger P newId installed))
  = [created] /\
  List.filter (handles "calculateDailyProfits") (snd (removeDailyTrigger P installed)) = [] /\
  (NoDup (List.map uniqueId installed) ->
   snd (createDailyTrigger P newId installed) = (others ++ [created])%list /\
   snd (removeDailyTrigger P installed) = others) /\
  (authModeFull P = true ->
   fst (createDailyTrigger P newId installed) = Ok None /\
   fst (removeDailyTrigger P installed) = Ok None).
Proof.
  cbv zeta. unfold createDailyTrigger, removeDailyTrigger, deleteExistingTriggers. cbn [fst snd].
  split; [|split; [|split]].
  - rewrite filter_handles_app, deleteHandlerTriggers_none_left. reflexivity.
  - apply deleteHandlerTriggers_none_left.
  - intros Hnd. rewrite (deleteHandlerTriggers_filter _ _ Hnd). split; reflexivity.
  - intros Hfull. unfold alertUnlessFull. rewrite Hfull. split; reflexivity.
Qed.

(** Two triggers of the trade-history script (one of them stale) and one
    of the daily-profit script. *)
Definition threeTriggers : list Trigger :=
  [mkTrigger "t1" "dailyHistoryFetch" 7 None;
   mkTrigger "t2" "calculateDailyProfits" 9 None;
   mkTrigger "t3" "dailyHistoryFetch" 8 (Some "Asia/Tokyo")].

Lemma threeTriggers_ids : NoDup (List.map uniqueId threeTriggers).
Proof.
  cbn. repeat (apply NoDup_cons; split;
               [intros H; repeat (apply elem_of_cons in H as [H|H]; [discriminate H|]);
                inversion H|]).
  apply NoDup_nil. exact I.
Qed.

Lemma setupDailyTrigger_one_trigger_witness :
  let w := mkProject ∅ threeTriggers in
  let created := mkTrigger "t4" "dailyHistoryFetch" EXECUTION_HOUR (Some CONFIG.TIMEZONE) in
  let after := projectTriggers (snd (setupDailyTrigger tokyoServices "t4" morning w)) in
  NoDup (List.map uniqueId (projectTriggers w)) /\
  List.filter (handles "dailyHistoryFetch") after = [created] /\
  after = [mkTrigger "t2" "calculateDailyProfits" 9 None; created].
Proof.
  intros w created after.
  destruct (setupDailyTrigger_one_trigger tokyoServices "t4" morning w) as [Hone Hothers].
  split; [exact threeTriggers_ids|]. split; [exact Hone|].
  exact (Hothers threeTriggers_ids).
Defined.

Lemma daily_profit_triggers_witness :
  let created := mkTrigger "t4" "calculateDailyProfits" 9 None in
  (NoDup (List.map uniqueId threeTriggers) /\ authModeFull Host.tokyoFromTrigger = true) /\
  List.filter (handles "calculateDailyProfits")
              (snd (createDailyTrigger Host.tokyoFromTrigger "t4" threeTriggers))
  = [created] /\
  snd (createDailyTrigger Host.tokyoFromTrigger "t4" threeTriggers)
  = [mkTrigger "t1" "dailyHistoryFetch" 7 None;
     mkTrigger "t3" "dailyHistoryFetch" 8 (Some "Asia/Tokyo"); created] /\
  snd (removeDailyTrigger Host.tokyoFromTrigger threeTriggers)
  = [mkTrigger "t1" "dailyHistoryFetch" 7 None;
     mkTrigger "t3" "dailyHistoryFetch" 8 (Some "Asia/Tokyo")] /\
  fst (createDailyTrigger Host.tokyoFromTrigger "t4" threeTriggers) = Ok None.
Proof.
  intros created.
  destruct (daily_profit_triggers Host.tokyoFromTrigger "t4" threeTriggers)
    as (Hone & Hnone & Hothers & Halert).
  destruct (Hothers threeTriggers_ids) as [Hcreate Hremove].
  destruct (Halert eq_refl) as [Hquiet _].
  split; [split; [exact threeTriggers_ids | reflexivity]|].
  split; [exact Hone|]. split; [exact Hcreate|]. split; [exact Hremove | exact Hquiet].
Defined.

Example onOpen_first_time :
  let opened := snd (onOpen tokyoServices "t1" morning (mkProject ∅ [])) in
  projectTriggers opened = [mkTrigger "t1" "dailyHistoryFetch" 8 (Some "Asia/Tokyo")] /\
  book opened !! LOG_SHEET_NAME
  = Some [logHeader;
          [CStr "2025-05-10 08:00:05"; CStr "setupDailyTrigger"; CStr "-"; CStr "成功";
           CStr "毎日8時に実行する自動トリガーを設定しました"; blank]] /\
  SheetOps.cellAt (default [] (book opened !! CONFIG_SHEET_NAME)) 10 2 = CStr "有効".
Proof. cbv zeta. repeat split; vm_compute; reflexivity. Qed.

(* ===================================================================== *)
(** ** The daily run *)
(* ===================================================================== *)

Lemma logExecution_other_sheets rt logData (ss : Spreadsheet) (name : string) :
  name <> LOG_SHEET_NAME ->
  snd (logExecution rt logData ss) !! name = ss !! name.
Proof.
  intros Hne. unfold logExecution.
  destruct (ss !! LOG_SHEET_NAME) as [logSheet|]; destruct (logRow rt logData); cbn [snd];
    rewrite ?lookup_insert_ne by congruence; reflexivity.
Qed.

Lemma updateConfigLastRun_other_sheets rt now (ss : Spreadsheet) (name : string) :
  name <> CONFIG_SHEET_NAME ->
  updateConfigLastRun rt now ss !! name = ss !! name.
Proof.
  intros Hne. unfold updateConfigLastRun.
  destruct (ss !! CONFIG_SHEET_NAME) as [sheet|]; [|reflexivity].
  cbv zeta. destruct (findRow _ _ 0); [|reflexivity].
  rewrite lookup_insert_ne by congruence. reflexivity.
Qed.

(** The log timestamps can be formatted. *)
Definition logTimesFormat (rt : Services) : Prop :=
  forall t : Z, exists text : string, formatDateTime rt (Some t) CONFIG.TIMEZONE = Ok text.

Lemma logExecution_Ok rt t f d s m x (ss : Spreadsheet) :
  logTimesFormat rt ->
  fst (logExecution rt (mkLogData (DateObject (Some t)) f d s m x) ss) = Ok tt.
Proof.
  intros Hfmt. destruct (Hfmt t) as [text Htext]. unfold logExecution, logRow.
  cbn [logDate]. rewrite Htext. cbn [bind].
  destruct (ss !! LOG_SHEET_NAME); reflexivity.
Qed.

(** After an entry has been made, it is the last row of the log. *)
Lemma logExecution_last_row rt logData (ss : Spreadsheet) (row : Row) :
  logRow rt logData = Ok row ->
  SheetOps.rowIsBlank row = false ->
  fst (logExecution rt logData ss) = Ok tt /\
  exists before : list Row,
    snd (logExecution rt logData ss) !! LOG_SHEET_NAME = Some (before ++ [row])%list.
Proof.
  intros Hrow Hblank. split.
  { unfold logExecution. rewrite Hrow. destruct (ss !! LOG_SHEET_NAME); reflexivity. }
  assert (Hrun : exists logSheet,
            snd (logExecution rt logData ss) !! LOG_SHEET_NAME
            = Some (let appended := SheetOps.appendRow row logSheet in
                    if (maxLogRows + 1 <? SheetOps.getLastRow appended)%nat
                    then RangeOps.deleteRows 2 (SheetOps.getLastRow appended - maxLogRows - 1)
                                             appended
                    else appended)).
  { unfold logExecution.
    destruct (ss !! LOG_SHEET_NAME) as [sheet|]; rewrite Hrow; cbn [snd];
      rewrite lookup_insert_eq; eauto. }
  destruct Hrun as [logSheet ->]. cbv zeta.
  rewrite (getLastRow_appendRow row logSheet Hblank).
  unfold SheetOps.appendRow.
  set (old := firstn (SheetOps.getLastRow logSheet) logSheet).
  assert (Hold : List.length old = SheetOps.getLastRow logSheet).
  { subst old. rewrite length_firstn.
    pose proof (lastContent_le_length SheetOps.rowIsBlank logSheet) as Hle.
    unfold SheetOps.getLastRow. lia. }
  rewrite <- Hold. unfold maxLogRows.
  destruct (Nat.ltb_spec (100 + 1) (Datatypes.S (List.length old))) as [Hlong | Hshort];
    [|exists old; reflexivity].
  unfold RangeOps.deleteRows.
  replace (2 - 1)%nat with 1%nat by lia.
  rewrite firstn_app, skipn_app.
  replace (1 - List.length old)%nat with O by lia.
  replace (1 + (Datatypes.S (List.length old) - 100 - 1) - List.length old)%nat with O by lia.
  cbn [firstn skipn]. rewrite app_nil_r.
  exists (firstn 1 old ++ skipn (1 + (Datatypes.S (List.length old) - 100 - 1)) old)%list.
  rewrite <- app_assoc. reflexivity.
Qed.

Lemma sendNotificationEmail_other_sheets rt h clock outcome targetDate
    (ss : Spreadsheet) outbox (name : string) :
  name <> LOG_SHEET_NAME ->
  snd (fst (sendNotificationEmail rt h clock outcome targetDate ss outbox)) !! name
  = ss !! name.
Proof.
  intros Hne. unfold sendNotificationEmail.
  destruct (negb notificationOn); [reflexivity|].
  destruct (deliver h _); [reflexivity|].
  match goal with
  | |- context [logExecution rt ?d ss] =>
      pose proof (logExecution_other_sheets rt d ss name Hne) as Hlog;
      destruct (logExecution rt d ss) as [r ss']
  end.
  exact Hlog.
Qed.

Lemma sendErrorEmail_other_sheets rt h clock errorMessage
    (ss : Spreadsheet) outbox (name : string) :
  name <> LOG_SHEET_NAME ->
  snd (fst (sendErrorEmail rt h clock errorMessage ss outbox)) !! name = ss !! name.
Proof.
  intros Hne. unfold sendErrorEmail.
  destruct (negb notificationOn); [reflexivity|].
  destruct (deliver h _); [reflexivity|].
  match goal with
  | |- context [logExecution rt ?d ss] =>
      pose proof (logExecution_other_sheets rt d ss name Hne) as Hlog;
      destruct (logExecution rt d ss) as [r ss']
  end.
  exact Hlog.
Qed.

Lemma dailyHistoryFetchFailed_other_sheets rt h clock error (ss : Spreadsheet) outbox sent
    (name : string) :
  name <> LOG_SHEET_NAME ->
  sheetsAfter (dailyHistoryFetchFailed rt h clock error ss outbox sent) !! name = ss !! name.
Proof.
  intros Hne. unfold dailyHistoryFetchFailed.
  match goal with
  | |- context [logExecution rt ?d ss] =>
      pose proof (logExecution_other_sheets rt d ss name Hne) as Hlog;
      destruct (logExecution rt d ss) as [[[] | e] ss']
  end; cbn [snd] in Hlog; [|exact Hlog].
  destruct notificationOn.
  - pose proof (sendErrorEmail_other_sheets rt h clock
                  (Text "自動実行中にエラーが発生しました: " :: message error) ss' outbox name Hne)
      as Hmail.
    destruct (sendErrorEmail rt h clock _ ss' outbox) as [[[[] | e] ss''] outbox'];
      cbn [fst snd sheetsAfter] in *; congruence.
  - exact Hlog.
Qed.

(** X29.  A daily run changes no sheet other than the log sheet and the
    settings sheet, except through [fetchAndSaveTradeHistory]: every other
    sheet, the ledger among them, is after the run what the fetch-and-save
    for yesterday's date left (what it was, when that date could not be
    formatted), whatever is thrown or refused on the way. *)
Theorem dailyHistoryFetch_other_sheets
    (P : Platform) (rt : Services) (h : RunHost) (remote : Remote) (clock : Clock)
    (ss : Spreadsheet) (outbox : list Email) (name : string) :
  name <> LOG_SHEET_NAME ->
  name <> CONFIG_SHEET_NAME ->
  sheetsAfter (dailyHistoryFetch P rt h remote clock ss outbox) !! name
  = match formatDate P (Some (previousDay h (startTime clock))) CONFIG.TIMEZONE with
    | Ok formattedDate =>
        snd (fst (fetchAndSaveTradeHistory P remote formattedDate ss)) !! name
    | Throw _ => ss !! name
    end.
Proof.
  intros Hlog Hconfig. unfold dailyHistoryFetch. cbv zeta.
  destruct (formatDate P _ _) as [d | e];
    [|apply dailyHistoryFetchFailed_other_sheets, Hlog].
  destruct (fetchAndSaveTradeHistory P remote d ss) as [[outcome ss1] sent]. cbn [fst snd].
  match goal with
  | |- context [logExecution rt ?entry ss1] =>
      pose proof (logExecution_other_sheets rt entry ss1 name Hlog) as H1;
      destruct (logExecution rt entry ss1) as [[[] | e] ss2]
  end; cbn [snd] in H1.
  2: { rewrite dailyHistoryFetchFailed_other_sheets by exact Hlog. exact H1. }
  pose proof (updateConfigLastRun_other_sheets rt (lastRunTime clock) ss2 name Hconfig) as H2.
  destruct notificationOn.
  - pose proof (sendNotificationEmail_other_sheets rt h clock outcome d
                  (updateConfigLastRun rt (lastRunTime clock) ss2) outbox name Hlog) as H3.
    destruct (sendNotificationEmail rt h clock outcome d _ outbox) as [[[[] | e] ss3] outbox'];
      cbn [fst snd sheetsAfter] in *.
    + congruence.
    + rewrite dailyHistoryFetchFailed_other_sheets by exact Hlog. congruence.
  - cbn [sheetsAfter]. congruence.
Qed.

Lemma sendNotificationEmail_Ok rt h clock outcome targetDate (ss : Spreadsheet) outbox :
  logTimesFormat rt ->
  fst (fst (sendNotificationEmail rt h clock outcome targetDate ss outbox)) = Ok tt.
Proof.
  intros Hfmt. unfold sendNotificationEmail.
  destruct (negb notificationOn); [reflexivity|].
  destruct (deliver h _); [reflexivity|].
  match goal with
  | |- context [logExecution rt ?d ss] =>
      pose proof (logExecution_Ok rt _ _ _ _ _ _ ss Hfmt : fst (logExecution rt d ss) = Ok tt)
        as Hlog;
      destruct (logExecution rt d ss) as [r ss']
  end.
  exact Hlog.
Qed.

Lemma sendErrorEmail_Ok rt h clock errorMessage (ss : Spreadsheet) outbox :
  logTimesFormat rt ->
  fst (fst (sendErrorEmail rt h clock errorMessage ss outbox)) = Ok tt.
Proof.
  intros Hfmt. unfold sendErrorEmail.
  destruct (negb notificationOn); [reflexivity|].
  destruct (deliver h _); [reflexivity|].
  match goal with
  | |- context [logExecution rt ?d ss] =>
      pose proof (logExecution_Ok rt _ _ _ _ _ _ ss Hfmt : fst (logExecution rt d ss) = Ok tt)
        as Hlog;
      destruct (logExecution rt d ss) as [r ss']
  end.
  exact Hlog.
Qed.

Lemma dailyHistoryFetchFailed_returns rt h clock error (ss : Spreadsheet) outbox sent :
  logTimesFormat rt ->
  returned (dailyHistoryFetchFailed rt h clock error ss outbox sent)
  = Ok (SaveFailed (Text "自動実行中にエラーが発生しました: " :: message error)).
Proof.
  intros Hfmt. unfold dailyHistoryFetchFailed.
  match goal with
  | |- context [logExecution rt ?d ss] =>
      pose proof (logExecution_Ok rt _ _ _ _ _ _ ss Hfmt : fst (logExecution rt d ss) = Ok tt)
        as Hlog;
      destruct (logExecution rt d ss) as [[[] | e] ss']
  end; [|discriminate Hlog].
  destruct notificationOn; [|reflexivity].
  pose proof (sendErrorEmail_Ok rt h clock
                (Text "自動実行中にエラーが発生しました: " :: message error) ss' outbox Hfmt)
    as Hmail.
  destruct (sendErrorEmail rt h clock _ ss' outbox) as [[[[] | e] ss''] outbox'];
    [reflexivity | discriminate Hmail].
Qed.

(** X26.  As long as the timestamps of the log can be formatted, a daily
    run does not throw, whatever the provider answers and whether or not
    the mail is accepted: it returns the result of the fetch-and-save for
    yesterday's date, or, when that date could not be formatted, a failure
    with the message of the error. *)
Theorem dailyHistoryFetch_returns
    (P : Platform) (rt : Services) (h : RunHost) (remote : Remote) (clock : Clock)
    (ss : Spreadsheet) (outbox : list Email) :
  logTimesFormat rt ->
  returned (dailyHistoryFetch P rt h remote clock ss outbox)
  = match formatDate P (Some (previousDay h (startTime clock))) CONFIG.TIMEZONE with
    | Ok formattedDate => Ok (fst (fst (fetchAndSaveTradeHistory P remote formattedDate ss)))
    | Throw error =>
        Ok (SaveFailed (Text "自動実行中にエラーが発生しました: " :: message error))
    end.
Proof.
  intros Hfmt. unfold dailyHistoryFetch. cbv zeta.
  destruct (formatDate P _ _) as [d | e];
    [|apply dailyHistoryFetchFailed_returns, Hfmt].
  destruct (fetchAndSaveTradeHistory P remote d ss) as [[outcome ss1] sent]. cbn [fst snd].
  match goal with
  | |- context [logExecution rt ?entry ss1] =>
      pose proof (logExecution_Ok rt _ _ _ _ _ _ ss1 Hfmt : fst (logExecution rt entry ss1) = Ok tt)
        as Hlog;
      destruct (logExecution rt entry ss1) as [[[] | e] ss2]
  end; [|discriminate Hlog].
  destruct notificationOn; [|reflexivity].
  pose proof (sendNotificationEmail_Ok rt h clock outcome d
                (updateConfigLastRun rt (lastRunTime clock) ss2) outbox Hfmt) as Hmail.
  destruct (sendNotificationEmail rt h clock outcome d _ outbox) as [[[[] | e] ss3] outbox'];
    [reflexivity | discriminate Hmail].
Qed.

Lemma rowIsBlank_named (c : Cell) (name : string) (rest : Row) :
  String.eqb name "" = false -> SheetOps.rowIsBlank (c :: CStr name :: rest) = false.
Proof.
  intros H. unfold SheetOps.rowIsBlank. cbn [forallb isBlank]. rewrite H.
  apply andb_false_r.
Qed.

(** The row of the log for the run. *)
Definition runEntry (rt : Services) (text formattedDate : string) (outcome : SaveResult)
    (details : Cell) : Row :=
  [CStr text; CStr "dailyHistoryFetch"; CStr formattedDate;
   CStr (if saveSucceeded outcome then "成功" else "失敗");
   CStr (render rt (resultMessage outcome)); details].

(** X27.  A run in which the date and the log timestamp are formatted and
    the mail is accepted returns the result of the fetch-and-save, makes
    one entry as the last row of the log, whose status says success
    exactly when the result is a success, and sends one mail to the
    configured address, whose subject says success exactly when the
    result is a success. *)
Theorem dailyHistoryFetch_logs_and_mails
    (P : Platform) (rt : Services) (h : RunHost) (remote : Remote) (clock : Clock)
    (ss : Spreadsheet) (outbox : list Email) (formattedDate text : string) :
  formatDate P (Some (previousDay h (startTime clock))) CONFIG.TIMEZONE = Ok formattedDate ->
  formatDateTime rt (Some (logTime clock)) CONFIG.TIMEZONE = Ok text ->
  let outcome := fst (fst (fetchAndSaveTradeHistory P remote formattedDate ss)) in
  let email := notificationEmail rt h clock outcome formattedDate in
  deliver h email = Ok tt ->
  let run := dailyHistoryFetch P rt h remote clock ss outbox in
  returned run = Ok outcome /\
  outboxAfter run = (outbox ++ [email])%list /\
  to email = NOTIFICATION_EMAIL /\
  subject email
  = (if saveSucceeded outcome
     then [Text "✅ トレード履歴取得成功 ("; Text formattedDate; Text ")"]
     else [Text "❌ トレード履歴取得失敗 ("; Text formattedDate; Text ")"]) /\
  exists (before : list Row) (details : Cell),
    sheetsAfter run !! LOG_SHEET_NAME
    = Some (before ++ [runEntry rt text formattedDate outcome details])%list.
Proof.
  intros Hdate Htext outcome email Hmail run. subst run outcome email.
  unfold dailyHistoryFetch. cbv zeta. rewrite Hdate.
  destruct (fetchAndSaveTradeHistory P remote formattedDate ss) as [[outcome ss1] sent].
  cbn [fst snd] in *.
  set (entry := mkLogData (DateObject (Some (logTime clock))) "dailyHistoryFetch"
                          formattedDate (statusText outcome) (resultMessage outcome)
                          (resultDetails P h outcome)).
  set (details := if cellTruthy (resultDetails P h outcome)
                  then resultDetails P h outcome else blank).
  assert (Hrow : logRow rt entry = Ok (runEntry rt text formattedDate outcome details)).
  { unfold logRow, entry. cbn [logDate logFunction logTargetDate logStatus logMessage logDetails].
    rewrite Htext. reflexivity. }
  destruct (logExecution_last_row rt entry ss1 _ Hrow
              (rowIsBlank_named (CStr text) "dailyHistoryFetch" _ eq_refl))
    as [Hok (before & Hlog)].
  destruct (logExecution rt entry ss1) as [[[] | e] ss2]; cbn [fst snd] in *;
    [|discriminate Hok].
  change notificationOn with true. cbv iota.
  unfold sendNotificationEmail. change (negb notificationOn) with false. cbv iota zeta.
  rewrite Hmail. cbn [returned outboxAfter sheetsAfter].
  split; [reflexivity|]. split; [reflexivity|]. split; [reflexivity|].
  split; [unfold notificationEmail; cbn [subject]; reflexivity|].
  exists before, details.
  rewrite updateConfigLastRun_other_sheets by discriminate. exact Hlog.
Qed.

(** X28.  When the mail is refused, the run does not fail: it returns the
    result of the fetch-and-save, sends nothing, and the refusal is the
    last row of the log, entered by [sendNotificationEmail] as a failure
    with the message of the exception. *)
Theorem dailyHistoryFetch_refused_mail
    (P : Platform) (rt : Services) (h : RunHost) (remote : Remote) (clock : Clock)
    (ss : Spreadsheet) (outbox : list Email) (formattedDate text text' : string)
    (error : JSError) :
  formatDate P (Some (previousDay h (startTime clock))) CONFIG.TIMEZONE = Ok formattedDate ->
  formatDateTime rt (Some (logTime clock)) CONFIG.TIMEZONE = Ok text ->
  formatDateTime rt (Some (mailFailureTime clock)) CONFIG.TIMEZONE = Ok text' ->
  let outcome := fst (fst (fetchAndSaveTradeHistory P remote formattedDate ss)) in
  deliver h (notificationEmail rt h clock outcome formattedDate) = Throw error ->
  let run := dailyHistoryFetch P rt h remote clock ss outbox in
  returned run = Ok outcome /\
  outboxAfter run = outbox /\
  exists (before : list Row) (details : Cell),
    sheetsAfter run !! LOG_SHEET_NAME
    = Some (before ++
            [[CStr text'; CStr "sendNotificationEmail"; CStr formattedDate; CStr "失敗";
              CStr (render rt (Text "メール送信中にエラーが発生しました: " :: message error));
              details]])%list.
Proof.
  intros Hdate Htext Htext' outcome Hmail run. subst run outcome.
  unfold dailyHistoryFetch. cbv zeta. rewrite Hdate.
  destruct (fetchAndSaveTradeHistory P remote formattedDate ss) as [[outcome ss1] sent].
  cbn [fst snd] in *.
  set (entry := mkLogData (DateObject (Some (logTime clock))) "dailyHistoryFetch"
                          formattedDate (statusText outcome) (resultMessage outcome)
                          (resultDetails P h outcome)).
  assert (Hrow : exists row, logRow rt entry = Ok row /\ SheetOps.rowIsBlank row = false).
  { eexists. unfold logRow, entry.
    cbn [logDate logFunction logTargetDate logStatus logMessage logDetails].
    rewrite Htext.
    split; [reflexivity | exact (rowIsBlank_named (CStr text) "dailyHistoryFetch" _ eq_refl)]. }
  destruct Hrow as (row & Hrow & Hblank).
  destruct (logExecution_last_row rt entry ss1 row Hrow Hblank) as [Hok _].
  destruct (logExecution rt entry ss1) as [[[] | e] ss2]; cbn [fst snd] in *;
    [|discriminate Hok].
  change notificationOn with true. cbv iota.
  unfold sendNotificationEmail. change (negb notificationOn) with false. cbv iota zeta.
  rewrite Hmail.
  set (refusal := mkLogData (DateObject (Some (mailFailureTime clock))) "sendNotificationEmail"
                            formattedDate "失敗"
                            (Text "メール送信中にエラーが発生しました: " :: message error)
                            (stackOf h error)).
  set (details := if cellTruthy (stackOf h error) then stackOf h error else blank).
  assert (Hrow' : logRow rt refusal
                  = Ok [CStr text'; CStr "sendNotificationEmail"; CStr formattedDate;
                        CStr "失敗"; CStr (render rt (logMessage refusal)); details]).
  { unfold logRow, refusal.
    cbn [logDate logFunction logTargetDate logStatus logMessage logDetails].
    rewrite Htext'. reflexivity. }
  destruct (logExecution_last_row rt refusal
              (updateConfigLastRun rt (lastRunTime clock) ss2) _ Hrow'
              (rowIsBlank_named (CStr text') "sendNotificationEmail" _ eq_refl))
    as [Hok' (before & Hlog)].
  destruct (logExecution rt refusal _) as [[[] | e] ss3]; cbn [fst snd] in *;
    [|discriminate Hok'].
  cbn [returned outboxAfter sheetsAfter].
  split; [reflexivity|]. split; [reflexivity|].
  exists before, details. exact Hlog.
Qed.

Lemma tokyoServices_logTimesFormat : logTimesFormat tokyoServices.
Proof.
  intros t. cbn [formatDateTime tokyoServices]. unfold formatYMDHMS, Host.formatYMD.
  destruct (JSDate.civilFromDays _) as [[y m] d]. cbn [bind]. eauto.
Qed.

Lemma dailyHistoryFetch_returns_witness :
  logTimesFormat tokyoServices /\
  returned (dailyHistoryFetch Host.tokyoFromTrigger tokyoServices (office false) mixedRemote
              morningClock ∅ [])
  = Ok (fst (fst (fetchAndSaveTradeHistory Host.tokyoFromTrigger mixedRemote "2025-05-09" ∅))).
Proof.
  split; [exact tokyoServices_logTimesFormat|].
  exact (dailyHistoryFetch_returns Host.tokyoFromTrigger tokyoServices (office false)
           mixedRemote morningClock ∅ [] tokyoServices_logTimesFormat).
Defined.

Lemma dailyHistoryFetch_logs_and_mails_witness :
  let outcome :=
    fst (fst (fetchAndSaveTradeHistory Host.tokyoFromTrigger mixedRemote "2025-05-09" ∅)) in
  let email := notificationEmail tokyoServices (office true) morningClock outcome "2025-05-09" in
  let run := dailyHistoryFetch Host.tokyoFromTrigger tokyoServices (office true) mixedRemote
               morningClock ∅ [] in
  (formatDate Host.tokyoFromTrigger
     (Some (previousDay (office true) (startTime morningClock))) CONFIG.TIMEZONE
   = Ok "2025-05-09" /\
   formatDateTime tokyoServices (Some (logTime morningClock)) CONFIG.TIMEZONE
   = Ok "2025-05-10 08:00:06" /\
   deliver (office true) email = Ok tt) /\
  returned run = Ok outcome /\
  outboxAfter run = [email] /\
  to email = NOTIFICATION_EMAIL /\
  subject email = [Text "✅ トレード履歴取得成功 ("; Text "2025-05-09"; Text ")"] /\
  exists (before : list Row) (details : Cell),
    sheetsAfter run !! LOG_SHEET_NAME
    = Some (before ++
            [runEntry tokyoServices "2025-05-10 08:00:06" "2025-05-09" outcome details])%list.
Proof.
  intros outcome email run.
  assert (H1 : formatDate Host.tokyoFromTrigger
                 (Some (previousDay (office true) (startTime morningClock))) CONFIG.TIMEZONE
               = Ok "2025-05-09") by (vm_compute; reflexivity).
  assert (H2 : formatDateTime tokyoServices (Some (logTime morningClock)) CONFIG.TIMEZONE
               = Ok "2025-05-10 08:00:06") by (vm_compute; reflexivity).
  assert (H3 : deliver (office true) email = Ok tt) by reflexivity.
  split; [repeat split; assumption|].
  pose proof (dailyHistoryFetch_logs_and_mails Host.tokyoFromTrigger tokyoServices (office true)
                mixedRemote morningClock ∅ [] "2025-05-09" "2025-05-10 08:00:06" H1 H2 H3)
    as (Hr & Ho & Hto & Hsubject & Hlog).
  split; [exact Hr|]. split; [exact Ho|]. split; [exact Hto|].
  split; [|exact Hlog].
  etransitivity; [exact Hsubject | vm_compute; reflexivity].
Defined.

Lemma dailyHistoryFetch_refused_mail_witness :
  let refusal := Error [Text "Service invoked too many times for one day: email."] in
  let outcome :=
    fst (fst (fetchAndSaveTradeHistory Host.tokyoFromTrigger mixedRemote "2025-05-09" ∅)) in
  let run := dailyHistoryFetch Host.tokyoFromTrigger tokyoServices (office false) mixedRemote
               morningClock ∅ [] in
  (formatDate Host.tokyoFromTrigger
     (Some (previousDay (office false) (startTime morningClock))) CONFIG.TIMEZONE
   = Ok "2025-05-09" /\
   formatDateTime tokyoServices (Some (logTime morningClock)) CONFIG.TIMEZONE
   = Ok "2025-05-10 08:00:06" /\
   formatDateTime tokyoServices (Some (mailFailureTime morningClock)) CONFIG.TIMEZONE
   = Ok "2025-05-10 08:00:09" /\
   deliver (office false)
     (notificationEmail tokyoServices (office false) morningClock outcome "2025-05-09")
   = Throw refusal) /\
  returned run = Ok outcome /\
  outboxAfter run = [] /\
  exists (before : list Row) (details : Cell),
    sheetsAfter run !! LOG_SHEET_NAME
    = Some (before ++
            [[CStr "2025-05-10 08:00:09"; CStr "sendNotificationEmail"; CStr "2025-05-09";
              CStr "失敗";
              CStr (render tokyoServices
                      (Text "メール送信中にエラーが発生しました: " :: message refusal));
              details]])%list.
Proof.
  intros refusal outcome run.
  assert (H1 : formatDate Host.tokyoFromTrigger
                 (Some (previousDay (office false) (startTime morningClock))) CONFIG.TIMEZONE
               = Ok "2025-05-09") by (vm_compute; reflexivity).
  assert (H2 : formatDateTime tokyoServices (Some (logTime morningClock)) CONFIG.TIMEZONE
               = Ok "2025-05-10 08:00:06") by (vm_compute; reflexivity).
  assert (H3 : formatDateTime tokyoServices (Some (mailFailureTime morningClock))
                 CONFIG.TIMEZONE
               = Ok "2025-05-10 08:00:09") by (vm_compute; reflexivity).
  assert (H4 : deliver (office false)
                 (notificationEmail tokyoServices (office false) morningClock outcome
                    "2025-05-09")
               = Throw refusal) by reflexivity.
  split; [repeat split; assumption|].
  exact (dailyHistoryFetch_refused_mail Host.tokyoFromTrigger tokyoServices (office false)
           mixedRemote morningClock ∅ [] "2025-05-09" "2025-05-10 08:00:06"
           "2025-05-10 08:00:09" refusal H1 H2 H3 H4).
Defined.

Lemma dailyHistoryFetch_other_sheets_witness :
  (CONFIG.HISTORY_SHEET_NAME <> LOG_SHEET_NAME /\
   CONFIG.HISTORY_SHEET_NAME <> CONFIG_SHEET_NAME) /\
  sheetsAfter (dailyHistoryFetch Host.tokyoFromTrigger tokyoServices (office true) mixedRemote
                 morningClock twoDayBook []) !! CONFIG.HISTORY_SHEET_NAME
  = snd (fst (fetchAndSaveTradeHistory Host.tokyoFromTrigger mixedRemote "2025-05-09"
                twoDayBook)) !! CONFIG.HISTORY_SHEET_NAME.
Proof.
  assert (H1 : CONFIG.HISTORY_SHEET_NAME <> LOG_SHEET_NAME) by discriminate.
  assert (H2 : CONFIG.HISTORY_SHEET_NAME <> CONFIG_SHEET_NAME) by discriminate.
  split; [split; assumption|].
  exact (dailyHistoryFetch_other_sheets Host.tokyoFromTrigger tokyoServices (office true)
           mixedRemote morningClock twoDayBook [] CONFIG.HISTORY_SHEET_NAME H1 H2).
Defined.

Example dailyHistoryFetch_morning :
  let run := dailyHistoryFetch Host.tokyoFromTrigger tokyoServices (office true) mixedRemote
               morningClock twoDayBook [] in
  sheetsAfter run !! CONFIG.HISTORY_SHEET_NAME
  = Some [headerRow;
          fillRowOf (CStr "2025-05-08T14:00:00.000000+00:00");
          [CNum 10; CNum 1; CStr "CON.F.US.MNQ.M25"; CStr "2025-05-09T01:00:00.000000+00:00";
           CNum 21000; CNum 5; CNum 0.74; CStr "買い"; CNum 1; CStr "いいえ"; CNum 77];
          [CNum 10; CNum 3; CStr "CON.F.US.MNQ.M25"; CStr "2025-05-09T01:00:00.000000+00:00";
           CNum 21000; CNum 5; CNum 0.74; CStr "買い"; CNum 1; CStr "いいえ"; CNum 77]] /\
  List.length (outboxAfter run) = 1%nat /\
  List.length (requestsSent run) = 4%nat.
Proof. cbv zeta. repeat split; vm_compute; reflexivity. Qed.

(* ===================================================================== *)
(** ** The sheets of the daily-profit script *)
(* ===================================================================== *)



(** A spreadsheet that has a 使用方法 sheet of its own keeps it. *)
Example setupNewTrackingSheet_keeps_manual :
  let ss : Spreadsheet := {[ instructionSheetName := [[CStr "memo"]] ]} in
  setupNewTrackingSheet ss !! instructionSheetName = Some [[CStr "memo"]] /\
  setupNewTrackingSheet ss !! trackingSheetName = Some [List.map CStr newHeader].
Proof. cbv zeta. split; vm_compute; reflexivity. Qed.
